(** * astracloud: the authentication core of the career-advisor backend

    A shallow embedding of the Express server (startup configuration, the
    `protect` middleware, the signup, login, profile, logout and chat
    routes), of the Mongoose user model (`models/User`: schema, pre-save
    hook, `comparePassword`) and of the chat service (`services/aiService`),
    followed by the properties the specification states about them. The
    earlier server module and the parts of the frontend that talk to the
    server (the signup and login forms, the session state of `App`, the
    profile fetch of the dashboard) are embedded as well, with further
    properties of the code at the end.

    Conventions of the embedding:
    - a JavaScript string is a sequence of code units, and a [string] of
      this file is such a sequence with every unit below 256 (the range
      U+0000 to U+00FF, Latin-1), one [ascii] per unit. On that range the
      string methods below are the ones of JavaScript, letter case and
      white space included; strings with a unit above U+00FF are outside
      the embedding. A literal of this file that shows a character beyond
      ASCII holds the bytes of its UTF-8 form, which is another string:
      'Ä' is [ascii_of_nat 196];
    - a JavaScript value that arrives in a JSON body is a [jsval]. A
      number is [JNum n] when it is an integer of magnitude at most 2^53
      (those print as their decimal digits), and [JReal text] otherwise,
      [text] being what `String(v)` gives for it ("1e+21", "0.5",
      "Infinity"); `!v` is [negb (truthy v)];
    - a `try { ... } catch` block is a computation in the state-and-exception
      monad [App]; a rejected promise is a [Throw];
    - the clock, the random source and the ObjectId generator are read from
      an explicit [Env]; requests are served one at a time;
    - the packages the code imports (bcryptjs, jsonwebtoken, mongoose, the
      Ollama endpoint behind `fetch`) are not part of the repository. What
      the schema and the call sites determine of them is modelled; the rest
      is an interface: a type class of operations, with the documented
      contract as a separate class of hypotheses where a property needs
      one. *)

From Stdlib Require Import ZArith Lia Bool Ascii String List DecimalString DecimalZ.
From stdpp Require Import base option strings list gmap.

#[local] Set Warnings "-register-all".
Local Open Scope Z_scope.

(** ** Strings: the `String.prototype` methods the code calls *)

Module Str.

(** The lower-case form of a code unit below 256: 'A' to 'Z', and 'À' to
    'Þ' without the multiplication sign (U+00D7), move up by 32; nothing
    else has another lower-case form on this range. *)
Definition lower_ascii (c : ascii) : ascii :=
  let n := nat_of_ascii c in
  if ((65 <=? n)%nat && (n <=? 90)%nat
      || (192 <=? n)%nat && (n <=? 222)%nat && negb (n =? 215)%nat)%bool
  then ascii_of_nat (n + 32) else c.

(** `s.toLowerCase()` *)
Fixpoint toLowerCase (s : string) : string :=
  match s with
  | EmptyString => EmptyString
  | String c s' => String (lower_ascii c) (toLowerCase s')
  end.

(** White space as `trim` and `parseInt` see it: tab, LF, VT, FF, CR,
    space and the no-break space U+00A0 (the other white space of
    JavaScript lies above U+00FF). *)
Definition is_space (c : ascii) : bool :=
  let n := nat_of_ascii c in
  ((9 <=? n)%nat && (n <=? 13)%nat || (n =? 32)%nat || (n =? 160)%nat)%bool.

Fixpoint trimStart (s : string) : string :=
  match s with
  | EmptyString => EmptyString
  | String c s' => if is_space c then trimStart s' else s
  end.

Fixpoint trimEnd (s : string) : string :=
  match s with
  | EmptyString => EmptyString
  | String c s' =>
      match trimEnd s' with
      | EmptyString => if is_space c then EmptyString else String c EmptyString
      | t => String c t
      end
  end.

(** `s.trim()` *)
Definition trim (s : string) : string := trimEnd (trimStart s).

(** `s.startsWith(p)` *)
Definition startsWith (s p : string) : bool := String.prefix p s.

(** `s.split(' ')`: the pieces between single spaces, empty pieces kept. *)
Fixpoint split_space (s : string) : list string :=
  match s with
  | EmptyString => [EmptyString]
  | String c s' =>
      if Ascii.eqb c " " then EmptyString :: split_space s'
      else match split_space s' with
           | [] => [String c EmptyString]
           | piece :: pieces => String c piece :: pieces
           end
  end.

(** `s.includes(p)` *)
Fixpoint includes (s p : string) : bool :=
  String.prefix p s ||
  match s with
  | EmptyString => false
  | String _ s' => includes s' p
  end.

(** The first of the patterns [ps] that [s] starts with. *)
Fixpoint match_at (ps : list string) (s : string) : option string :=
  match ps with
  | [] => None
  | p :: ps' => if String.prefix p s then Some p else match_at ps' s
  end.

(** `s.replace(/p1|p2|.../g, '')` for literal, non-empty patterns:
    [skip] counts the characters of a match still to be dropped. *)
Fixpoint remove_all_from (skip : nat) (ps : list string) (s : string) : string :=
  match s with
  | EmptyString => EmptyString
  | String c s' =>
      match skip with
      | S k => remove_all_from k ps s'
      | O =>
          match match_at ps s with
          | Some p => remove_all_from (Nat.pred (String.length p)) ps s'
          | None => String c (remove_all_from O ps s')
          end
      end
  end.

Definition remove_all (ps : list string) (s : string) : string :=
  remove_all_from O ps s.

(** `String(n)` for an integer. *)
Definition of_Z (n : Z) : string := NilZero.string_of_int (Z.to_int n).

Definition has_space (s : string) : bool := includes s " ".

(** A string that does not begin with white space. *)
Definition clean_start (s : string) : Prop :=
  match s with
  | EmptyString => True
  | String c _ => is_space c = false
  end.

End Str.

(** ** JavaScript values *)

Module Js.

(** A value of a parsed JSON body, or one the code computes. [JNum n] is
    the Number [n], an integer with [|n| <= 2^53]; every other Number (a
    fraction, an integer further out, `Infinity`) is [JReal text], where
    [text] is its `String(v)`: the code reads a number only through its
    truth value, its type and its text. Negative zero is [JNum 0]. An
    absent key reads as [JUndefined], and a key whose value is
    [JUndefined] is one `JSON.stringify` leaves out. *)
Inductive jsval : Type :=
| JUndefined
| JNull
| JBool (b : bool)
| JNum (n : Z)
| JReal (text : string)
| JStr (s : string)
| JArr (xs : list jsval)
| JObj (fields : list (string * jsval)).

(** `!!v`: `undefined`, `null`, `false`, `0` and the empty string are
    falsy; everything else (objects and arrays included) is truthy. *)
Definition truthy (v : jsval) : bool :=
  match v with
  | JUndefined | JNull => false
  | JBool b => b
  | JNum n => negb (n =? 0)
  | JReal _ => true
  | JStr s => negb (String.eqb s "")
  | JArr _ | JObj _ => true
  end.

(** `typeof v` *)
Definition typeof (v : jsval) : string :=
  match v with
  | JUndefined => "undefined"
  | JBool _ => "boolean"
  | JNum _ | JReal _ => "number"
  | JStr _ => "string"
  | JNull | JArr _ | JObj _ => "object"
  end.

(** `typeof v === 'string'` *)
Definition is_string (v : jsval) : bool :=
  match v with JStr _ => true | _ => false end.

(** Property access on a parsed object: `obj[k]`, `undefined` when the key
    is absent or the value is not an object. *)
Fixpoint assoc (k : string) (fields : list (string * jsval)) : jsval :=
  match fields with
  | [] => JUndefined
  | (k', v) :: rest => if String.eqb k k' then v else assoc k rest
  end.

Definition get (k : string) (obj : jsval) : jsval :=
  match obj with
  | JObj fields => assoc k fields
  | _ => JUndefined
  end.

(** Does the key occur anywhere in the value, at any depth? *)
Fixpoint mentions (k : string) (v : jsval) {struct v} : bool :=
  match v with
  | JArr xs =>
      (fix any (l : list jsval) : bool :=
         match l with [] => false | x :: l' => mentions k x || any l' end) xs
  | JObj fields =>
      (fix any (l : list (string * jsval)) : bool :=
         match l with
         | [] => false
         | (k', x) :: l' => String.eqb k k' || mentions k x || any l'
         end) fields
  | _ => false
  end.

(** `String(v)` *)
Fixpoint toString (v : jsval) : string :=
  match v with
  | JUndefined => "undefined"
  | JNull => "null"
  | JBool b => if b then "true" else "false"
  | JNum n => Str.of_Z n
  | JReal text => text
  | JStr s => s
  | JArr xs =>
      (fix join (l : list jsval) : string :=
         match l with
         | [] => ""
         | x :: l' =>
             let piece := match x with
                          | JUndefined | JNull => ""
                          | _ => toString x
                          end in
             match l' with
             | [] => piece
             | _ => piece ++ "," ++ join l'
             end
         end) xs
  | JObj _ => "[object Object]"
  end%string.

Definition digit_of (radix : Z) (c : ascii) : option Z :=
  let n := Z.of_nat (nat_of_ascii c) in
  let d := if (48 <=? n) && (n <=? 57) then n - 48
           else if (97 <=? n) && (n <=? 122) then n - 87
           else if (65 <=? n) && (n <=? 90) then n - 55
           else radix in
  if d <? radix then Some d else None.

Fixpoint digits (radix : Z) (acc : option Z) (s : string) : option Z :=
  match s with
  | EmptyString => acc
  | String c s' =>
      match digit_of radix c with
      | Some d => digits radix (Some (radix * default 0 acc + d)) s'
      | None => acc
      end
  end.

(** `parseInt(v)` without a radix: `String(v)`, then leading white space,
    a sign, an optional `0x`, then the longest run of digits; [None] is
    `NaN`. A result beyond 2^53 stands for the number JavaScript rounds it
    to (`Infinity` at the far end); the code does nothing with such a
    result but compare it with 13 and 100. *)
Definition parseInt (v : jsval) : option Z :=
  let s := Str.trimStart (toString v) in
  let '(neg, s) := match s with
                   | String "-" s' => (true, s')
                   | String "+" s' => (false, s')
                   | _ => (false, s)
                   end in
  let '(radix, s) := match s with
                     | String "0" (String "x" s') => (16, s')
                     | String "0" (String "X" s') => (16, s')
                     | _ => (10, s)
                     end in
  match digits radix None s with
  | Some n => Some (if neg then - n else n)
  | None => None
  end.

Definition opt {A} (f : A -> jsval) (o : option A) : jsval :=
  match o with Some a => f a | None => JUndefined end.

(** An `Error` object: its `name`, its `code` (set by the MongoDB driver)
    and its `message`. *)
Record error : Type := Error { name : string; code : option Z; message : string }.

End Js.
Import Js (jsval(..), truthy).

(** ** Exceptions and state: the monad of a `try` block *)

Inductive outcome (A : Type) : Type :=
| Ok (a : A)
| Throw (e : Js.error).
Arguments Ok {A} a.
Arguments Throw {A} e.

(** A computation over a state [S] that returns or throws; the state
    survives a throw (what was written before the exception stays
    written). *)
Definition App (S A : Type) : Type := S -> outcome A * S.

Definition ret {S A} (a : A) : App S A := fun s => (Ok a, s).

Definition throw {S A} (e : Js.error) : App S A := fun s => (Throw e, s).

Definition bind {S A B} (c : App S A) (k : A -> App S B) : App S B :=
  fun s => match c s with
           | (Ok a, s') => k a s'
           | (Throw e, s') => (Throw e, s')
           end.

(** `try { c } catch (error) { h error }` *)
Definition try_catch {S A} (c : App S A) (h : Js.error -> App S A) : App S A :=
  fun s => match c s with
           | (Ok a, s') => (Ok a, s')
           | (Throw e, s') => h e s'
           end.

(** `await p` for a promise that settled to [o]. *)
Definition await {S A} (o : outcome A) : App S A := fun s => (o, s).

Definition get_state {S} : App S S := fun s => (Ok s, s).

Definition put_state {S} (s' : S) : App S unit := fun _ => (Ok tt, s').

(** [App S] with stdpp's monad notation: `x ← c; k` is [bind c (fun x => k)]. *)
#[global] Instance App_ret {S} : MRet (App S) := fun A => @ret S A.
#[global] Instance App_bind {S} : MBind (App S) := fun A B k c => @bind S A B c k.

(** What a handler reads from the outside world during one request. *)
Record Env : Type := {
  now : Z;            (* `Date.now()`, milliseconds *)
  random : string;    (* the entropy `bcrypt.genSalt` draws *)
  objectId : string   (* the `_id` a `new User(...)` is given *)
}.

(** ** The imported packages, as interfaces *)

(** *** bcryptjs

    `genSalt(rounds)`, `hash(s, salt)` and `compare(s, hash)` as the
    package documents and implements them. What stays a parameter is the
    salt generator and the cipher itself ([bcrypt_crypt]: from the key and
    a salt to the 60 characters of a hash, or an error for a salt it does
    not accept). What the package does around the cipher is written out:
    the key is made of the UTF-8 bytes of the secret and a zero byte,
    repeated, and the cipher reads 72 bytes of it; `compare` refuses what
    is not a string, answers false to a text that is not 60 characters
    long, and otherwise hashes the candidate with the first 29 characters
    of the hash as salt and compares the two texts. *)
Class Bcrypt : Type := {
  bcrypt_genSalt : nat -> string -> string;
  bcrypt_crypt : string -> string -> outcome string
}.

(** The UTF-8 bytes of a string of code units below 256: a unit below 128
    is one byte, another one is two. *)
Fixpoint bcrypt_utf8 (s : string) : string :=
  match s with
  | EmptyString => EmptyString
  | String c s' =>
      let n := nat_of_ascii c in
      if (n <? 128)%nat then String c (bcrypt_utf8 s')
      else String (ascii_of_nat (192 + n / 64))
             (String (ascii_of_nat (128 + n mod 64)) (bcrypt_utf8 s'))
  end.

Fixpoint bcrypt_repeat (n : nat) (block : string) : string :=
  match n with
  | O => EmptyString
  | S k => (block ++ bcrypt_repeat k block)%string
  end.

(** The 72 bytes of key the cipher reads: the bytes of the secret and a
    zero byte, over and over. *)
Definition bcrypt_key (s : string) : string :=
  String.substring 0 72
    (bcrypt_repeat 72 (bcrypt_utf8 s ++ String (ascii_of_nat 0) EmptyString)).

(** `bcrypt.hash(s, salt)` for two strings. *)
Definition bcrypt_hash `{Bcrypt} (s salt : string) : outcome string :=
  bcrypt_crypt (bcrypt_key s) salt.

(** `bcrypt.compare(s, hash)` for a stored [hash]:
<<
  if (typeof s !== "string" || typeof hash !== "string")
    -> Error("Illegal arguments: " + (typeof s) + ', ' + (typeof hash))
  if (hash.length !== 60) -> false
  bcrypt.hash(s, hash.substr(0, 29)) -> safeStringCompare(comp, hash)
>> *)
Definition bcrypt_compare `{Bcrypt} (s : jsval) (hash : string) : outcome bool :=
  match s with
  | JStr candidate =>
      if negb (String.length hash =? 60)%nat then Ok false
      else
        match bcrypt_hash candidate (String.substring 0 29 hash) with
        | Ok comp => Ok (String.eqb comp hash)
        | Throw e => Throw e
        end
  | _ =>
      Throw {| Js.name := "Error"; Js.code := None;
               Js.message := "Illegal arguments: " ++ Js.typeof s ++ ", string" |}
  end%string.

(** The format of a bcrypt hash, which the cipher is taken to respect: a
    hash is 60 characters long; its first 29 characters are the salt it
    was made with (version, cost and salt proper), so hashing the same key
    with them gives the same hash; and whether a salt is accepted does not
    depend on the key. Nothing is assumed about two keys giving two
    hashes. *)
Class BcryptContract `{Bcrypt} : Prop := {
  bcrypt_crypt_length :
    forall key salt h, bcrypt_crypt key salt = Ok h -> String.length h = 60%nat;
  bcrypt_crypt_salt :
    forall key salt h,
      bcrypt_crypt key salt = Ok h ->
      bcrypt_crypt key (String.substring 0 29 h) = Ok h;
  bcrypt_crypt_any_key :
    forall key key' salt h,
      bcrypt_crypt key salt = Ok h -> exists h', bcrypt_crypt key' salt = Ok h'
}.

(** The decoded payload of a token: `{ id, iat, exp }`, times in seconds. *)
Record JwtPayload : Type := { id : string; iat : Z; exp : Z }.

(** jsonwebtoken, the cryptographic and textual parts: the keyed MAC and
    the compact serialisation of a signed payload. *)
Class JwtCodec : Type := {
  jwt_mac : string -> JwtPayload -> string;
  jwt_encode : JwtPayload -> string -> string;
  jwt_decode : string -> option (JwtPayload * string)
}.

(** A serialised token is a non-empty string without spaces and decodes to
    what was encoded. *)
Class JwtCodecContract `{JwtCodec} : Prop := {
  jwt_decode_encode :
    forall payload sig, jwt_decode (jwt_encode payload sig) = Some (payload, sig);
  jwt_encode_nonempty :
    forall payload sig, jwt_encode payload sig <> ""%string;
  jwt_encode_no_space :
    forall payload sig, Str.has_space (jwt_encode payload sig) = false
}.

(** mongoose, the parts the schema does not determine. *)
Class Mongoose : Type := {
  (* an object- or array-valued filter on a String path (`$ne`, `$in`, ...):
     a CastError, or a predicate on the stored value *)
  filter_other : jsval -> outcome (string -> bool);
  (* casting a string to an ObjectId; [None] is a CastError *)
  castObjectId : string -> option string;
  (* the text of a ValidationError, from the failed paths *)
  validation_message : list (string * string) -> string;
  (* `mongoose.connect(uri)`: resolves or rejects *)
  connect : string -> outcome unit
}.

(** The Ollama endpoint behind `fetch`. *)
Inductive fetch_result : Type :=
| NetworkError (e : Js.error)
| HttpResponse (ok : bool) (statusText : string) (json : outcome jsval).

Class Ollama : Type := {
  fetch_generate : string -> string -> string -> fetch_result
}.

(** ** models/User: the schema, the pre-save hook, `comparePassword` *)

Module User.

Module Achievement.
Record t : Type := { title : string; icon : option string; date : option Z }.
End Achievement.

Module AcademicProgress.
Record t : Type := { subject : string; grade : string; progress : option Z }.
End AcademicProgress.

Module Interest.
Record t : Type := { name : string; category : string }.
End Interest.

Module UniversityApplication.
Record t : Type := {
  universityName : string; program : string; deadline : Z; status : string
}.
End UniversityApplication.

Module ApplicationProgress.
Record t : Type := {
  averageCompletion : Z;
  currentProject : option string;
  projectLink : option string
}.
End ApplicationProgress.

Module ChatMessage.
Record t : Type := { message : string; sender : string; timestamp : Z }.
End ChatMessage.

(** `IUser`: a user document. `password` and `chatHistory` are
    `select: false`: a query returns them only when asked to. *)
Record t : Type := {
  _id : string;
  email : string;
  password : option string;
  firstName : string;
  lastName : string;
  age : option Z;
  school : option string;
  grade : option string;
  profilePicture : option string;
  achievements : list Achievement.t;
  academicProgress : list AcademicProgress.t;
  interests : list Interest.t;
  universityApplications : list UniversityApplication.t;
  applicationProgress : ApplicationProgress.t;
  chatHistory : option (list ChatMessage.t);
  createdAt : Z;
  updatedAt : Z
}.

Definition set_password (p : option string) (u : t) : t :=
  {| _id := _id u; email := email u; password := p;
     firstName := firstName u; lastName := lastName u; age := age u;
     school := school u; grade := grade u;
     profilePicture := profilePicture u; achievements := achievements u;
     academicProgress := academicProgress u; interests := interests u;
     universityApplications := universityApplications u;
     applicationProgress := applicationProgress u;
     chatHistory := chatHistory u;
     createdAt := createdAt u; updatedAt := updatedAt u |}.

Definition set_chatHistory (h : option (list ChatMessage.t)) (u : t) : t :=
  {| _id := _id u; email := email u; password := password u;
     firstName := firstName u; lastName := lastName u; age := age u;
     school := school u; grade := grade u;
     profilePicture := profilePicture u; achievements := achievements u;
     academicProgress := academicProgress u; interests := interests u;
     universityApplications := universityApplications u;
     applicationProgress := applicationProgress u;
     chatHistory := h;
     createdAt := createdAt u; updatedAt := updatedAt u |}.

(** *** Casting and setters *)

Inductive cast (A : Type) : Type :=
| Absent
| Value (a : A)
| CastError.
Arguments Absent {A}.
Arguments Value {A} a.
Arguments CastError {A}.

(** What Mongoose makes of a value given to a String path: strings stay,
    numbers and booleans are printed, an object with a string `_id` stands
    for that id, other objects and arrays do not cast. *)
Definition castString (v : jsval) : cast string :=
  match v with
  | JUndefined | JNull => Absent
  | JStr s => Value s
  | JNum _ | JReal _ | JBool _ => Value (Js.toString v)
  | JObj fields =>
      match Js.assoc "_id" fields with
      | JStr s => Value s
      | _ => CastError
      end
  | JArr _ => CastError
  end.

(** A Number path given `parseInt(..)` or `undefined`: `NaN` does not cast. *)
Definition castNumber (v : option (option Z)) : cast Z :=
  match v with
  | None => Absent
  | Some None => CastError
  | Some (Some n) => Value n
  end.

Definition setter (f : string -> string) (c : cast string) : cast string :=
  match c with
  | Value s => Value (f s)
  | _ => c
  end.

(** `lowercase: true, trim: true` on `email`: the two setters, which
    Mongoose runs on assigned values and on query filters alike. *)
Definition normalize_email (s : string) : string :=
  Str.toLowerCase (Str.trim s).

Definition to_option {A} (c : cast A) : option A :=
  match c with Value a => Some a | _ => None end.

(** *** `new User({...})`: the document before validation *)

Record Draft : Type := {
  d_id : string;
  d_email : cast string;
  d_password : cast string;
  d_firstName : cast string;
  d_lastName : cast string;
  d_age : cast Z;
  d_school : cast string;
  d_grade : cast string
}.

Definition new_User (id : string) (email password firstName lastName : jsval)
    (age : option (option Z)) (school grade : jsval) : Draft :=
  {| d_id := id;
     d_email := setter normalize_email (castString email);
     d_password := castString password;
     d_firstName := setter Str.trim (castString firstName);
     d_lastName := setter Str.trim (castString lastName);
     d_age := castNumber age;
     d_school := setter Str.trim (castString school);
     d_grade := setter Str.trim (castString grade) |}.

(** `this.isModified('password')` on a new document: the path was set. *)
Definition isModified_password (d : Draft) : bool :=
  match d_password d with Value _ => true | _ => false end.

(** *** Validation *)

(** What `.` of a pattern does not match: LF and CR (U+2028 and U+2029,
    which it does not match either, lie above the code units of a
    [string]). *)
Definition is_line_terminator (c : ascii) : bool :=
  let n := nat_of_ascii c in ((n =? 10)%nat || (n =? 13)%nat)%bool.

(** The states of `/.+@.+\..+/` after a first `.+` ([q1]), the `@` ([q2]),
    the second `.+` ([q3]), the dot ([q4]) and the last `.+` ([q5]). *)
Record email_nfa : Type := { q1 : bool; q2 : bool; q3 : bool; q4 : bool; q5 : bool }.

Definition email_step (st : email_nfa) (c : ascii) : email_nfa :=
  let dot := negb (is_line_terminator c) in
  {| q1 := dot;
     q2 := q1 st && Ascii.eqb c "@";
     q3 := dot && (q2 st || q3 st);
     q4 := q3 st && Ascii.eqb c ".";
     q5 := q5 st || dot && q4 st |}.

Fixpoint email_run (st : email_nfa) (s : string) : email_nfa :=
  match s with
  | EmptyString => st
  | String c s' => email_run (email_step st c) s'
  end.

(** `/.+@.+\..+/.test(s)` *)
Definition email_match (s : string) : bool :=
  q5 (email_run {| q1 := false; q2 := false; q3 := false; q4 := false; q5 := false |} s).

Definition check_cast {A} (path : string) (c : cast A) : list (string * string) :=
  match c with
  | CastError => [(path, "Cast failed"%string)]
  | _ => []
  end.

Definition check_required (path msg : string) (c : cast string) : list (string * string) :=
  match c with
  | Value s => if String.eqb s "" then [(path, msg)] else []
  | Absent => [(path, msg)]
  | CastError => []
  end.

Definition check (path msg : string) {A} (ok : A -> bool) (c : cast A) : list (string * string) :=
  match c with
  | Value a => if ok a then [] else [(path, msg)]
  | _ => []
  end.

(** The validators of the schema (`required`, `match`, `minlength`, `min`,
    `max`) and the casts that failed: the failed paths of a draft with their
    messages, in schema order. `required` on a String path refuses the
    empty string; the other validators skip absent values, and `match`
    skips the empty string. *)
Definition validate (d : Draft) : list (string * string) :=
  (check_cast "email" (d_email d)
   ++ check_required "email" "Email is required" (d_email d)
   ++ check "email" "Please enter a valid email address"
        (fun s => String.eqb s "" || email_match s) (d_email d)
   ++ check_cast "password" (d_password d)
   ++ check_required "password" "Password is required" (d_password d)
   ++ check "password" "Password must be at least 6 characters long"
        (fun s => (6 <=? String.length s)%nat) (d_password d)
   ++ check_cast "firstName" (d_firstName d)
   ++ check_required "firstName" "First name is required" (d_firstName d)
   ++ check_cast "lastName" (d_lastName d)
   ++ check_required "lastName" "Last name is required" (d_lastName d)
   ++ check_cast "age" (d_age d)
   ++ check "age" "Must be at least 13 years old" (fun n => 13 <=? n) (d_age d)
   ++ check "age" "Invalid age" (fun n => n <=? 100) (d_age d)
   ++ check_cast "school" (d_school d)
   ++ check_cast "grade" (d_grade d))%list.

(** The document a valid draft stands for, with the schema defaults and the
    `timestamps: true` fields. *)
Definition document (at_time : Z) (d : Draft) : t :=
  {| _id := d_id d;
     email := default ""%string (to_option (d_email d));
     password := to_option (d_password d);
     firstName := default ""%string (to_option (d_firstName d));
     lastName := default ""%string (to_option (d_lastName d));
     age := to_option (d_age d);
     school := to_option (d_school d);
     grade := to_option (d_grade d);
     profilePicture := None;
     achievements := [];
     academicProgress := [];
     interests := [];
     universityApplications := [];
     applicationProgress :=
       {| ApplicationProgress.averageCompletion := 0;
          ApplicationProgress.currentProject := None;
          ApplicationProgress.projectLink := None |};
     chatHistory := Some [];
     createdAt := at_time;
     updatedAt := at_time |}.

Definition ValidationError `{Mongoose} (errs : list (string * string)) : Js.error :=
  {| Js.name := "ValidationError"; Js.code := None;
     Js.message := validation_message errs |}.

Definition CastErrorObjectId (v : string) : Js.error :=
  {| Js.name := "CastError"; Js.code := None;
     Js.message := "Cast to ObjectId failed for value " ++ v |}%string.

(** The driver's duplicate-key error. *)
Definition DuplicateKey (index : string) : Js.error :=
  {| Js.name := "MongoServerError"; Js.code := Some 11000;
     Js.message := "E11000 duplicate key error index: " ++ index |}%string.

Section Model.
Context `{Bcrypt} `{Mongoose}.

(** *** `UserSchema.pre('save', ...)`
<<
  if (!this.isModified('password')) return next();
  try {
    const salt = await bcrypt.genSalt(10);
    if (this.password) this.password = await bcrypt.hash(this.password, salt);
    next();
  } catch (error) { next(error); }
>> *)
Definition pre_save (env : Env) (modified_password : bool) (this : t) : outcome t :=
  if negb modified_password then Ok this
  else
    let salt := bcrypt_genSalt 10 (random env) in
    match password this with
    | Some p =>
        if negb (String.eqb p "") then
          match bcrypt_hash p salt with
          | Ok h => Ok (set_password (Some h) this)
          | Throw e => Throw e
          end
        else Ok this
    | None => Ok this
    end.

(** *** `UserSchema.methods.comparePassword`
<<
  return this.password ? await bcrypt.compare(candidatePassword, this.password) : false;
>> *)
Definition comparePassword (this : t) (candidatePassword : jsval) : outcome bool :=
  match password this with
  | Some h =>
      if negb (String.eqb h "") then bcrypt_compare candidatePassword h
      else Ok false
  | None => Ok false
  end.

(** *** The collection *)

(** The default projection: `select: false` paths are left out. *)
Definition select (with_password : bool) (u : t) : t :=
  set_chatHistory None (if with_password then u else set_password None u).

(** The predicate a filter `{ email: v }` stands for: the value is cast to
    the path's type and put through its setters, then compared for
    equality. *)
Definition email_filter (v : jsval) : outcome (string -> bool) :=
  match v with
  | JUndefined | JNull => Ok (fun _ => false)
  | JStr _ | JNum _ | JReal _ | JBool _ =>
      Ok (String.eqb (normalize_email (Js.toString v)))
  | JArr xs => filter_other v
  | JObj fields => filter_other v
  end.

(** `User.findOne({ email })`, with `.select('+password')` when
    [with_password]. *)
Definition findOne (filter_email : jsval) (with_password : bool) : App (list t) (option t) :=
  f ← await (email_filter filter_email);
  db ← get_state;
  ret (select with_password <$> find (fun u => f (email u)) db).

(** `User.findById(id)` *)
Definition findById (id : option string) : App (list t) (option t) :=
  match id with
  | None => ret None
  | Some s =>
      match castObjectId s with
      | None => throw (CastErrorObjectId s)
      | Some oid =>
          db ← get_state;
          ret (select false <$> find (fun u => String.eqb (_id u) oid) db)
      end
  end.

(** `user.save()` on a new document. Mongoose validates first (its own
    pre-save hook, registered ahead of the schema's), then runs the
    pre-save hook above, then inserts; the collection refuses a document
    whose `_id` or whose `email` (`unique: true`) is already there. *)
Definition save (env : Env) (d : Draft) : App (list t) t :=
  match validate d with
  | (_ :: _) as errs => throw (ValidationError errs)
  | [] =>
      this ← await (pre_save env (isModified_password d) (document (now env) d));
      db ← get_state;
      if existsb (fun u => String.eqb (_id u) (_id this)) db
      then throw (DuplicateKey "_id_")
      else if existsb (fun u => String.eqb (email u) (email this)) db
      then throw (DuplicateKey "email_1")
      else put_state (db ++ [this]);; ret this
  end.

End Model.

End User.

(** ** jsonwebtoken: `sign` and `verify`

    The package is not part of the repository; this is its documented
    behaviour for the two calls the server makes, HS256 and the
    serialisation being left to [JwtCodec]. *)

Module jwt.

Definition JsonWebTokenError (msg : string) : Js.error :=
  {| Js.name := "JsonWebTokenError"; Js.code := None; Js.message := msg |}.

Definition SignError (msg : string) : Js.error :=
  {| Js.name := "Error"; Js.code := None; Js.message := msg |}.

Definition TokenExpiredError : Js.error :=
  {| Js.name := "TokenExpiredError"; Js.code := None; Js.message := "jwt expired" |}.

Fixpoint span_digits (s : string) : string * string :=
  match s with
  | EmptyString => (EmptyString, EmptyString)
  | String c s' =>
      match Js.digit_of 10 c with
      | Some _ => let '(ds, rest) := span_digits s' in (String c ds, rest)
      | None => (EmptyString, s)
      end
  end.

Definition unit_ms (u : string) : option Z :=
  if String.eqb u "" then Some 1
  else if String.eqb u "ms" then Some 1
  else if String.eqb u "s" then Some 1000
  else if String.eqb u "m" then Some 60000
  else if String.eqb u "h" then Some 3600000
  else if String.eqb u "d" then Some 86400000
  else if String.eqb u "w" then Some 604800000
  else None.

(** The time-span strings of `expiresIn` (`'1h'`, `'30m'`, `'7d'`, ...), in
    milliseconds: a run of digits and a short unit (the long unit names and
    fractions of the `ms` package are left out). *)
Definition ms (span : string) : option Z :=
  let '(ds, u) := span_digits span in
  match Js.digits 10 None ds, unit_ms u with
  | Some n, Some f => Some (n * f)
  | _, _ => None
  end.

Section Jwt.
Context `{JwtCodec}.

(** `jwt.sign({ id }, secret, { expiresIn })` at time [at_ms]. *)
Definition sign (user_id : string) (secret : string) (expiresIn : string)
    (at_ms : Z) : outcome string :=
  if String.eqb secret "" then
    Throw (SignError "secretOrPrivateKey must have a value")
  else
    match ms expiresIn with
    | None => Throw (SignError "invalid expiresIn option")
    | Some span =>
        let issued := at_ms / 1000 in
        let payload := {| id := user_id; iat := issued; exp := issued + span / 1000 |} in
        Ok (jwt_encode payload (jwt_mac secret payload))
    end.

(** `jwt.verify(token, secret)` at time [at_ms]. *)
Definition verify (token : string) (secret : string) (at_ms : Z) : outcome JwtPayload :=
  if String.eqb token "" then Throw (JsonWebTokenError "jwt must be provided")
  else
    match jwt_decode token with
    | None => Throw (JsonWebTokenError "jwt malformed")
    | Some (payload, sig) =>
        if String.eqb secret "" then
          Throw (JsonWebTokenError "secret or public key must be provided")
        else if negb (String.eqb sig (jwt_mac secret payload)) then
          Throw (JsonWebTokenError "invalid signature")
        else if exp payload <=? at_ms / 1000 then Throw TokenExpiredError
        else Ok payload
    end.

End Jwt.

End jwt.

(** ** services/aiService *)

Module aiService.

Definition dquote : string := String (ascii_of_nat 34) EmptyString.

Definition SYSTEM_PROMPT : string :=
  ("You are a career and education advisor AI assistant. Your role is to:
1. Provide guidance on career paths and educational choices
2. Help with university applications and requirements
3. Give advice on academic performance and improvement
4. Suggest relevant courses and programs
5. Help with study strategies and time management
6. Provide information about different career fields and their requirements

You should NOT:
1. Answer questions unrelated to education or career
2. Provide medical, legal, or financial advice
3. Make decisions for the user
4. Share personal opinions or biases

If asked about topics outside education and career, respond with:
" ++ dquote ++ "I can only help with career and education-related questions. Please ask me about your academic goals, career choices, or educational planning." ++ dquote ++ "

Always maintain a professional, supportive tone and focus on providing factual, helpful information.")%string.

Definition prompt_of (message : string) : string :=
  ("<s>[INST] <<SYS>>
" ++ SYSTEM_PROMPT ++ "
<</SYS>>

" ++ message ++ " [/INST]")%string.

Definition PlainError (msg : string) : Js.error :=
  {| Js.name := "Error"; Js.code := None; Js.message := msg |}.

Definition TypeError (msg : string) : Js.error :=
  {| Js.name := "TypeError"; Js.code := None; Js.message := msg |}.

(** `data.response.replace(/<\/?s>/g, '').replace(/\[INST\]/g, '')
    .replace(/\[\/INST\]/g, '').trim()` *)
Definition cleanResponse (s : string) : string :=
  Str.trim (Str.remove_all ["[/INST]"] (Str.remove_all ["[INST]"]
    (Str.remove_all ["<s>"; "</s>"] s))).

(** `a || b` on a value and a string, printed by a template literal. *)
Definition or_else (a : jsval) (b : string) : string :=
  if truthy a then Js.toString a else b.

Section Service.
Context `{Ollama}.

(** `v[k]` on a parsed JSON value: reading a property of `null` throws. *)
Definition prop {S} (k : string) (v : jsval) : App S jsval :=
  match v with
  | JNull | JUndefined =>
      throw (TypeError ("Cannot read properties of null (reading '" ++ k ++ "')"))
  | _ => ret (Js.get k v)
  end%string.

(** The state is the list of prompts sent to the endpoint so far. *)
Definition fetch (url model prompt : string) : App (list string) fetch_result :=
  fun sent => (Ok (fetch_generate url model prompt), sent ++ [prompt]).

Definition getAIResponse (OLLAMA_API_URL MODEL_NAME : string) (message : jsval)
    : App (list string) string :=
  try_catch
    (match message with
     | JStr m =>
         if String.eqb m "" then throw (PlainError "Invalid message format")
         else
           response ← fetch OLLAMA_API_URL MODEL_NAME (prompt_of m);
           match response with
           | NetworkError e => throw e
           | HttpResponse ok statusText json =>
               data ← await json;
               if negb ok then
                 error ← prop "error" data;
                 throw (PlainError ("Ollama API error: " ++ or_else error statusText))
               else
                 text ← prop "response" data;
                 match text with
                 | JStr r =>
                     if String.eqb r "" then
                       throw (PlainError "No response content received from Ollama")
                     else ret (cleanResponse r)
                 | v =>
                     if truthy v then
                       throw (TypeError "data.response.replace is not a function")
                     else
                       throw (PlainError "No response content received from Ollama")
                 end
           end
     | _ => throw (PlainError "Invalid message format")
     end)
    (fun error =>
       if Str.includes (Js.message error) "ECONNREFUSED"
          || Str.includes (Js.message error) "Failed to fetch"
       then throw (PlainError
         "Unable to connect to Ollama service. Please make sure Ollama is running locally.")
       else throw (PlainError ("AI service error: " ++ Js.message error)))%string.

End Service.

End aiService.

(** ** server.ts *)

Module server.

Record Response : Type := { status : Z; body : jsval }.

(** `res.status(code).json(obj)` *)
Definition json (code : Z) (fields : list (string * jsval)) : Response :=
  {| status := code; body := JObj fields |}.

(** *** Startup *)

Record Config : Type := {
  PORT : jsval;
  JWT_SECRET : string;
  mongoURI : string;
  OLLAMA_API_URL : string;
  MODEL_NAME : string
}.

(** `process.env.X || fallback` *)
Definition env_or (v : option string) (fallback : string) : string :=
  match v with
  | Some s => if String.eqb s "" then fallback else s
  | None => fallback
  end.

Inductive startup_result : Type :=
| Exit (code : Z)
| Listening (cfg : Config).

(** The top level of the server module, after `dotenv.config()` filled
    `process.env`:
<<
  const PORT = process.env.PORT || 5000;
  const JWT_SECRET = process.env.JWT_SECRET || 'supersecretjwtkey';
  const mongoURI = process.env.MONGO_URI;
  if (!mongoURI) { console.error(...); process.exit(1); }
  mongoose.connect(mongoURI).then(...).catch(err => { ...; process.exit(1); });
>> *)
Definition startup `{Mongoose} (process_env : gmap string string) : startup_result :=
  let port := match process_env !! "PORT" with
              | Some p => if String.eqb p "" then JNum 5000 else JStr p
              | None => JNum 5000
              end in
  let secret := env_or (process_env !! "JWT_SECRET") "supersecretjwtkey" in
  match process_env !! "MONGO_URI" with
  | Some uri =>
      if String.eqb uri "" then Exit 1
      else
        match connect uri with
        | Ok _ =>
            Listening {| PORT := port; JWT_SECRET := secret; mongoURI := uri;
                         OLLAMA_API_URL :=
                           env_or (process_env !! "OLLAMA_API_URL")
                                  "http://localhost:11434/api/generate";
                         MODEL_NAME := env_or (process_env !! "OLLAMA_MODEL") "mistral" |}
        | Throw _ => Exit 1
        end
  | None => Exit 1
  end.

(** *** Requests *)

Record AuthRequest : Type := {
  headers : gmap string string;
  body_of : jsval;              (* `req.body` *)
  user : option JwtPayload      (* `req.user` *)
}.

Definition set_user (decoded : JwtPayload) (req : AuthRequest) : AuthRequest :=
  {| headers := headers req; body_of := body_of req; user := Some decoded |}.

(** The state the routes act on: the `users` collection and the prompts
    sent to the inference endpoint. *)
Record World : Type := { users : list User.t; sent : list string }.

Definition on_users {A} (c : App (list User.t) A) : App World A :=
  fun w => let '(o, db) := c (users w) in (o, {| users := db; sent := sent w |}).

Definition on_sent {A} (c : App (list string) A) : App World A :=
  fun w => let '(o, l) := c (sent w) in (o, {| users := users w; sent := l |}).

(** An answer that carries a `message` and possibly an `error` text, and
    nothing else. *)
Definition message_only (res : Response) : Prop :=
  exists code m,
    res = json code [("message", JStr m)]
    \/ exists e, res = json code [("message", JStr m); ("error", JStr e)].

Section Routes.
Context `{Bcrypt} `{JwtCodec} `{Mongoose} `{Ollama}.
Variable cfg : Config.
Variable env : Env.

(** *** The `protect` middleware *)

(** What a middleware did: it answered, or it called `next()` with the
    request it was given, possibly extended. *)
Inductive middleware_result : Type :=
| Responded (res : Response)
| Next (req : AuthRequest).

(**
<<
  let token;
  if (req.headers.authorization && req.headers.authorization.startsWith('Bearer'))
    token = req.headers.authorization.split(' ')[1];
>> *)
Definition bearer_token (req : AuthRequest) : option string :=
  match headers req !! "authorization" with
  | Some authorization =>
      if negb (String.eqb authorization "") && Str.startsWith authorization "Bearer"
      then Str.split_space authorization !! 1%nat
      else None
  | None => None
  end.

(**
<<
  if (!token) return res.status(401).json({ message: 'No token, authorization denied' });
  try {
    const decoded = jwt.verify(token, JWT_SECRET) as { id: string };
    req.user = decoded;
    next();
  } catch (error) {
    res.status(401).json({ message: 'Token is not valid' });
  }
>> *)
Definition protect (req : AuthRequest) : middleware_result :=
  match bearer_token req with
  | Some token =>
      if String.eqb token "" then
        Responded (json 401 [("message", JStr "No token, authorization denied")])
      else
        match jwt.verify token (JWT_SECRET cfg) (now env) with
        | Ok decoded => Next (set_user decoded req)
        | Throw _ => Responded (json 401 [("message", JStr "Token is not valid")])
        end
  | None => Responded (json 401 [("message", JStr "No token, authorization denied")])
  end.

(** `app.METHOD(path, protect, handler)`: the handler runs only when the
    middleware called `next()`. *)
Definition guarded (handler : AuthRequest -> App World Response)
    (req : AuthRequest) : App World Response :=
  match protect req with
  | Responded res => ret res
  | Next req' => handler req'
  end.

(** *** JSON views of a user *)

Definition achievement_json (a : User.Achievement.t) : jsval :=
  JObj [("title", JStr (User.Achievement.title a));
        ("icon", Js.opt JStr (User.Achievement.icon a));
        ("date", Js.opt JNum (User.Achievement.date a))].

Definition academicProgress_json (a : User.AcademicProgress.t) : jsval :=
  JObj [("subject", JStr (User.AcademicProgress.subject a));
        ("grade", JStr (User.AcademicProgress.grade a));
        ("progress", Js.opt JNum (User.AcademicProgress.progress a))].

Definition interest_json (i : User.Interest.t) : jsval :=
  JObj [("name", JStr (User.Interest.name i));
        ("category", JStr (User.Interest.category i))].

Definition universityApplication_json (a : User.UniversityApplication.t) : jsval :=
  JObj [("universityName", JStr (User.UniversityApplication.universityName a));
        ("program", JStr (User.UniversityApplication.program a));
        ("deadline", JNum (User.UniversityApplication.deadline a));
        ("status", JStr (User.UniversityApplication.status a))].

Definition applicationProgress_json (p : User.ApplicationProgress.t) : jsval :=
  JObj [("averageCompletion", JNum (User.ApplicationProgress.averageCompletion p));
        ("currentProject", Js.opt JStr (User.ApplicationProgress.currentProject p));
        ("projectLink", Js.opt JStr (User.ApplicationProgress.projectLink p))].

(** The `user` object of the signup response. *)
Definition signup_view (u : User.t) : list (string * jsval) :=
  [("id", JStr (User._id u));
   ("email", JStr (User.email u));
   ("firstName", JStr (User.firstName u));
   ("lastName", JStr (User.lastName u));
   ("age", Js.opt JNum (User.age u));
   ("school", Js.opt JStr (User.school u));
   ("grade", Js.opt JStr (User.grade u))].

(** The `user` object of the login response and the profile response. *)
Definition profile_view (u : User.t) : list (string * jsval) :=
  [("id", JStr (User._id u));
   ("email", JStr (User.email u));
   ("firstName", JStr (User.firstName u));
   ("lastName", JStr (User.lastName u));
   ("age", Js.opt JNum (User.age u));
   ("school", Js.opt JStr (User.school u));
   ("grade", Js.opt JStr (User.grade u));
   ("interests", JArr (map interest_json (User.interests u)));
   ("achievements", JArr (map achievement_json (User.achievements u)));
   ("academicProgress", JArr (map academicProgress_json (User.academicProgress u)));
   ("universityApplications",
      JArr (map universityApplication_json (User.universityApplications u)));
   ("applicationProgress", applicationProgress_json (User.applicationProgress u))].

(** *** POST /api/auth/signup
<<
  const { email, password, firstName, lastName, age, school, grade } = req.body;
  if (!email || !password || !firstName || !lastName)
    return res.status(400).json({ message: 'Please enter all required fields' });
  try {
    let user = await User.findOne({ email });
    if (user) return res.status(400).json({ message: 'User with this email already exists' });
    user = new User({ email, password, firstName, lastName,
                      age: age ? parseInt(age) : undefined, school, grade });
    await user.save();
    const token = jwt.sign({ id: user._id }, JWT_SECRET, { expiresIn: '1h' });
    res.status(201).json({ message: ..., token, user: { id: user._id, email: ..., ... } });
  } catch (error) {
    if (error.code === 11000) return res.status(400).json({ message: 'Email already registered' });
    res.status(500).json({ message: 'Server error during signup', error: error.message });
  }
>> *)

Definition signup (req : AuthRequest) : App (list User.t) Response :=
  let email := Js.get "email" (body_of req) in
  let password := Js.get "password" (body_of req) in
  let firstName := Js.get "firstName" (body_of req) in
  let lastName := Js.get "lastName" (body_of req) in
  let age := Js.get "age" (body_of req) in
  let school := Js.get "school" (body_of req) in
  let grade := Js.get "grade" (body_of req) in
  if negb (truthy email) || negb (truthy password)
     || negb (truthy firstName) || negb (truthy lastName)
  then ret (json 400 [("message", JStr "Please enter all required fields")])
  else
    try_catch
      (existing ← User.findOne email false;
       match existing with
       | Some _ =>
           ret (json 400 [("message", JStr "User with this email already exists")])
       | None =>
           let draft :=
             User.new_User (objectId env) email password firstName lastName
               (if truthy age then Some (Js.parseInt age) else None) school grade in
           user ← User.save env draft;
           token ← await (jwt.sign (User._id user) (JWT_SECRET cfg) "1h" (now env));
           ret (json 201 [("message", JStr "User registered successfully");
                          ("token", JStr token);
                          ("user", JObj (signup_view user))])
       end)
      (fun error =>
         if bool_decide (Js.code error = Some 11000)
         then ret (json 400 [("message", JStr "Email already registered")])
         else ret (json 500 [("message", JStr "Server error during signup");
                             ("error", JStr (Js.message error))])).

(** The document `new User({...})` of the signup route, as a function of
    the request. *)
Definition signup_draft (req : AuthRequest) : User.Draft :=
  let b := body_of req in
  User.new_User (objectId env) (Js.get "email" b) (Js.get "password" b)
    (Js.get "firstName" b) (Js.get "lastName" b)
    (if truthy (Js.get "age" b) then Some (Js.parseInt (Js.get "age" b)) else None)
    (Js.get "school" b) (Js.get "grade" b).

(** *** POST /api/auth/login
<<
  const { email, password } = req.body;
  if (!email || !password) return res.status(400).json({ message: 'Please enter all fields' });
  try {
    const user = await User.findOne({ email }).select('+password');
    if (!user) return res.status(400).json({ message: 'Invalid credentials' });
    const isMatch = await user.comparePassword(password);
    if (!isMatch) return res.status(400).json({ message: 'Invalid credentials' });
    const token = jwt.sign({ id: user._id }, JWT_SECRET, { expiresIn: '1h' });
    res.status(200).json({ message: ..., token, user: { id: user._id, ... } });
  } catch (error) {
    res.status(500).json({ message: 'Server error during login', error: error.message });
  }
>> *)

Definition login (req : AuthRequest) : App (list User.t) Response :=
  let email := Js.get "email" (body_of req) in
  let password := Js.get "password" (body_of req) in
  if negb (truthy email) || negb (truthy password)
  then ret (json 400 [("message", JStr "Please enter all fields")])
  else
    try_catch
      (found ← User.findOne email true;
       match found with
       | None => ret (json 400 [("message", JStr "Invalid credentials")])
       | Some user =>
           isMatch ← await (User.comparePassword user password);
           if negb isMatch
           then ret (json 400 [("message", JStr "Invalid credentials")])
           else
             token ← await (jwt.sign (User._id user) (JWT_SECRET cfg) "1h" (now env));
             ret (json 200 [("message", JStr "Logged in successfully");
                            ("token", JStr token);
                            ("user", JObj (profile_view user))])
       end)
      (fun error =>
         ret (json 500 [("message", JStr "Server error during login");
                        ("error", JStr (Js.message error))])).

(** *** GET /api/user/profile (behind `protect`)
<<
  try {
    const user = await User.findById(req.user?.id);
    if (!user) return res.status(404).json({ message: 'User not found' });
    res.status(200).json({ id: user._id, email: user.email, ... });
  } catch (error) {
    res.status(500).json({ message: 'Server error while fetching profile', error: error.message });
  }
>> *)

Definition profile (req : AuthRequest) : App (list User.t) Response :=
  try_catch
    (found ← User.findById (id <$> user req);
     match found with
     | None => ret (json 404 [("message", JStr "User not found")])
     | Some user => ret (json 200 (profile_view user))
     end)
    (fun error =>
       ret (json 500 [("message", JStr "Server error while fetching profile");
                      ("error", JStr (Js.message error))])).

(** *** GET /api/protected (behind `protect`) *)

Definition protected (req : AuthRequest) : App World Response :=
  let userId := Js.opt JStr (id <$> user req) in
  ret (json 200
         [("message", JStr ("Welcome to the protected route, user "
                            ++ Js.toString userId ++ "!")%string);
          ("userId", userId)]).

(** *** POST /api/auth/logout (behind `protect`) *)

Definition logout (req : AuthRequest) : App World Response :=
  try_catch
    (ret (json 200 [("message", JStr "Logged out successfully")]))
    (fun error =>
       ret (json 500 [("message", JStr "Server error during logout");
                      ("error", JStr (Js.message error))])).

(** *** POST /api/ai/chat (behind `protect`)
<<
  try {
    const { message } = req.body;
    if (!message)
      return res.status(400).json({ message: 'Message is required', error: 'MISSING_MESSAGE' });
    if (typeof message !== 'string')
      return res.status(400).json({ message: 'Message must be a string',
                                    error: 'INVALID_MESSAGE_FORMAT' });
    const response = await getAIResponse(message);
    res.status(200).json({ response });
  } catch (error) {
    let statusCode = 500;
    if (error.message.includes('Invalid API key')) statusCode = 503;
    else if (error.message.includes('Rate limit')) statusCode = 429;
    else if (error.message.includes('Unable to connect')) statusCode = 503;
    res.status(statusCode).json({ message: error.message || 'Failed to get AI response',
                                  error: error.message || 'UNKNOWN_ERROR' });
  }
>> *)

Definition chat (req : AuthRequest) : App (list string) Response :=
  try_catch
    (let message := Js.get "message" (body_of req) in
     if negb (truthy message) then
       ret (json 400 [("message", JStr "Message is required");
                      ("error", JStr "MISSING_MESSAGE")])
     else if negb (Js.is_string message) then
       ret (json 400 [("message", JStr "Message must be a string");
                      ("error", JStr "INVALID_MESSAGE_FORMAT")])
     else
       response ← aiService.getAIResponse (OLLAMA_API_URL cfg) (MODEL_NAME cfg) message;
       ret (json 200 [("response", JStr response)]))
    (fun error =>
       let statusCode :=
         if Str.includes (Js.message error) "Invalid API key" then 503
         else if Str.includes (Js.message error) "Rate limit" then 429
         else if Str.includes (Js.message error) "Unable to connect" then 503
         else 500 in
       ret (json statusCode
              [("message", JStr (if String.eqb (Js.message error) ""
                                 then "Failed to get AI response"
                                 else Js.message error));
               ("error", JStr (if String.eqb (Js.message error) ""
                               then "UNKNOWN_ERROR"
                               else Js.message error))])).

(** *** The routing table *)

Inductive Route : Type :=
| POST_auth_signup
| POST_auth_login
| GET_user_profile
| GET_protected
| POST_auth_logout
| POST_ai_chat.

(** Where a route puts the user in its answer: under `user` for signup
    and login, at the top for the profile. *)
Definition user_object (r : Route) (res : Response) : jsval :=
  match r with
  | POST_auth_signup | POST_auth_login => Js.get "user" (body res)
  | _ => body res
  end.

Definition is_protected (r : Route) : bool :=
  match r with
  | POST_auth_signup | POST_auth_login => false
  | _ => true
  end.

Definition handler_of (r : Route) (req : AuthRequest) : App World Response :=
  match r with
  | POST_auth_signup => on_users (signup req)
  | POST_auth_login => on_users (login req)
  | GET_user_profile => on_users (profile req)
  | GET_protected => protected req
  | POST_auth_logout => logout req
  | POST_ai_chat => on_sent (chat req)
  end.

Definition app (r : Route) (req : AuthRequest) : App World Response :=
  if is_protected r then guarded (handler_of r) req else handler_of r req.

End Routes.

(** *** The states the server can be in *)

Section Runs.
Context `{Bcrypt} `{JwtCodec} `{Mongoose} `{Ollama}.
Variable cfg : Config.

(** The worlds reached from an empty collection by serving requests, each
    at its own time and with its own entropy. *)
Inductive reachable : World -> Prop :=
| reachable_init : reachable {| users := []; sent := [] |}
| reachable_step (env : Env) (r : Route) (req : AuthRequest) (w : World)
    (o : outcome Response) (w' : World) :
    reachable w -> app cfg env r req w = (o, w') -> reachable w'.

End Runs.

End server.

(** ** Reference instances of the interfaces

    Simple executable stand-ins for the imported packages. They show that
    the contracts above can be met and let the routes be run on concrete
    requests. *)

Module Reference.

(** The first [n] characters of [s], filled up with dots. *)
Fixpoint pad (n : nat) (s : string) : string :=
  match n with
  | O => EmptyString
  | S k =>
      match s with
      | EmptyString => String "." (pad k EmptyString)
      | String c s' => String c (pad k s')
      end
  end.

(** A cipher that respects the format (and nothing more): the hash is
    the 29 characters of the salt and the first 31 of the key, zero
    bytes shown as dots; the salt is the cost and the entropy. It accepts
    every salt. *)
Definition printable (s : string) : string :=
  (fix go (s : string) : string :=
     match s with
     | EmptyString => EmptyString
     | String c s' =>
         String (if (nat_of_ascii c =? 0)%nat then "."%char else c) (go s')
     end) s.

Definition bcrypt : Bcrypt :=
  {| bcrypt_genSalt := fun rounds entropy =>
       pad 29 ("$2a$" ++ Str.of_Z (Z.of_nat rounds) ++ "$" ++ entropy);
     bcrypt_crypt := fun key salt =>
       Ok (pad 29 salt ++ pad 31 (printable key)) |}%string.

(** The lower-case hexadecimal digit of a nibble, and back. *)
Definition hex_char (n : N) : ascii :=
  ascii_of_N (if (n <? 10)%N then 48 + n else 87 + n)%N.

Definition unhex_char (c : ascii) : option N :=
  let n := N_of_ascii c in
  if ((48 <=? n) && (n <=? 57))%N then Some (n - 48)%N
  else if ((97 <=? n) && (n <=? 102))%N then Some (n - 87)%N
  else None.

(** A field in hexadecimal, closed by a dot, in front of [rest]. *)
Fixpoint hex_field (s rest : string) : string :=
  match s with
  | EmptyString => String "." rest
  | String c s' =>
      String (hex_char (N_of_ascii c / 16))
        (String (hex_char (N_of_ascii c mod 16)) (hex_field s' rest))
  end.

Fixpoint read_field (s : string) : option (string * string) :=
  match s with
  | String a (String b rest) =>
      if Ascii.eqb a "." then Some (EmptyString, String b rest)
      else
        match unhex_char a, unhex_char b, read_field rest with
        | Some hi, Some lo, Some (field, rest') =>
            Some (String (ascii_of_N (16 * hi + lo)) field, rest')
        | _, _, _ => None
        end
  | String a EmptyString =>
      if Ascii.eqb a "." then Some (EmptyString, EmptyString) else None
  | EmptyString => None
  end.

Definition Z_to_string (z : Z) : string := NilEmpty.string_of_int (Z.to_int z).

Definition Z_of_string (s : string) : option Z :=
  Z.of_int <$> NilEmpty.int_of_string s.

Definition jwt : JwtCodec :=
  {| jwt_mac := fun secret payload =>
       (secret ++ "/" ++ id payload ++ "/" ++ Z_to_string (exp payload))%string;
     jwt_encode := fun payload sig =>
       hex_field (id payload)
         (hex_field (Z_to_string (iat payload))
            (hex_field (Z_to_string (exp payload)) (hex_field sig EmptyString)));
     jwt_decode := fun token =>
       '(i, r1) ← read_field token;
       '(a, r2) ← read_field r1;
       '(e, r3) ← read_field r2;
       '(sig, r4) ← read_field r3;
       issued ← Z_of_string a;
       expires ← Z_of_string e;
       if String.eqb r4 "" then Some ({| id := i; iat := issued; exp := expires |}, sig)
       else None |}.

Definition is_hex (c : ascii) : bool :=
  match unhex_char c with Some _ => true | None => false end.

Fixpoint all_hex (s : string) : bool :=
  match s with
  | EmptyString => true
  | String c s' => is_hex c && all_hex s'
  end.

Fixpoint join_errors (errs : list (string * string)) : string :=
  match errs with
  | [] => ""
  | [(path, msg)] => path ++ ": " ++ msg
  | (path, msg) :: rest => path ++ ": " ++ msg ++ ", " ++ join_errors rest
  end%string.

(** ObjectIds are the strings of 24 hexadecimal digits; object filters are
    refused; every connection succeeds. *)
Definition mongoose : Mongoose :=
  {| filter_other := fun _ =>
       Throw {| Js.name := "CastError"; Js.code := None;
                Js.message := "Cast to string failed" |};
     castObjectId := fun s =>
       if (String.length s =? 24)%nat && all_hex s then Some s else None;
     validation_message := fun errs =>
       ("User validation failed: " ++ join_errors errs)%string;
     connect := fun _ => Ok tt |}.

(** An endpoint that always answers the same completion. *)
Definition ollama : Ollama :=
  {| fetch_generate := fun _ _ _ =>
       HttpResponse true "OK"
         (Ok (JObj [("response", JStr " Ask your school counsellor.</s> ")])) |}.

Definition cfg : server.Config :=
  {| server.PORT := JNum 5000;
     server.JWT_SECRET := "supersecretjwtkey";
     server.mongoURI := "mongodb://localhost:27017/astra";
     server.OLLAMA_API_URL := "http://localhost:11434/api/generate";
     server.MODEL_NAME := "mistral" |}.

Definition env0 : Env :=
  {| now := 1700000000000; random := "r4nd0m";
     objectId := "65a1b2c3d4e5f60718293a4b" |}.

Definition request (authorization : option string) (body : jsval) : server.AuthRequest :=
  {| server.headers :=
       match authorization with
       | Some a => {[ "authorization"%string := a ]}
       | None => ∅
       end;
     server.body_of := body;
     server.user := None |}.

Definition signup_body : jsval :=
  JObj [("email", JStr "Ann@X.com"); ("password", JStr "secret1");
        ("firstName", JStr "Ann"); ("lastName", JStr "Lee")].

Definition world0 : server.World := {| server.users := []; server.sent := [] |}.

(** The routes over the reference instances. *)
Definition app := @server.app bcrypt jwt mongoose ollama.

(** Ann signs up in the empty world. *)
Definition signed_up : outcome server.Response * server.World :=
  Eval vm_compute in
    app cfg env0 server.POST_auth_signup (request None signup_body) world0.

Definition world1 : server.World := Eval vm_compute in snd signed_up.

Definition ann : User.t :=
  Eval vm_compute in
    match server.users world1 with
    | u :: _ => u
    | [] => User.document 0 (server.signup_draft env0 (request None signup_body))
    end.

Definition token1 : string :=
  Eval vm_compute in
    match fst signed_up with
    | Ok res => Js.toString (Js.get "token" (server.body res))
    | Throw _ => ""
    end.

Definition login_body (email password : string) : jsval :=
  JObj [("email", JStr email); ("password", JStr password)].

(** The 201 Ann was answered, and the payload of her token. *)
Definition created : server.Response :=
  Eval vm_compute in
    match fst signed_up with
    | Ok res => res
    | Throw _ => server.json 500 []
    end.

Definition payload1 : JwtPayload :=
  {| id := "65a1b2c3d4e5f60718293a4b"; iat := 1700000000; exp := 1700003600 |}.

Definition bearer (body : jsval) : server.AuthRequest :=
  request (Some ("Bearer " ++ token1)%string) body.

(** A second signup, with Ann's address in another letter case. *)
Definition signup_again : jsval :=
  JObj [("email", JStr "ANN@x.COM"); ("password", JStr "another1");
        ("firstName", JStr "Anna"); ("lastName", JStr "Leigh")].

(** An environment that supplies the connection string and nothing else. *)
Definition env_without_secret : gmap string string :=
  {[ "MONGO_URI"%string := "mongodb://localhost:27017/astra"%string ]}.

Definition later (minutes : Z) (env : Env) : Env :=
  {| now := now env + minutes * 60 * 1000; random := random env;
     objectId := objectId env |}.

End Reference.

(** ** The server before the profile fields

    The earlier server module of the repository: the same startup and the
    same `protect`, and signup and login routes that know only `email` and
    `password` and answer `{ message, token, userId, email }`. It imports
    the same user model. *)

Module server_old.

Section Routes.
Context `{Bcrypt} `{JwtCodec} `{Mongoose}.
Variable cfg : server.Config.
Variable env : Env.

(** POST /api/auth/signup
<<
  const { email, password } = req.body;
  if (!email || !password) return res.status(400).json({ message: 'Please enter all fields' });
  try {
    let user = await User.findOne({ email });
    if (user) return res.status(400).json({ message: 'User with this email already exists' });
    user = new User({ email, password });
    await user.save();
    const token = jwt.sign({ id: user._id }, JWT_SECRET, { expiresIn: '1h' });
    res.status(201).json({ message: 'User registered successfully', token,
                           userId: user._id, email: user.email });
  } catch (error) {
    if (error.code === 11000) return res.status(400).json({ message: 'Email already registered' });
    res.status(500).json({ message: 'Server error during signup', error: error.message });
  }
>> *)
Definition signup (req : server.AuthRequest) : App (list User.t) server.Response :=
  let email := Js.get "email" (server.body_of req) in
  let password := Js.get "password" (server.body_of req) in
  if negb (truthy email) || negb (truthy password)
  then ret (server.json 400 [("message", JStr "Please enter all fields")])
  else
    try_catch
      (existing ← User.findOne email false;
       match existing with
       | Some _ =>
           ret (server.json 400
                  [("message", JStr "User with this email already exists")])
       | None =>
           let draft :=
             User.new_User (objectId env) email password JUndefined JUndefined
               None JUndefined JUndefined in
           user ← User.save env draft;
           token ← await (jwt.sign (User._id user) (server.JWT_SECRET cfg) "1h" (now env));
           ret (server.json 201 [("message", JStr "User registered successfully");
                                 ("token", JStr token);
                                 ("userId", JStr (User._id user));
                                 ("email", JStr (User.email user))])
       end)
      (fun error =>
         if bool_decide (Js.code error = Some 11000)
         then ret (server.json 400 [("message", JStr "Email already registered")])
         else ret (server.json 500 [("message", JStr "Server error during signup");
                                    ("error", JStr (Js.message error))])).

(** POST /api/auth/login: as in the later server, up to the answer
<<
    res.status(200).json({ message: 'Logged in successfully', token,
                           userId: user._id, email: user.email });
>> *)
Definition login (req : server.AuthRequest) : App (list User.t) server.Response :=
  let email := Js.get "email" (server.body_of req) in
  let password := Js.get "password" (server.body_of req) in
  if negb (truthy email) || negb (truthy password)
  then ret (server.json 400 [("message", JStr "Please enter all fields")])
  else
    try_catch
      (found ← User.findOne email true;
       match found with
       | None => ret (server.json 400 [("message", JStr "Invalid credentials")])
       | Some user =>
           isMatch ← await (User.comparePassword user password);
           if negb isMatch
           then ret (server.json 400 [("message", JStr "Invalid credentials")])
           else
             token ← await (jwt.sign (User._id user) (server.JWT_SECRET cfg) "1h" (now env));
             ret (server.json 200 [("message", JStr "Logged in successfully");
                                   ("token", JStr token);
                                   ("userId", JStr (User._id user));
                                   ("email", JStr (User.email user))])
       end)
      (fun error =>
         ret (server.json 500 [("message", JStr "Server error during login");
                               ("error", JStr (Js.message error))])).

End Routes.

End server_old.

(** ** The frontend: what the components compute *)

(** `JSON.stringify` and `JSON.parse`. *)
Class Json : Type := {
  JSON_stringify : jsval -> string;
  JSON_parse : string -> outcome jsval
}.

(** *** components/Signup: `handleSubmit`, up to the request it sends *)

Module SignupForm.

(** The `formData` state: every field is the text of an input. *)
Record formData : Type := {
  email : string;
  password : string;
  confirmPassword : string;
  firstName : string;
  lastName : string;
  age : string;
  school : string;
  grade : string
}.

Inductive submitted : Type :=
| Refused (message : string)      (* `setMessage(..)`, `setMessageType('error')`, no request *)
| Sent (body : jsval).            (* the body of the POST to /api/auth/signup *)

(** `parseInt(formData.age) < 13 || parseInt(formData.age) > 100`: both
    comparisons are false on `NaN`. *)
Definition age_out_of_range (age : string) : bool :=
  match Js.parseInt (JStr age) with
  | Some n => (n <? 13) || (100 <? n)
  | None => false
  end.

(** `if (signupData.age) signupData.age = parseInt(signupData.age)`, as
    `JSON.stringify` writes it: `NaN` goes over the wire as `null`. *)
Definition age_on_the_wire (age : string) : jsval :=
  if String.eqb age "" then JStr age
  else match Js.parseInt (JStr age) with
       | Some n => JNum n
       | None => JNull
       end.

(**
<<
  if (formData.password !== formData.confirmPassword) {
    setMessage('Passwords do not match.'); setMessageType('error'); return;
  }
  if (formData.age && (parseInt(formData.age) < 13 || parseInt(formData.age) > 100)) {
    setMessage('Please enter a valid age (13-100).'); setMessageType('error'); return;
  }
  const { confirmPassword, ...signupData } = formData;
  if (signupData.age) signupData.age = parseInt(signupData.age);
  ... fetch('http://localhost:5000/api/auth/signup',
            { method: 'POST', ..., body: JSON.stringify(signupData) })
>> *)
Definition handleSubmit (f : formData) : submitted :=
  if negb (String.eqb (password f) (confirmPassword f))
  then Refused "Passwords do not match."
  else if negb (String.eqb (age f) "") && age_out_of_range (age f)
  then Refused "Please enter a valid age (13-100)."
  else Sent (JObj [("email", JStr (email f));
                   ("password", JStr (password f));
                   ("firstName", JStr (firstName f));
                   ("lastName", JStr (lastName f));
                   ("age", age_on_the_wire (age f));
                   ("school", JStr (school f));
                   ("grade", JStr (grade f))]).

(** The request as the server receives it. *)
Definition request (body : jsval) : server.AuthRequest :=
  {| server.headers := {[ "content-type"%string := "application/json"%string ]};
     server.body_of := body;
     server.user := None |}.

End SignupForm.

(** *** App: the authentication state and `localStorage` *)

Module App.

(** The two `useState` cells of `App`; `user` is `null` when logged out. *)
Record state : Type := { isLoggedIn : bool; user : jsval }.

(** `useState(false)`, `useState(null)`: the state of a freshly loaded page. *)
Definition initial : state := {| isLoggedIn := false; user := JNull |}.

Section Hooks.
Context `{Json}.

(** The effect run on mount:
<<
  const token = localStorage.getItem('authToken');
  const userData = localStorage.getItem('userData');
  if (token && userData) {
    try {
      const parsedUser = JSON.parse(userData);
      setUser(parsedUser); setIsLoggedIn(true);
    } catch (err) {
      localStorage.removeItem('authToken');
      localStorage.removeItem('userData');
    }
  }
>> *)
Definition on_mount (localStorage : gmap string string) (st : state)
    : gmap string string * state :=
  match localStorage !! "authToken", localStorage !! "userData" with
  | Some token, Some userData =>
      if negb (String.eqb token "") && negb (String.eqb userData "") then
        match JSON_parse userData with
        | Ok parsedUser => (localStorage, {| isLoggedIn := true; user := parsedUser |})
        | Throw _ => (delete "userData" (delete "authToken" localStorage), st)
        end
      else (localStorage, st)
  | _, _ => (localStorage, st)
  end.

(** `handleLoginSuccess` and `handleSignupSuccess` (the same body):
<<
  localStorage.setItem('authToken', token);
  localStorage.setItem('userData', JSON.stringify(userData));
  setUser(userData); setIsLoggedIn(true);
>> *)
Definition handleLoginSuccess (token : string) (userData : jsval)
    (localStorage : gmap string string) (st : state) : gmap string string * state :=
  (<["userData" := JSON_stringify userData]> (<["authToken" := token]> localStorage),
   {| isLoggedIn := true; user := userData |}).

Definition handleSignupSuccess (token : string) (userData : jsval)
    (localStorage : gmap string string) (st : state) : gmap string string * state :=
  (<["userData" := JSON_stringify userData]> (<["authToken" := token]> localStorage),
   {| isLoggedIn := true; user := userData |}).

(** Loading the page anew: the state starts over, the storage stays. *)
Definition reload (localStorage : gmap string string) : gmap string string * state :=
  on_mount localStorage initial.

End Hooks.

(** `handleLogout`:
<<
  localStorage.removeItem('authToken'); localStorage.removeItem('userData');
  localStorage.removeItem('token');     localStorage.removeItem('userEmail');
  setIsLoggedIn(false); setUser(null);
>> *)
Definition handleLogout (localStorage : gmap string string) (st : state)
    : gmap string string * state :=
  (delete "userEmail" (delete "token" (delete "userData" (delete "authToken" localStorage))),
   {| isLoggedIn := false; user := JNull |}).

(** What a route element shows. *)
Inductive element : Type :=
| Navigate (to : string)
| Page (name : string).

(** `ProtectedRoute` around the dashboard, and the `/login` and `/signup`
    routes, which send a logged-in user to the dashboard. *)
Definition route_element (path : string) (st : state) : element :=
  if String.eqb path "/dashboard" then
    if negb (isLoggedIn st) then Navigate "/login" else Page "Dashboard"
  else if String.eqb path "/login" then
    if isLoggedIn st then Navigate "/dashboard" else Page "Login"
  else if String.eqb path "/signup" then
    if isLoggedIn st then Navigate "/dashboard" else Page "Signup"
  else Page path.

End App.

(** *** components/Dashboard: `fetchUserProfile` *)

Module Dashboard.

(** The component state the function writes, and where it navigated. *)
Record view : Type := {
  user : jsval;                 (* `null` until a profile arrived *)
  loading : bool;
  error : option string;
  navigated : option string
}.

Definition loading_view : view :=
  {| user := JNull; loading := true; error := None; navigated := None |}.

(** The request `fetch('http://localhost:5000/api/user/profile', { headers:
    { 'Authorization': `Bearer ${token}`, 'Content-Type': 'application/json' } })`
    as the server receives it. *)
Definition profile_request (token : string) : server.AuthRequest :=
  {| server.headers :=
       {[ "authorization"%string := ("Bearer " ++ token)%string;
          "content-type"%string := "application/json"%string ]};
     server.body_of := JObj [];
     server.user := None |}.

(** `response.ok` *)
Definition ok (res : server.Response) : bool :=
  (200 <=? server.status res) && (server.status res <=? 299).

(**
<<
  try {
    const token = localStorage.getItem('authToken');
    if (!token) { navigate('/login'); return; }
    const response = await fetch(..profile.., { headers: { 'Authorization': `Bearer ${token}`, .. } });
    if (!response.ok) {
      if (response.status === 401) {
        localStorage.removeItem('authToken'); localStorage.removeItem('userData');
        navigate('/login'); return;
      }
      throw new Error('Failed to fetch profile');
    }
    const data = await response.json();
    setUser(data);
  } catch (err) { setError(err.message); } finally { setLoading(false); }
>>
    [fetch] is the network and the server behind it: the answer to a
    request, or the error `fetch` rejects with. *)
Definition fetchUserProfile
    (fetch : server.AuthRequest -> outcome server.Response)
    (localStorage : gmap string string) : gmap string string * view :=
  match localStorage !! "authToken" with
  | Some token =>
      if String.eqb token "" then
        (localStorage,
         {| user := JNull; loading := false; error := None; navigated := Some "/login"%string |})
      else
        match fetch (profile_request token) with
        | Throw err =>
            (localStorage,
             {| user := JNull; loading := false; error := Some (Js.message err);
                navigated := None |})
        | Ok response =>
            if negb (ok response) then
              if server.status response =? 401 then
                (delete "userData" (delete "authToken" localStorage),
                 {| user := JNull; loading := false; error := None;
                    navigated := Some "/login"%string |})
              else
                (localStorage,
                 {| user := JNull; loading := false;
                    error := Some "Failed to fetch profile"%string; navigated := None |})
            else
              (localStorage,
               {| user := server.body response; loading := false; error := None;
                  navigated := None |})
        end
  | None =>
      (localStorage,
       {| user := JNull; loading := false; error := None; navigated := Some "/login"%string |})
  end.

End Dashboard.

(** *** components/Login: `handleSubmit` *)

Module Login.

(** What the handler left behind: the message shown and its kind, the
    arguments `onLoginSuccess` was called with, and where the timer will
    navigate. *)
Record view : Type := {
  message : jsval;
  messageType : string;
  onLoginSuccess : option (jsval * jsval);
  navigated : option string
}.

(** The body `JSON.stringify({ email, password })` as the server parses it. *)
Definition request (email password : string) : server.AuthRequest :=
  {| server.headers := {[ "content-type"%string := "application/json"%string ]};
     server.body_of := JObj [("email", JStr email); ("password", JStr password)];
     server.user := None |}.

Section Submit.
Context `{Json}.

(**
<<
  try {
    const response = await fetch('http://localhost:5000/api/auth/login',
      { method: 'POST', ..., body: JSON.stringify({ email, password }) });
    const data = await response.json();
    if (response.ok) {
      setMessage(`Welcome back, ${data.user.firstName}!`);
      setMessageType('success');
      localStorage.setItem('authToken', data.token);
      localStorage.setItem('userData', JSON.stringify(data.user));
      onLoginSuccess(data.token, data.user);
      setTimeout(() => { navigate('/dashboard'); }, 1500);
    } else {
      setMessage(data.message || 'Login failed. Please try again.');
      setMessageType('error');
    }
  } catch (error) {
    setMessage('Network error. Please try again later.');
    setMessageType('error');
  }
>>
    [fetch] is the network and the server behind it. Reading
    `data.user.firstName` throws when the answer has no `user`, before
    anything is stored. *)
Definition handleSubmit (fetch : server.AuthRequest -> outcome server.Response)
    (email password : string) (localStorage : gmap string string)
    : gmap string string * view :=
  let network_error :=
    (localStorage,
     {| message := JStr "Network error. Please try again later.";
        messageType := "error"; onLoginSuccess := None; navigated := None |}) in
  match fetch (request email password) with
  | Throw _ => network_error
  | Ok response =>
      let data := server.body response in
      if Dashboard.ok response then
        match Js.get "user" data with
        | JUndefined | JNull => network_error
        | user =>
            (<["userData" := JSON_stringify user]>
               (<["authToken" := Js.toString (Js.get "token" data)]> localStorage),
             {| message := JStr ("Welcome back, "
                                 ++ Js.toString (Js.get "firstName" user) ++ "!");
                messageType := "success";
                onLoginSuccess := Some (Js.get "token" data, user);
                navigated := Some "/dashboard"%string |})
        end
      else
        (localStorage,
         {| message := if truthy (Js.get "message" data) then Js.get "message" data
                       else JStr "Login failed. Please try again.";
            messageType := "error"; onLoginSuccess := None; navigated := None |})
  end.

End Submit.

End Login.

(** ** Sample data for the further properties *)

Module Samples.

(** A JSON codec for the two values the samples store: a string in double
    quotes, and `null`. *)
Definition unquote (s : string) : option string :=
  match s with
  | String c rest =>
      let n := (String.length rest - 1)%nat in
      if Ascii.eqb c (ascii_of_nat 34)
         && String.eqb (String.substring n 1 rest) aiService.dquote
      then Some (String.substring 0 n rest)
      else None
  | EmptyString => None
  end.

Definition json : Json :=
  {| JSON_stringify := fun v =>
       match v with
       | JStr s => (aiService.dquote ++ s ++ aiService.dquote)%string
       | _ => "null"%string
       end;
     JSON_parse := fun s =>
       if String.eqb s "null" then Ok Js.JNull
       else match unquote s with
            | Some body => Ok (JStr body)
            | None =>
                Throw {| Js.name := "SyntaxError"; Js.code := None;
                         Js.message := "Unexpected token in JSON" |}
            end |}.

(** An inference endpoint that is not running. *)
Definition ollama_down : Ollama :=
  {| fetch_generate := fun _ _ _ =>
       NetworkError {| Js.name := "TypeError"; Js.code := None;
                       Js.message := "fetch failed: connect ECONNREFUSED 127.0.0.1:11434" |} |}.

(** A signup with a password of three characters. *)
Definition short_password : jsval :=
  JObj [("email", JStr "bob@y.org"); ("password", JStr "abc");
        ("firstName", JStr "Bob"); ("lastName", JStr "Ray")].

(** A login that gives Ann's address and a number as password. *)
Definition number_login : jsval :=
  JObj [("email", JStr "ann@x.com"); ("password", Js.JNum 12345)].

(** A signup with Ann's address and without the two names. *)
Definition signup_without_names : jsval :=
  JObj [("email", JStr "ANN@x.COM"); ("password", JStr "another1")].

(** A request with a header of another scheme. *)
Definition basic : server.AuthRequest :=
  Reference.request (Some "Basic YW5uOnNlY3JldDE=") Js.JNull.

(** Lou signs up, after Ann, with a password of 72 letters. *)
Definition long_password : string := Eval vm_compute in bcrypt_repeat 72 "a".

Definition long_body : jsval :=
  JObj [("email", JStr "lou@z.org"); ("password", JStr long_password);
        ("firstName", JStr "Lou"); ("lastName", JStr "Poe")].

Definition env1 : Env :=
  {| now := 1700000300000; random := "s33d";
     objectId := "65a1b2c3d4e5f60718293a4c" |}.

Definition lou : User.t :=
  Eval vm_compute in
    match snd (Reference.app Reference.cfg env1 server.POST_auth_signup
                 (Reference.request None long_body) Reference.world1) with
    | {| server.users := [_; u] |} => u
    | _ => Reference.ann
    end.

(** Ann's signup with fields the route does not read. *)
Definition signup_with_more : jsval :=
  JObj [("_id", JStr "000000000000000000000001");
        ("email", JStr "Ann@X.com"); ("password", JStr "secret1");
        ("firstName", JStr "Ann"); ("lastName", JStr "Lee");
        ("achievements", Js.JArr [JObj [("title", JStr "Nobel Prize")]]);
        ("createdAt", Js.JNum 0)].

(** The signup form as a seventeen-year-old filled it in. *)
Definition form : SignupForm.formData :=
  {| SignupForm.email := "cy@z.net"; SignupForm.password := "hunter22";
     SignupForm.confirmPassword := "hunter22";
     SignupForm.firstName := "Cy"; SignupForm.lastName := "Day";
     SignupForm.age := "17"; SignupForm.school := ""; SignupForm.grade := "11" |}.

(** What the form sends for it. *)
Definition form_body : jsval :=
  Eval vm_compute in
    match SignupForm.handleSubmit form with
    | SignupForm.Sent body => body
    | SignupForm.Refused _ => Js.JNull
    end.

Definition question : jsval := JObj [("message", JStr "Which degree suits me?")].

(** The browser storage after Ann's signup. *)
Definition storage : gmap string string :=
  {[ "authToken"%string := Reference.token1 ]}.

(** Ann logs in on the older server. *)
Definition old_login : outcome server.Response * list User.t :=
  Eval vm_compute in
    @server_old.login Reference.bcrypt Reference.jwt Reference.mongoose
      Reference.cfg Reference.env0 (Login.request "ann@x.com" "secret1")
      (server.users Reference.world1).

Definition old_answer : server.Response :=
  Eval vm_compute in
    match fst old_login with
    | Ok res => res
    | Throw _ => server.json 500 []
    end.

End Samples.

(** ** The strings `/.+@.+\..+/` finds a match in, written out

    A match is a character, an `@`, one or more characters, a dot and a
    character, none of them a line terminator; the pattern is not
    anchored, so anything may come before and after. [after_at] and its
    companions say what must follow once a part of the match is read. *)

Module EmailPattern.

Fixpoint dots (s : string) : bool :=
  match s with
  | EmptyString => true
  | String c s' => negb (User.is_line_terminator c) && dots s'
  end.

Definition after_dot (s : string) : Prop :=
  exists c q, s = String c q /\ User.is_line_terminator c = false.

Definition in_domain (s : string) : Prop :=
  exists b r, s = (b ++ String "." r)%string /\ dots b = true /\ after_dot r.

Definition after_at (s : string) : Prop :=
  exists x r, s = String x r /\ User.is_line_terminator x = false /\ in_domain r.

Definition at_sign (s : string) : Prop :=
  exists r, s = String "@" r /\ after_at r.

Definition anywhere (s : string) : Prop :=
  exists p a r, s = (p ++ String a r)%string
                /\ User.is_line_terminator a = false /\ at_sign r.

End EmailPattern.

(** ** What the schema guarantees of a stored account *)

(** The address is in normal form and has the shape of an address, the
    names are trimmed and not empty, the age, if any, is between 13 and
    100, and the password is a hash that `bcrypt.hash` made of a secret of
    six characters or more. *)
Definition valid_account `{Bcrypt} (u : User.t) : Prop :=
  User.email u = User.normalize_email (User.email u)
  /\ User.email_match (User.email u) = true
  /\ User.firstName u = Str.trim (User.firstName u)
  /\ User.firstName u <> ""%string
  /\ User.lastName u = Str.trim (User.lastName u)
  /\ User.lastName u <> ""%string
  /\ (forall a, User.age u = Some a -> 13 <= a <= 100)
  /\ exists p salt h,
       (6 <= String.length p)%nat
       /\ bcrypt_hash p salt = Ok h
       /\ User.password u = Some h.

(** ** An account as signup leaves it

    The profile fields no route of the server ever sets: they hold the
    schema defaults, and the two timestamps are the time of the signup. *)

Definition untouched_profile (u : User.t) : Prop :=
  User.profilePicture u = None
  /\ User.achievements u = []
  /\ User.academicProgress u = []
  /\ User.interests u = []
  /\ User.universityApplications u = []
  /\ User.applicationProgress u
     = {| User.ApplicationProgress.averageCompletion := 0;
          User.ApplicationProgress.currentProject := None;
          User.ApplicationProgress.projectLink := None |}
  /\ User.chatHistory u = Some []
  /\ User.updatedAt u = User.createdAt u.

(** Unfolding the monad operations. *)
Ltac run_app :=
  unfold try_catch, mbind, App_bind, bind, mret, App_ret, ret, throw, await,
    get_state, put_state in *.

(** * Properties *)

(** ** The helpers on small inputs *)

Example toLowerCase_example : Str.toLowerCase "Ann.Lee@X.com" = "ann.lee@x.com"%string.
Proof. reflexivity. Qed.

Example trim_example : Str.trim "  ann lee  " = "ann lee"%string.
Proof. reflexivity. Qed.

Example split_space_example :
  Str.split_space "Bearer abc def" = ["Bearer"; "abc"; "def"]%string
  /\ Str.split_space "Bearer" = ["Bearer"%string]
  /\ Str.split_space "Bearer " = ["Bearer"; ""]%string.
Proof. by repeat split. Qed.

Example parseInt_example :
  Js.parseInt (JStr " 17 years") = Some 17
  /\ Js.parseInt (JNum 16) = Some 16
  /\ Js.parseInt (JStr "0x1f") = Some 31
  /\ Js.parseInt (JStr "seventeen") = None
  /\ Js.parseInt (JBool true) = None.
Proof. by repeat split. Qed.

Example email_match_example :
  User.email_match "ann@x.com" = true
  /\ User.email_match "ann@x." = false
  /\ User.email_match "@x.com" = false
  /\ User.email_match "ann.x.com" = false.
Proof. by repeat split. Qed.

Example ms_example :
  jwt.ms "1h" = Some 3600000 /\ jwt.ms "30m" = Some 1800000
  /\ jwt.ms "7d" = Some 604800000 /\ jwt.ms "soon" = None.
Proof. by repeat split. Qed.

Example cleanResponse_example :
  aiService.cleanResponse " <s>[INST] Study law.[/INST]</s> " = "Study law."%string.
Proof. reflexivity. Qed.

(** Beyond ASCII and beyond the integers: 'ÄNN' lowers to 'änn' (units
    196 and 228), a no-break space (unit 160) is trimmed, and `1e21`,
    whose text is "1e+21", reads as the age 1. *)
Example latin1_example :
  Str.toLowerCase (String (ascii_of_nat 196) "NN@X.com")
  = String (ascii_of_nat 228) "nn@x.com"
  /\ Str.trim (String (ascii_of_nat 160) "ann ") = "ann"%string
  /\ User.normalize_email (String (ascii_of_nat 196) "NN@x.com")
     = User.normalize_email (String (ascii_of_nat 228) "nn@x.com").
Proof. by repeat split. Qed.

Example exponent_example :
  Js.parseInt (Js.JReal "1e+21") = Some 1
  /\ Js.parseInt (Js.JReal "0.5") = Some 0
  /\ Js.parseInt (Js.JReal "Infinity") = None
  /\ truthy (Js.JReal "0.5") = true
  /\ User.validate
       (User.new_User "65a1b2c3d4e5f60718293a4b" (JStr "ann@x.com")
          (JStr "secret1") (JStr "Ann") (JStr "Lee")
          (Some (Js.parseInt (Js.JReal "1e+21"))) Js.JUndefined Js.JUndefined)
     = [("age", "Must be at least 13 years old")]%string.
Proof. by repeat split. Qed.

Example bcrypt_key_example :
  bcrypt_key "ab"
  = String.substring 0 72
      (bcrypt_repeat 24 (String "a" (String "b" (String (ascii_of_nat 0) ""))))
  /\ String.length (bcrypt_key "") = 72%nat
  /\ bcrypt_utf8 (String (ascii_of_nat 228) "")
     = String (ascii_of_nat 195) (String (ascii_of_nat 164) "").
Proof. by repeat split. Qed.

Example truthy_example :
  truthy (JStr "") = false /\ truthy (JNum 0) = false /\ truthy JNull = false
  /\ truthy (JStr "0") = true /\ truthy (JArr []) = true /\ truthy (JObj []) = true.
Proof. by repeat split. Qed.

(** ** Strings *)

Lemma lower_ascii_idem (c : ascii) :
  Str.lower_ascii (Str.lower_ascii c) = Str.lower_ascii c.
Proof. destruct c as [[] [] [] [] [] [] [] []]; reflexivity. Qed.

Lemma is_space_lower (c : ascii) :
  Str.is_space (Str.lower_ascii c) = Str.is_space c.
Proof. destruct c as [[] [] [] [] [] [] [] []]; reflexivity. Qed.

Lemma toLowerCase_idem (s : string) :
  Str.toLowerCase (Str.toLowerCase s) = Str.toLowerCase s.
Proof.
  induction s as [|c s IH]; simpl; [reflexivity|].
  by rewrite lower_ascii_idem, IH.
Qed.

Lemma trimStart_lower (s : string) :
  Str.trimStart (Str.toLowerCase s) = Str.toLowerCase (Str.trimStart s).
Proof.
  induction s as [|c s IH]; simpl; [reflexivity|].
  rewrite is_space_lower. destruct (Str.is_space c); [exact IH | reflexivity].
Qed.

Lemma toLowerCase_empty (s : string) :
  Str.toLowerCase s = EmptyString <-> s = EmptyString.
Proof. destruct s; simpl; split; congruence. Qed.

Lemma trimEnd_lower (s : string) :
  Str.trimEnd (Str.toLowerCase s) = Str.toLowerCase (Str.trimEnd s).
Proof.
  induction s as [|c s IH]; simpl; [reflexivity|].
  rewrite IH, is_space_lower.
  destruct (Str.trimEnd s) as [|a t] eqn:E; simpl.
  - destruct (Str.is_space c); reflexivity.
  - reflexivity.
Qed.

Lemma trim_lower (s : string) :
  Str.trim (Str.toLowerCase s) = Str.toLowerCase (Str.trim s).
Proof. unfold Str.trim. by rewrite trimStart_lower, trimEnd_lower. Qed.

Lemma trimStart_clean (s : string) : Str.clean_start (Str.trimStart s).
Proof.
  induction s as [|c s IH]; simpl; [exact I|].
  destruct (Str.is_space c) eqn:E; [exact IH | exact E].
Qed.

Lemma trimStart_id (s : string) : Str.clean_start s -> Str.trimStart s = s.
Proof. destruct s as [|c s]; simpl; [done|]. by intros ->. Qed.

Lemma trimEnd_clean (s : string) : Str.clean_start s -> Str.clean_start (Str.trimEnd s).
Proof.
  destruct s as [|c s]; simpl; [done|]. intros Hc.
  destruct (Str.trimEnd s); simpl; by rewrite ?Hc.
Qed.

Lemma trimEnd_idem (s : string) : Str.trimEnd (Str.trimEnd s) = Str.trimEnd s.
Proof.
  induction s as [|c s IH]; simpl; [reflexivity|].
  destruct (Str.trimEnd s) as [|a t] eqn:E.
  - destruct (Str.is_space c) eqn:Hc; simpl; by rewrite ?Hc.
  - change (Str.trimEnd (String c (String a t))) with
      (match Str.trimEnd (String a t) with
       | EmptyString => if Str.is_space c then EmptyString else String c EmptyString
       | r => String c r
       end).
    by rewrite IH.
Qed.

Lemma trim_idem (s : string) : Str.trim (Str.trim s) = Str.trim s.
Proof.
  unfold Str.trim.
  rewrite (trimStart_id (Str.trimEnd (Str.trimStart s))).
  - apply trimEnd_idem.
  - apply trimEnd_clean, trimStart_clean.
Qed.

Lemma normalize_email_idem (s : string) :
  User.normalize_email (User.normalize_email s) = User.normalize_email s.
Proof.
  unfold User.normalize_email.
  by rewrite trim_lower, trim_idem, toLowerCase_idem.
Qed.

(** A normalised address is its own lower-case form and its own trim. *)
Lemma normalize_email_fixed (x e : string) :
  x = User.normalize_email x ->
  Str.toLowerCase x = Str.toLowerCase e ->
  User.normalize_email e = x.
Proof.
  unfold User.normalize_email. intros Hx Heq.
  rewrite <- trim_lower, <- Heq, trim_lower, <- Hx. reflexivity.
Qed.

Lemma has_space_cons (c : ascii) (s : string) :
  Str.has_space (String c s) = false ->
  Ascii.eqb c " " = false /\ Str.has_space s = false.
Proof.
  unfold Str.has_space.
  change (Str.includes (String c s) " ")
    with (String.prefix " " (String c s) || Str.includes s " ").
  change (String.prefix " " (String c s))
    with (if Ascii.ascii_dec " " c then String.prefix "" s else false).
  destruct (Ascii.ascii_dec " " c) as [<-|Hne]; [by destruct s|]; simpl.
  intros Hs. split; [|exact Hs].
  apply Ascii.eqb_neq. congruence.
Qed.

Lemma split_space_no_space (s : string) :
  Str.has_space s = false -> Str.split_space s = [s].
Proof.
  induction s as [|c s IH]; [reflexivity|].
  intros [Hc Hs]%has_space_cons. simpl. rewrite Hc, (IH Hs). reflexivity.
Qed.

(** `('Bearer ' + token).split(' ')[1]` is the token. *)
Lemma split_space_bearer (token : string) :
  Str.has_space token = false ->
  Str.split_space ("Bearer " ++ token)%string !! 1%nat = Some token.
Proof.
  intros Hs.
  change (Str.split_space ("Bearer " ++ token)%string !! 1%nat)
    with (Str.split_space token !! 0%nat).
  rewrite (split_space_no_space _ Hs). reflexivity.
Qed.

(** *** Splitting at spaces *)

Lemma prefix_cons (c c' : ascii) (p s : string) :
  String.prefix (String c p) (String c' s)
  = if Ascii.ascii_dec c c' then String.prefix p s else false.
Proof. reflexivity. Qed.

Lemma has_space_String (c : ascii) (s : string) :
  Str.has_space (String c s) = Ascii.eqb c " " || Str.has_space s.
Proof.
  unfold Str.has_space.
  change (Str.includes (String c s) " ")
    with (String.prefix " " (String c s) || Str.includes s " ").
  rewrite prefix_cons.
  destruct (Ascii.ascii_dec " " c) as [<-|Hne].
  - by destruct s.
  - assert (Ascii.eqb c " " = false) as -> by (apply Ascii.eqb_neq; congruence).
    reflexivity.
Qed.

Lemma has_space_app (a b : string) :
  Str.has_space (a ++ b) = Str.has_space a || Str.has_space b.
Proof.
  induction a as [|c a IH]; [reflexivity|].
  change (String c a ++ b)%string with (String c (a ++ b)).
  rewrite !has_space_String, IH. by rewrite orb_assoc.
Qed.

(** `s.split(' ')`: the first piece runs up to the first space, and the
    rest is the split of what follows it. *)
Lemma split_space_cases (s : string) :
  exists p ps,
    Str.split_space s = p :: ps /\ Str.has_space p = false
    /\ ((ps = [] /\ s = p)
        \/ exists s', s = (p ++ " " ++ s')%string /\ ps = Str.split_space s').
Proof.
  induction s as [|c s (p & ps & Hsplit & Hp & Hrest)].
  - exists ""%string, []. repeat split. by left.
  - cbn [Str.split_space]. destruct (Ascii.eqb_spec c " ") as [->|Hc].
    + exists ""%string, (Str.split_space s). repeat split. right. by exists s.
    + rewrite Hsplit. exists (String c p), ps. split; [reflexivity|]. split.
      * rewrite has_space_String, Hp. by apply Ascii.eqb_neq in Hc as ->.
      * destruct Hrest as [[-> ->] | (s' & -> & ->)]; [by left|].
        right. by exists s'.
Qed.

Lemma split_space_app (a b : string) :
  Str.has_space a = false ->
  Str.split_space (a ++ " " ++ b) = a :: Str.split_space b.
Proof.
  induction a as [|c a IH]; [reflexivity|].
  rewrite has_space_String. intros [Hc Ha]%orb_false_elim.
  change (String c a ++ " " ++ b)%string with (String c (a ++ " " ++ b)).
  cbn [Str.split_space]. by rewrite Hc, (IH Ha).
Qed.

(** A prefix without a space of a string whose first space comes after
    [a] lies within [a]. *)
Lemma prefix_before_space (p a r : string) :
  Str.has_space p = false ->
  String.prefix p (a ++ " " ++ r) = true ->
  exists x, a = (p ++ x)%string.
Proof.
  revert a. induction p as [|c p IH]; intros a Hp; [by exists a|].
  rewrite has_space_String in Hp. apply orb_false_elim in Hp as [Hc Hp].
  destruct a as [|c' a].
  - change ("" ++ " " ++ r)%string with (String " " r). rewrite prefix_cons.
    destruct (Ascii.ascii_dec c " ") as [->|_]; [|discriminate].
    by rewrite Ascii.eqb_refl in Hc.
  - change (String c' a ++ " " ++ r)%string with (String c' (a ++ " " ++ r)).
    rewrite prefix_cons.
    destruct (Ascii.ascii_dec c c') as [<-|_]; [|discriminate].
    intros [x ->]%(IH _ Hp). by exists x.
Qed.

Lemma prefix_app (p s : string) : String.prefix p (p ++ s) = true.
Proof.
  induction p as [|c p IH]; [by destruct s|].
  change (String c p ++ s)%string with (String c (p ++ s)).
  rewrite prefix_cons. by destruct (Ascii.ascii_dec c c).
Qed.

Lemma append_empty (s : string) : (s ++ "")%string = s.
Proof.
  induction s as [|c s IH]; [reflexivity|].
  change (String c s ++ "")%string with (String c (s ++ "")). by rewrite IH.
Qed.

(** ** The monad *)

Lemma on_users_ok {A} (c : App (list User.t) A) (w : server.World) :
  server.on_users c w =
  (fst (c (server.users w)),
   {| server.users := snd (c (server.users w)); server.sent := server.sent w |}).
Proof. unfold server.on_users. by destruct (c (server.users w)). Qed.

Lemma on_sent_ok {A} (c : App (list string) A) (w : server.World) :
  server.on_sent c w =
  (fst (c (server.sent w)),
   {| server.users := server.users w; server.sent := snd (c (server.sent w)) |}).
Proof. unfold server.on_sent. by destruct (c (server.sent w)). Qed.

Lemma world_eta (w : server.World) :
  {| server.users := server.users w; server.sent := server.sent w |} = w.
Proof. by destruct w. Qed.

(** ** The `protect` middleware *)

Section Middleware.
Context `{Bcrypt} `{JwtCodec} `{Mongoose} `{Ollama}.
Variable cfg : server.Config.
Variable env : Env.

Lemma bearer_token_absent (req : server.AuthRequest) :
  server.headers req !! "authorization" = None -> server.bearer_token req = None.
Proof. unfold server.bearer_token. by intros ->. Qed.

Lemma protect_no_token (req : server.AuthRequest) :
  server.bearer_token req = None ->
  server.protect cfg env req =
  server.Responded
    (server.json 401 [("message", JStr "No token, authorization denied")]).
Proof. unfold server.protect. by intros ->. Qed.

Lemma verify_empty (secret : string) (at_ms : Z) :
  exists e, jwt.verify "" secret at_ms = Throw e.
Proof. unfold jwt.verify. simpl. eauto. Qed.

Lemma protect_bad_token (req : server.AuthRequest) (token : string) (e : Js.error) :
  server.bearer_token req = Some token ->
  jwt.verify token (server.JWT_SECRET cfg) (now env) = Throw e ->
  exists msg,
    server.protect cfg env req =
    server.Responded (server.json 401 [("message", JStr msg)]).
Proof.
  unfold server.protect. intros -> Hv.
  destruct (String.eqb token ""); [eauto|]. rewrite Hv. eauto.
Qed.

Lemma protect_good_token (req : server.AuthRequest) (token : string)
    (decoded : JwtPayload) :
  server.bearer_token req = Some token ->
  jwt.verify token (server.JWT_SECRET cfg) (now env) = Ok decoded ->
  server.protect cfg env req = server.Next (server.set_user decoded req).
Proof.
  unfold server.protect. intros -> Hv.
  destruct (String.eqb token "") eqn:E.
  - apply String.eqb_eq in E. subst token.
    destruct (verify_empty (server.JWT_SECRET cfg) (now env)) as [e He].
    congruence.
  - by rewrite Hv.
Qed.

(** Every outcome of `protect` is a 401 or a call of `next()`. *)
Lemma protect_cases (req : server.AuthRequest) :
  (exists msg, server.protect cfg env req =
               server.Responded (server.json 401 [("message", JStr msg)]))
  \/ (exists token decoded,
        server.bearer_token req = Some token /\
        jwt.verify token (server.JWT_SECRET cfg) (now env) = Ok decoded /\
        server.protect cfg env req = server.Next (server.set_user decoded req)).
Proof.
  destruct (server.bearer_token req) as [token|] eqn:Ht.
  - destruct (jwt.verify token (server.JWT_SECRET cfg) (now env)) as [d|e] eqn:Hv.
    + right. exists token, d. eauto using protect_good_token.
    + left. eapply protect_bad_token; eauto.
  - left. eexists. by apply protect_no_token.
Qed.

Lemma split_space_second (p s' : string) (ps : list string) :
  ps = Str.split_space s' -> exists q, (p :: ps) !! 1%nat = Some q.
Proof.
  intros ->. destruct (split_space_cases s') as (q & qs & -> & _). by exists q.
Qed.

(** The requests `protect` reads no token from: no `Authorization` header,
    a header that does not start with 'Bearer' (the empty header, another
    scheme, another letter case), or a header without a space. *)
Lemma bearer_token_none (req : server.AuthRequest) :
  server.bearer_token req = None
  <-> server.headers req !! "authorization" = None
      \/ exists a, server.headers req !! "authorization" = Some a
                   /\ (Str.startsWith a "Bearer" = false \/ Str.has_space a = false).
Proof.
  unfold server.bearer_token. split.
  - destruct (server.headers req !! "authorization") as [a|]; [|by left].
    intros Hnone. right. exists a. split; [reflexivity|].
    destruct (String.eqb_spec a "") as [Ha|_]; [rewrite Ha; by left|].
    cbn [negb andb] in Hnone.
    destruct (Str.startsWith a "Bearer"); [|by left]. right.
    destruct (split_space_cases a) as (p & ps & Hsplit & Hp & [[_ Ha] | (s' & _ & Hps)]);
      [by rewrite Ha|].
    rewrite Hsplit in Hnone.
    destruct (split_space_second p s' ps Hps) as [q Hq]. congruence.
  - intros [-> | (a & -> & [Hs | Hs])]; [reflexivity| |].
    + rewrite Hs. by rewrite andb_false_r.
    + rewrite (split_space_no_space _ Hs). by destruct (_ && _).
Qed.

(** A request without a usable token is answered by the middleware, and
    the answer and the state are the same whatever the handler is. *)
Lemma guarded_rejects (req : server.AuthRequest) :
  server.bearer_token req = None \/
  (exists token e,
     server.bearer_token req = Some token /\
     jwt.verify token (server.JWT_SECRET cfg) (now env) = Throw e) ->
  exists res,
    server.status res = 401 /\
    server.protect cfg env req = server.Responded res /\
    (forall handler w, server.guarded cfg env handler req w = (Ok res, w)) /\
    (forall r w, server.is_protected r = true ->
                 server.app cfg env r req w = (Ok res, w)).
Proof.
  intros Hfail.
  assert (exists msg, server.protect cfg env req =
            server.Responded (server.json 401 [("message", JStr msg)]))
    as [msg Hp].
  { destruct Hfail as [Habs | (token & e & Ht & Hv)].
    - eexists. by apply protect_no_token.
    - eapply protect_bad_token; eauto. }
  exists (server.json 401 [("message", JStr msg)]).
  split; [reflexivity|]. split; [exact Hp|].
  assert (forall handler w,
            server.guarded cfg env handler req w
            = (Ok (server.json 401 [("message", JStr msg)]), w)) as Hg.
  { intros handler w. unfold server.guarded. by rewrite Hp. }
  split; [exact Hg|].
  intros r w Hr. unfold server.app. rewrite Hr. apply Hg.
Qed.

(** A request whose token verifies is passed on, with the payload attached. *)
Lemma guarded_passes (req : server.AuthRequest) (token : string)
    (decoded : JwtPayload) :
  server.bearer_token req = Some token ->
  jwt.verify token (server.JWT_SECRET cfg) (now env) = Ok decoded ->
  server.protect cfg env req = server.Next (server.set_user decoded req) /\
  id <$> server.user (server.set_user decoded req) = Some (id decoded) /\
  (forall handler, server.guarded cfg env handler req
                   = handler (server.set_user decoded req)) /\
  (forall r, server.is_protected r = true ->
             server.app cfg env r req
             = server.handler_of cfg env r (server.set_user decoded req)).
Proof.
  intros Ht Hv.
  pose proof (protect_good_token req token decoded Ht Hv) as Hp.
  split; [exact Hp|]. split; [reflexivity|].
  assert (forall handler, server.guarded cfg env handler req
                          = handler (server.set_user decoded req)) as Hg.
  { intros handler. unfold server.guarded. by rewrite Hp. }
  split; [exact Hg|].
  intros r Hr. unfold server.app. rewrite Hr. apply Hg.
Qed.

(** C4. On a protected route every request falls under one of three
    cases. No token can be read from it: there is no `Authorization`
    header, or the header does not start with 'Bearer', or it has no
    second piece after a space; then the middleware answers 401. A token
    is read and does not verify, for whatever reason: 401 again. In both
    cases the handler is not run (the answer and the state are the same
    whatever the handler is). Or the token verifies: then the decoded
    payload, which carries the account id, is attached to the request as
    `req.user` and the next stage is called with it. *)
Theorem protect_rejects_or_attaches (req : server.AuthRequest) :
  (server.bearer_token req = None \/
   (exists token e,
      server.bearer_token req = Some token /\
      jwt.verify token (server.JWT_SECRET cfg) (now env) = Throw e) ->
   exists res,
     server.status res = 401 /\
     server.protect cfg env req = server.Responded res /\
     (forall handler w, server.guarded cfg env handler req w = (Ok res, w)) /\
     (forall r w, server.is_protected r = true ->
                  server.app cfg env r req w = (Ok res, w)))
  /\
  (server.bearer_token req = None
   <-> server.headers req !! "authorization" = None
       \/ exists a, server.headers req !! "authorization" = Some a
                    /\ (Str.startsWith a "Bearer" = false \/ Str.has_space a = false))
  /\
  (forall token decoded,
     server.bearer_token req = Some token ->
     jwt.verify token (server.JWT_SECRET cfg) (now env) = Ok decoded ->
     server.protect cfg env req = server.Next (server.set_user decoded req) /\
     id <$> server.user (server.set_user decoded req) = Some (id decoded) /\
     (forall handler, server.guarded cfg env handler req
                      = handler (server.set_user decoded req)) /\
     (forall r, server.is_protected r = true ->
                server.app cfg env r req
                = server.handler_of cfg env r (server.set_user decoded req))).
Proof.
  split; [apply guarded_rejects|]. split; [apply bearer_token_none|].
  apply guarded_passes.
Qed.

End Middleware.

(** ** The routes, case by case *)

Section Cases.
Context `{Bcrypt} `{JwtCodec} `{Mongoose} `{Ollama}.
Variable cfg : server.Config.
Variable env : Env.

Lemma message_only_1 (code : Z) (m : string) :
  server.message_only (server.json code [("message", JStr m)]).
Proof. exists code, m. by left. Qed.

Lemma message_only_2 (code : Z) (m e : string) :
  server.message_only (server.json code [("message", JStr m); ("error", JStr e)]).
Proof. exists code, m. right. by exists e. Qed.

(** A draft that passes validation has a password, of six characters or
    more, and an address. *)
Lemma validate_password (d : User.Draft) :
  User.validate d = [] ->
  exists p, User.d_password d = User.Value p /\ p <> ""%string
            /\ (6 <= String.length p)%nat.
Proof.
  unfold User.validate. intros Hv.
  repeat (apply List.app_eq_nil in Hv; destruct Hv as [? Hv]).
  unfold User.check_required, User.check, User.check_cast in *.
  destruct (User.d_password d) as [|p|]; cbv beta iota in *; try discriminate.
  exists p. split; [reflexivity|].
  destruct (String.eqb_spec p ""); [discriminate|]. split; [assumption|].
  destruct (6 <=? String.length p)%nat eqn:E; [|discriminate].
  by apply Nat.leb_le.
Qed.

Lemma validate_email (d : User.Draft) :
  User.validate d = [] ->
  exists e, User.d_email d = User.Value e /\ e <> ""%string.
Proof.
  unfold User.validate. intros Hv.
  repeat (apply List.app_eq_nil in Hv; destruct Hv as [? Hv]).
  unfold User.check_required, User.check, User.check_cast in *.
  destruct (User.d_email d) as [|e|]; cbv beta iota in *; try discriminate.
  exists e. split; [reflexivity|].
  by destruct (String.eqb_spec e "").
Qed.

(** `user.save()` either throws and leaves the collection as it was, or
    appends one document: the validated draft with its password replaced by
    the hash of that password. *)
Lemma save_cases (d : User.Draft) (db : list User.t) :
  (exists e, User.save env d db = (Throw e, db))
  \/ (exists p h,
        User.validate d = [] /\
        User.d_password d = User.Value p /\ p <> ""%string /\
        bcrypt_hash p (bcrypt_genSalt 10 (random env)) = Ok h /\
        let this := User.set_password (Some h) (User.document (now env) d) in
        User.save env d db = (Ok this, db ++ [this])).
Proof.
  unfold User.save. destruct (User.validate d) eqn:Hv.
  2:{ left. eexists. reflexivity. }
  destruct (validate_password d Hv) as (p & Hp & Hne & _).
  run_app. unfold User.pre_save, User.isModified_password.
  rewrite Hp. simpl. rewrite Hp. simpl.
  destruct (String.eqb_spec p ""); [done|]. simpl.
  destruct (bcrypt_hash p (bcrypt_genSalt 10 (random env))) as [h|e] eqn:Hh.
  2:{ left. by exists e. }
  destruct (existsb _ db); [left; eexists; reflexivity|].
  destruct (existsb _ db); [left; eexists; reflexivity|].
  right. exists p, h. by repeat split.
Qed.

(** Signup always answers. Either the collection is untouched and the answer
    is a bare message, or one document was appended, whose password is the
    hash of the submitted one; the answer is then the 201 with a token, or a
    bare message when signing the token failed. *)
Lemma signup_cases (req : server.AuthRequest) (db : list User.t) :
  (exists res, server.message_only res /\
               server.signup cfg env req db = (Ok res, db))
  \/ (exists p h,
        User.validate (server.signup_draft env req) = [] /\
        User.castString (Js.get "password" (server.body_of req)) = User.Value p /\
        p <> ""%string /\
        bcrypt_hash p (bcrypt_genSalt 10 (random env)) = Ok h /\
        let user := User.set_password (Some h)
                      (User.document (now env) (server.signup_draft env req)) in
        (exists token,
           jwt.sign (User._id user) (server.JWT_SECRET cfg) "1h" (now env) = Ok token /\
           server.signup cfg env req db =
           (Ok (server.json 201 [("message", JStr "User registered successfully");
                                 ("token", JStr token);
                                 ("user", JObj (server.signup_view user))]),
            db ++ [user]))
        \/ (exists res, server.message_only res /\
                        server.signup cfg env req db = (Ok res, db ++ [user]))).
Proof.
  unfold server.signup.
  destruct (negb _ || negb _ || negb _ || negb _).
  { left. eexists. split; [apply message_only_1 | reflexivity]. }
  run_app. unfold User.findOne. run_app.
  destruct (User.email_filter _) as [f|e].
  2:{ left. destruct (bool_decide _); eexists;
      (split; [|reflexivity]); auto using message_only_1, message_only_2. }
  destruct (find _ db); simpl.
  { left. eexists. split; [apply message_only_1 | reflexivity]. }
  fold (server.signup_draft env req).
  destruct (save_cases (server.signup_draft env req) db) as [[e He] | (p & h & Hv & Hp & Hne & Hh & Hs)].
  - rewrite He. left. destruct (bool_decide _); eexists;
      (split; [|reflexivity]); auto using message_only_1, message_only_2.
  - simpl in Hs. rewrite Hs. right. exists p, h. repeat (split; [assumption|]).
    simpl.
    destruct (jwt.sign _ _ _ _) as [token|e].
    + left. exists token. done.
    + right. destruct (bool_decide _); eexists;
        (split; [|reflexivity]); auto using message_only_1, message_only_2.
Qed.

(** What `save` inserts is new to both unique indexes. *)
Lemma save_fresh (d : User.Draft) (db db' : list User.t) (this : User.t) :
  User.save env d db = (Ok this, db') ->
  db' = db ++ [this]
  /\ Forall (fun u => User.email u <> User.email this) db
  /\ Forall (fun u => User._id u <> User._id this) db.
Proof.
  assert (forall (f : User.t -> bool) (u : User.t),
            existsb f db = false -> In u db -> f u = false) as Hnone.
  { intros f u Hf Hu. destruct (f u) eqn:E; [|reflexivity].
    rewrite <- Hf. symmetry. apply existsb_exists. eauto. }
  unfold User.save. destruct (User.validate d); [|discriminate].
  run_app. destruct (User.pre_save _ _ _) as [a|e]; [|discriminate].
  destruct (existsb (fun u => String.eqb (User._id u) (User._id a)) db) eqn:Hid;
    [discriminate|].
  destruct (existsb (fun u => String.eqb (User.email u) (User.email a)) db) eqn:Hem;
    [discriminate|].
  cbv beta. intros [= <- <-]. split; [reflexivity|].
  split; apply Forall_forall; intros u Hu%list_elem_of_In Heq.
  - apply (Hnone _ u Hem) in Hu. cbv beta in Hu.
    rewrite Heq, String.eqb_refl in Hu. discriminate.
  - apply (Hnone _ u Hid) in Hu. cbv beta in Hu.
    rewrite Heq, String.eqb_refl in Hu. discriminate.
Qed.

(** Whatever signup answers, a document it appended is new to both unique
    indexes of the collection. *)
Lemma signup_write (req : server.AuthRequest) (db db' : list User.t)
    (o : outcome server.Response) :
  server.signup cfg env req db = (o, db') ->
  db' = db
  \/ exists this,
       db' = db ++ [this]
       /\ Forall (fun u => User.email u <> User.email this) db
       /\ Forall (fun u => User._id u <> User._id this) db.
Proof.
  unfold server.signup.
  destruct (negb _ || negb _ || negb _ || negb _).
  { intros [= _ <-]. by left. }
  run_app. unfold User.findOne. run_app.
  destruct (User.email_filter _) as [f|e].
  2:{ destruct (bool_decide _); intros [= _ <-]; by left. }
  destruct (find _ db); simpl.
  { intros [= _ <-]. by left. }
  fold (server.signup_draft env req).
  destruct (User.save env (server.signup_draft env req) db) as [[this|e] db1] eqn:Hs.
  - apply save_fresh in Hs as (-> & Hem & Hid).
    destruct (jwt.sign _ _ _ _); simpl; [|destruct (bool_decide _)];
      intros [= _ <-]; right; eauto.
  - destruct (save_cases (server.signup_draft env req) db)
      as [[e' He] | (p & h & _ & _ & _ & _ & Hok)].
    + rewrite He in Hs. injection Hs as _ <-.
      destruct (bool_decide _); intros [= _ <-]; by left.
    + cbv zeta in Hok. congruence.
Qed.

(** Login always answers and never writes: a bare message, or the 200 with
    a token for the account found, whose password verified. *)
Lemma login_cases (req : server.AuthRequest) (db : list User.t) :
  (exists res, server.message_only res /\
               server.login cfg env req db = (Ok res, db))
  \/ (exists f u token,
        User.email_filter (Js.get "email" (server.body_of req)) = Ok f /\
        find (fun x => f (User.email x)) db = Some u /\
        User.comparePassword (User.select true u)
          (Js.get "password" (server.body_of req)) = Ok true /\
        jwt.sign (User._id u) (server.JWT_SECRET cfg) "1h" (now env) = Ok token /\
        server.login cfg env req db =
        (Ok (server.json 200 [("message", JStr "Logged in successfully");
                              ("token", JStr token);
                              ("user", JObj (server.profile_view (User.select true u)))]),
         db)).
Proof.
  unfold server.login.
  destruct (negb _ || negb _).
  { left. eexists. split; [apply message_only_1 | reflexivity]. }
  run_app. unfold User.findOne. run_app.
  destruct (User.email_filter _) as [f|e].
  2:{ left. eexists. split; [apply message_only_2 | reflexivity]. }
  destruct (find _ db) as [u|] eqn:Hf; simpl.
  2:{ left. eexists. split; [apply message_only_1 | reflexivity]. }
  destruct (User.comparePassword _ _) as [[|]|e] eqn:Hc; simpl.
  - destruct (jwt.sign _ _ _ _) as [token|e] eqn:Hs.
    + right. exists f, u, token. by repeat split.
    + left. eexists. split; [apply message_only_2 | reflexivity].
  - left. eexists. split; [apply message_only_1 | reflexivity].
  - left. eexists. split; [apply message_only_2 | reflexivity].
Qed.

(** The profile route always answers and never writes: a bare message
    (the 404, the 500) or the 200 with the view of the account found. *)
Lemma profile_cases (req : server.AuthRequest) (db : list User.t) :
  (exists res, server.message_only res /\
               server.profile req db = (Ok res, db))
  \/ (exists oid u,
        id <$> server.user req = Some oid /\
        (exists o, castObjectId oid = Some o /\
                   find (fun x => String.eqb (User._id x) o) db = Some u) /\
        server.profile req db =
        (Ok (server.json 200 (server.profile_view (User.select false u))), db)).
Proof.
  unfold server.profile. run_app. unfold User.findById.
  destruct (id <$> server.user req) as [oid|]; run_app.
  2:{ left. eexists. split; [apply message_only_1 | reflexivity]. }
  destruct (castObjectId oid) as [o|] eqn:Hc.
  2:{ left. eexists. split; [apply message_only_2 | reflexivity]. }
  destruct (find _ db) as [u|] eqn:Hf; simpl.
  - right. exists oid, u. split; [reflexivity|]. split; [eauto|reflexivity].
  - left. eexists. split; [apply message_only_1 | reflexivity].
Qed.

(** The two failures of a login whose password compares false: one and
    the same answer, status 400 with the body
    `{ message: 'Invalid credentials' }`, whether no account matches the
    email or one matches; neither run changes the collection. *)
Lemma login_failures_identical (req : server.AuthRequest)
    (db_absent db_present : list User.t) (f : string -> bool) (u : User.t) :
  truthy (Js.get "email" (server.body_of req)) = true ->
  truthy (Js.get "password" (server.body_of req)) = true ->
  User.email_filter (Js.get "email" (server.body_of req)) = Ok f ->
  find (fun x => f (User.email x)) db_absent = None ->
  find (fun x => f (User.email x)) db_present = Some u ->
  User.comparePassword (User.select true u)
    (Js.get "password" (server.body_of req)) = Ok false ->
  let invalid := server.json 400 [("message", JStr "Invalid credentials")] in
  server.login cfg env req db_absent = (Ok invalid, db_absent) /\
  server.login cfg env req db_present = (Ok invalid, db_present).
Proof.
  intros He Hp Hf Habsent Hpresent Hcmp invalid.
  unfold server.login. rewrite He, Hp. simpl.
  run_app. unfold User.findOne. run_app.
  rewrite Hf, Habsent, Hpresent. simpl. rewrite Hcmp. simpl. done.
Qed.

(** C1 does not hold of the code. A login whose `password` is present but
    is not a string (a number, `true`, an array, an object: the handler
    checks presence only) is answered 400 'Invalid credentials' when no
    account matches the email, and 500 'Server error during login', with
    the text of the error `bcrypt.compare` threw, when an account with a
    stored hash matches: the two answers differ, and tell whether the
    account exists. *)
Theorem login_nonstring_password_leaks (req : server.AuthRequest)
    (db_absent db_present : list User.t) (f : string -> bool) (u : User.t)
    (h : string) :
  truthy (Js.get "email" (server.body_of req)) = true ->
  truthy (Js.get "password" (server.body_of req)) = true ->
  Js.is_string (Js.get "password" (server.body_of req)) = false ->
  User.email_filter (Js.get "email" (server.body_of req)) = Ok f ->
  find (fun x => f (User.email x)) db_absent = None ->
  find (fun x => f (User.email x)) db_present = Some u ->
  User.password u = Some h -> h <> ""%string ->
  server.login cfg env req db_absent
  = (Ok (server.json 400 [("message", JStr "Invalid credentials")]), db_absent)
  /\ server.login cfg env req db_present
     = (Ok (server.json 500
              [("message", JStr "Server error during login");
               ("error", JStr ("Illegal arguments: "
                               ++ Js.typeof (Js.get "password" (server.body_of req))
                               ++ ", string"))]),
        db_present)
  /\ fst (server.login cfg env req db_absent)
     <> fst (server.login cfg env req db_present).
Proof.
  intros He Hp Hstr Hf Habsent Hpresent Hh Hne.
  assert (User.comparePassword (User.select true u)
            (Js.get "password" (server.body_of req))
          = Throw {| Js.name := "Error"; Js.code := None;
                     Js.message :=
                       "Illegal arguments: "
                       ++ Js.typeof (Js.get "password" (server.body_of req))
                       ++ ", string" |}) as Hcmp.
  { unfold User.comparePassword, User.select.
    cbn [User.password User.set_chatHistory]. rewrite Hh.
    destruct (String.eqb_spec h ""); [done|]. cbn [negb].
    by destruct (Js.get "password" (server.body_of req)). }
  assert (server.login cfg env req db_absent
          = (Ok (server.json 400 [("message", JStr "Invalid credentials")]),
             db_absent)) as Ha.
  { unfold server.login. rewrite He, Hp. simpl.
    run_app. unfold User.findOne. run_app. by rewrite Hf, Habsent. }
  assert (server.login cfg env req db_present
          = (Ok (server.json 500
                   [("message", JStr "Server error during login");
                    ("error", JStr ("Illegal arguments: "
                                    ++ Js.typeof (Js.get "password" (server.body_of req))
                                    ++ ", string"))]),
             db_present)) as Hb.
  { unfold server.login. rewrite He, Hp. simpl.
    run_app. unfold User.findOne. run_app.
    rewrite Hf, Hpresent. simpl. by rewrite Hcmp. }
  split; [exact Ha|]. split; [exact Hb|]. rewrite Ha, Hb. discriminate.
Qed.

(** When `comparePassword` throws instead of answering, login falls to
    its catch-all. *)
Lemma login_compare_throws (req : server.AuthRequest) (db : list User.t)
    (f : string -> bool) (u : User.t) (e : Js.error) :
  truthy (Js.get "email" (server.body_of req)) = true ->
  truthy (Js.get "password" (server.body_of req)) = true ->
  User.email_filter (Js.get "email" (server.body_of req)) = Ok f ->
  find (fun x => f (User.email x)) db = Some u ->
  User.comparePassword (User.select true u)
    (Js.get "password" (server.body_of req)) = Throw e ->
  server.login cfg env req db
  = (Ok (server.json 500 [("message", JStr "Server error during login");
                          ("error", JStr (Js.message e))]), db).
Proof.
  intros He Hp Hf Hfind Hcmp.
  unfold server.login. rewrite He, Hp. simpl.
  run_app. unfold User.findOne. run_app.
  rewrite Hf, Hfind. simpl. rewrite Hcmp. reflexivity.
Qed.

(** *** What the answers show of a user *)

Lemma mentions_arr_cons (k : string) (x : jsval) (xs : list jsval) :
  Js.mentions k (JArr (x :: xs)) = Js.mentions k x || Js.mentions k (JArr xs).
Proof. reflexivity. Qed.

Lemma mentions_obj_cons (k k' : string) (x : jsval) (l : list (string * jsval)) :
  Js.mentions k (JObj ((k', x) :: l))
  = String.eqb k k' || Js.mentions k x || Js.mentions k (JObj l).
Proof. reflexivity. Qed.

Lemma mentions_arr_map {A} (k : string) (view : A -> jsval) (l : list A) :
  (forall a, Js.mentions k (view a) = false) ->
  Js.mentions k (JArr (map view l)) = false.
Proof.
  intros Hview. induction l as [|a l IH]; [reflexivity|].
  change (map view (a :: l)) with (view a :: map view l).
  by rewrite mentions_arr_cons, Hview, IH.
Qed.

Lemma mentions_opt {A} (k : string) (view : A -> jsval) (o : option A) :
  (forall a, Js.mentions k (view a) = false) ->
  Js.mentions k (Js.opt view o) = false.
Proof. intros Hview. destruct o; [apply Hview | reflexivity]. Qed.

Lemma mentions_message_only (res : server.Response) :
  server.message_only res ->
  Js.mentions "password" (server.body res) = false
  /\ Js.get "user" (server.body res) = JUndefined
  /\ Js.get "token" (server.body res) = JUndefined.
Proof. intros (code & m & [-> | [e ->]]); by repeat split. Qed.

(** The signup view has no `password` key, at any depth. *)
Lemma signup_view_no_password (u : User.t) :
  Js.mentions "password" (JObj (server.signup_view u)) = false.
Proof.
  unfold server.signup_view.
  destruct (User.age u), (User.school u), (User.grade u); reflexivity.
Qed.

(** Nor has the profile view, the nested documents included. *)
Lemma profile_view_no_password (u : User.t) :
  Js.mentions "password" (JObj (server.profile_view u)) = false.
Proof.
  unfold server.profile_view.
  rewrite !mentions_obj_cons.
  rewrite !mentions_opt by done.
  rewrite (mentions_arr_map _ server.interest_json) by done.
  rewrite (mentions_arr_map _ server.achievement_json).
  2:{ intros [t [i|] [d|]]; reflexivity. }
  rewrite (mentions_arr_map _ server.academicProgress_json).
  2:{ intros [sj g [pr|]]; reflexivity. }
  rewrite (mentions_arr_map _ server.universityApplication_json) by done.
  destruct (User.applicationProgress u) as [a [c|] [l|]]; reflexivity.
Qed.

(** The views are functions of the public fields: they do not read the
    stored hash. *)
Lemma views_ignore_password (p : option string) (u : User.t) :
  server.signup_view (User.set_password p u) = server.signup_view u
  /\ server.profile_view (User.set_password p u) = server.profile_view u.
Proof. split; reflexivity. Qed.

(** C2. Whatever the request and the state, the answer of the signup route,
    of the login route and of the profile route has no `password` field:
    not in the user object it returns (under `user` for signup and login,
    the body itself for the profile), at any depth, nor anywhere else in
    the body. This covers the successful answers (201, 200) of the three
    call sites, and the failures as well. *)
Theorem responses_never_carry_password (r : server.Route)
    (req : server.AuthRequest) (w w' : server.World) (res : server.Response) :
  r = server.POST_auth_signup \/ r = server.POST_auth_login
  \/ r = server.GET_user_profile ->
  server.app cfg env r req w = (Ok res, w') ->
  Js.mentions "password" (server.user_object r res) = false
  /\ Js.mentions "password" (server.body res) = false.
Proof.
  intros [-> | [-> | ->]]; unfold server.app, server.user_object;
    cbn [server.is_protected server.handler_of].
  - rewrite on_users_ok.
    destruct (signup_cases req (server.users w))
      as [(r0 & Hm & ->) | (p & h & _ & _ & _ & _ & [(tok & _ & ->) | (r0 & Hm & ->)])];
      cbn [fst snd]; intros [= <- _].
    + destruct (mentions_message_only _ Hm) as (? & -> & _). by split.
    + pose proof (signup_view_no_password
        (User.set_password (Some h)
           (User.document (now env) (server.signup_draft env req)))) as Hv.
      split; [exact Hv|].
      unfold server.json. cbn [server.body].
      rewrite !mentions_obj_cons, Hv. reflexivity.
    + destruct (mentions_message_only _ Hm) as (? & -> & _). by split.
  - rewrite on_users_ok.
    destruct (login_cases req (server.users w))
      as [(r0 & Hm & ->) | (f & u & tok & _ & _ & _ & _ & ->)];
      cbn [fst snd]; intros [= <- _].
    + destruct (mentions_message_only _ Hm) as (? & -> & _). by split.
    + pose proof (profile_view_no_password (User.select true u)) as Hv.
      split; [exact Hv|].
      unfold server.json. cbn [server.body].
      rewrite !mentions_obj_cons, Hv. reflexivity.
  - unfold server.guarded.
    destruct (protect_cases cfg env req) as [[msg ->] | (tok & d & _ & _ & ->)].
    + intros [= <- _]. by split.
    + cbn [server.handler_of]. rewrite on_users_ok.
      destruct (profile_cases (server.set_user d req) (server.users w))
        as [(r0 & Hm & ->) | (oid & u & _ & _ & ->)];
        cbn [fst snd]; intros [= <- _].
      * destruct (mentions_message_only _ Hm) as (? & _ & _). by split.
      * pose proof (profile_view_no_password (User.select false u)). by split.
Qed.

(** *** The stored secret *)

(** C8. Signup always answers, and the only thing it ever writes is one
    document whose `password` field is `bcrypt.hash(password, salt)`, the
    salt coming from `bcrypt.genSalt(10)`: the pre-save hook has replaced
    the submitted password by its hash before the document reaches the
    collection, so the collection is never handed the plain text. *)
Theorem signup_stores_the_hash (req : server.AuthRequest) (db : list User.t) :
  exists res db',
    server.signup cfg env req db = (Ok res, db') /\
    (db' = db \/
     exists p h user,
       User.castString (Js.get "password" (server.body_of req)) = User.Value p /\
       bcrypt_hash p (bcrypt_genSalt 10 (random env)) = Ok h /\
       db' = db ++ [user] /\
       User.password user = Some h).
Proof.
  destruct (signup_cases req db)
    as [(res & _ & Hs) | (p & h & _ & Hp & _ & Hh & [(tok & _ & Hs) | (res & _ & Hs)])].
  - exists res, db. by split; [|left].
  - eexists _, _. split; [exact Hs|]. right. eexists p, h, _. by repeat split.
  - eexists _, _. split; [exact Hs|]. right. eexists p, h, _. by repeat split.
Qed.

Section Hasher.
Context `{!BcryptContract}.

(** A hash is not the empty text. *)
Lemma bcrypt_hash_nonempty (p salt h : string) :
  bcrypt_hash p salt = Ok h -> h <> ""%string.
Proof.
  intros Hh%bcrypt_crypt_length ->. discriminate.
Qed.

(** `compare` against a hash that `hash` made: a string candidate is
    hashed under the salt the hash carries and the result compared with
    it, without an exception; a candidate with the key of the hashed
    secret gives the hash again. *)
Lemma bcrypt_compare_stored (p salt h p' : string) :
  bcrypt_hash p salt = Ok h ->
  exists h',
    bcrypt_hash p' (String.substring 0 29 h) = Ok h'
    /\ bcrypt_compare (JStr p') h = Ok (String.eqb h' h)
    /\ (bcrypt_key p' = bcrypt_key p -> h' = h).
Proof.
  unfold bcrypt_hash. intros Hh.
  pose proof (bcrypt_crypt_length _ _ _ Hh) as Hlen.
  pose proof (bcrypt_crypt_salt _ _ _ Hh) as Hagain.
  destruct (bcrypt_crypt_any_key _ (bcrypt_key p') _ _ Hagain) as [h' Hh'].
  exists h'. split; [exact Hh'|]. split.
  - unfold bcrypt_compare, bcrypt_hash. rewrite Hlen, Hh'. reflexivity.
  - intros Hkey. rewrite Hkey, Hagain in Hh'. by injection Hh'.
Qed.

(** What the stored document of a saved draft answers to a candidate. *)
Lemma comparePassword_saved (d : User.Draft) (db db' : list User.t)
    (this : User.t) (p : string) :
  User.d_password d = User.Value p ->
  User.save env d db = (Ok this, db') ->
  exists h,
    bcrypt_hash p (bcrypt_genSalt 10 (random env)) = Ok h
    /\ User.password this = Some h
    /\ forall v, User.comparePassword this v = bcrypt_compare v h.
Proof.
  intros Hp Hsave.
  destruct (save_cases d db) as [[e He] | (q & h & _ & Hq & _ & Hh & Hs)];
    [congruence|].
  cbv zeta in Hs. rewrite Hs in Hsave.
  assert (q = p) as -> by congruence.
  injection Hsave as <- _.
  pose proof (bcrypt_hash_nonempty _ _ _ Hh) as Hne.
  exists h. split; [exact Hh|]. split; [reflexivity|].
  intros v. unfold User.comparePassword. simpl.
  by destruct (String.eqb_spec h "").
Qed.

(** C3, as the code has it. Let a new document with password [p] be saved
    (validation, the pre-save hook that hashes, the insert), and let [h]
    be the hash it stores. Then `comparePassword(p)` resolves to true; for
    every string [p'], `comparePassword(p')` resolves without throwing, to
    whether hashing [p'] under the salt of [h] gives [h]; it resolves to
    true for every [p'] whose 72 key bytes are those of [p], equal to [p]
    or not (bcrypt reads no more of a secret); and on a document that
    holds no hash `comparePassword` resolves to false for any candidate.
    The cipher of bcryptjs is taken with the format of its hashes. *)
Theorem comparePassword_after_save (d : User.Draft) (db db' : list User.t)
    (this : User.t) (p : string) :
  User.d_password d = User.Value p ->
  User.save env d db = (Ok this, db') ->
  User.comparePassword this (JStr p) = Ok true
  /\ (exists h,
        User.password this = Some h
        /\ forall p', exists h',
             bcrypt_hash p' (String.substring 0 29 h) = Ok h'
             /\ User.comparePassword this (JStr p') = Ok (String.eqb h' h))
  /\ (forall p', bcrypt_key p' = bcrypt_key p ->
                 User.comparePassword this (JStr p') = Ok true)
  /\ (forall (u : User.t) (candidate : jsval),
        User.password u = None -> User.comparePassword u candidate = Ok false).
Proof.
  intros Hp Hsave.
  destruct (comparePassword_saved d db db' this p Hp Hsave) as (h & Hh & Hstored & Hcmp).
  assert (forall p', bcrypt_key p' = bcrypt_key p ->
                     User.comparePassword this (JStr p') = Ok true) as Hsame.
  { intros p' Hkey. rewrite Hcmp.
    destruct (bcrypt_compare_stored p _ h p' Hh) as (h' & _ & -> & Heq).
    by rewrite (Heq Hkey), String.eqb_refl. }
  split; [by apply Hsame|]. split; [|split; [exact Hsame|]].
  - exists h. split; [exact Hstored|]. intros p'.
    destruct (bcrypt_compare_stored p _ h p' Hh) as (h' & Hh' & Hc & _).
    exists h'. split; [exact Hh'|]. by rewrite Hcmp.
  - intros u candidate Hu. unfold User.comparePassword. by rewrite Hu.
Qed.

End Hasher.

(** *** The profile route *)

(** C9. GET /api/user/profile answers 401 when no token can be read from
    the request (no `Authorization` header, a header that is not a bearer
    header) or the token does not verify; when the token verifies to an
    account id (an id that casts to an ObjectId) it answers 404 if no
    document of the collection has that id, and if one has, 200 with the
    full profile of that document: its id, email, first and last name,
    age, school and grade, its interests, achievements, academic progress
    and university applications, and its application progress, twelve
    fields in this order; for a document whose lists are empty, as signup
    creates it, the four lists are `[]` and the progress is zero. The
    collection is never changed. *)
Theorem profile_statuses (req : server.AuthRequest) (w : server.World) :
  (server.bearer_token req = None \/
   (exists token e,
      server.bearer_token req = Some token /\
      jwt.verify token (server.JWT_SECRET cfg) (now env) = Throw e) ->
   exists res, server.status res = 401 /\
               server.app cfg env server.GET_user_profile req w = (Ok res, w))
  /\
  (server.bearer_token req = None
   <-> server.headers req !! "authorization" = None
       \/ exists a, server.headers req !! "authorization" = Some a
                    /\ (Str.startsWith a "Bearer" = false \/ Str.has_space a = false))
  /\
  (forall token decoded oid,
     server.bearer_token req = Some token ->
     jwt.verify token (server.JWT_SECRET cfg) (now env) = Ok decoded ->
     castObjectId (id decoded) = Some oid ->
     (find (fun u => String.eqb (User._id u) oid) (server.users w) = None ->
      server.app cfg env server.GET_user_profile req w
      = (Ok (server.json 404 [("message", JStr "User not found")]), w))
     /\
     (forall u,
        find (fun u => String.eqb (User._id u) oid) (server.users w) = Some u ->
        server.app cfg env server.GET_user_profile req w
        = (Ok (server.json 200
                 [("id", JStr (User._id u));
                  ("email", JStr (User.email u));
                  ("firstName", JStr (User.firstName u));
                  ("lastName", JStr (User.lastName u));
                  ("age", Js.opt JNum (User.age u));
                  ("school", Js.opt JStr (User.school u));
                  ("grade", Js.opt JStr (User.grade u));
                  ("interests",
                     JArr (map server.interest_json (User.interests u)));
                  ("achievements",
                     JArr (map server.achievement_json (User.achievements u)));
                  ("academicProgress",
                     JArr (map server.academicProgress_json (User.academicProgress u)));
                  ("universityApplications",
                     JArr (map server.universityApplication_json
                             (User.universityApplications u)));
                  ("applicationProgress",
                     server.applicationProgress_json (User.applicationProgress u))]),
           w)
        /\ (untouched_profile u ->
            server.app cfg env server.GET_user_profile req w
            = (Ok (server.json 200
                     [("id", JStr (User._id u));
                      ("email", JStr (User.email u));
                      ("firstName", JStr (User.firstName u));
                      ("lastName", JStr (User.lastName u));
                      ("age", match User.age u with
                              | Some n => JNum n
                              | None => Js.JUndefined
                              end);
                      ("school", match User.school u with
                                 | Some t => JStr t
                                 | None => Js.JUndefined
                                 end);
                      ("grade", match User.grade u with
                                | Some t => JStr t
                                | None => Js.JUndefined
                                end);
                      ("interests", JArr []);
                      ("achievements", JArr []);
                      ("academicProgress", JArr []);
                      ("universityApplications", JArr []);
                      ("applicationProgress",
                         JObj [("averageCompletion", JNum 0);
                               ("currentProject", Js.JUndefined);
                               ("projectLink", Js.JUndefined)])]),
               w)))).
Proof.
  split; [|split; [apply bearer_token_none|]].
  - intros Hfail.
    destruct (guarded_rejects cfg env req Hfail) as (res & Hst & _ & _ & Happ).
    exists res. split; [exact Hst|]. by apply Happ.
  - intros token decoded oid Ht Hv Hoid.
    destruct (guarded_passes cfg env req token decoded Ht Hv)
      as (_ & _ & _ & Happ).
    rewrite (Happ server.GET_user_profile eq_refl).
    cbn [server.handler_of]. rewrite on_users_ok.
    unfold server.profile, User.findById. run_app.
    cbn [server.user server.set_user fmap option_fmap option_map].
    rewrite Hoid. run_app.
    split.
    + intros ->. simpl. by rewrite world_eta.
    + intros u ->. cbn [fmap option_fmap option_map fst snd]. rewrite world_eta.
      split; [reflexivity|].
      intros (_ & Hach & Hacad & Hint & Huni & Hprog & _ & _).
      unfold server.profile_view.
      cbn [User.select User.set_chatHistory User.set_password User._id User.email
           User.firstName User.lastName User.age User.school User.grade
           User.interests User.achievements User.academicProgress
           User.universityApplications User.applicationProgress].
      rewrite Hach, Hacad, Hint, Huni, Hprog. reflexivity.
Qed.

(** *** The chat route *)

(** A computation that leaves the state as it found it. *)
Lemma snd_bind_id {S A B} (c : App S A) (k : A -> App S B) :
  (forall s, snd (c s) = s) -> (forall a s, snd (k a s) = s) ->
  forall s, snd ((c ≫= k) s) = s.
Proof.
  intros Hc Hk s. unfold mbind, App_bind, bind.
  pose proof (Hc s) as Hs. destruct (c s) as [[a|e] s']; simpl in Hs; subst s'.
  - apply Hk.
  - reflexivity.
Qed.

Lemma snd_try_catch {S A} (c : App S A) (h : Js.error -> App S A) (s : S) :
  (forall e s', snd (h e s') = s') -> snd (try_catch c h s) = snd (c s).
Proof.
  intros Hh. unfold try_catch. destruct (c s) as [[a|e] s']; simpl; [done|].
  apply Hh.
Qed.

Lemma snd_prop {S} (k : string) (v : jsval) (s : S) :
  snd (aiService.prop k v s) = s.
Proof. by destruct v. Qed.

(** What `getAIResponse` does with the answer of the endpoint does not
    touch the state. *)
Lemma after_fetch_quiet (response : fetch_result) (s : list string) :
  snd ((match response with
        | NetworkError e => throw e
        | HttpResponse ok statusText json =>
            data ← await json;
            if negb ok then
              error ← aiService.prop "error" data;
              throw (aiService.PlainError
                       ("Ollama API error: " ++ aiService.or_else error statusText)%string)
            else
              text ← aiService.prop "response" data;
              match text with
              | JStr r =>
                  if String.eqb r "" then
                    throw (aiService.PlainError "No response content received from Ollama")
                  else ret (aiService.cleanResponse r)
              | v =>
                  if truthy v then
                    throw (aiService.TypeError "data.response.replace is not a function")
                  else
                    throw (aiService.PlainError "No response content received from Ollama")
              end
        end : App (list string) string) s) = s.
Proof.
  destruct response as [e|ok st json]; [reflexivity|].
  revert s. apply snd_bind_id; [by destruct json|]. intros data.
  destruct ok; cbn [negb].
  - apply snd_bind_id; [apply snd_prop|]. intros text s.
    destruct text as [| |b|n|t|r|xs|fs]; cbn [truthy];
      repeat match goal with
             | |- context [if ?b then _ else _] => destruct b
             end; reflexivity.
  - apply snd_bind_id; [apply snd_prop|]. reflexivity.
Qed.

(** A message that is a non-empty string goes to the inference endpoint:
    the prompt built from it is sent, once. *)
Lemma getAIResponse_sends (url model m : string) (sent : list string) :
  m <> ""%string ->
  snd (aiService.getAIResponse url model (JStr m) sent)
  = sent ++ [aiService.prompt_of m].
Proof.
  intros Hne. unfold aiService.getAIResponse.
  destruct (String.eqb_spec m ""); [done|].
  rewrite snd_try_catch by (intros; by destruct (_ || _)).
  unfold mbind at 1, App_bind at 1, bind at 1, aiService.fetch.
  apply after_fetch_quiet.
Qed.

Lemma chat_calls_upstream (req : server.AuthRequest) (m : string)
    (sent : list string) :
  Js.get "message" (server.body_of req) = JStr m -> m <> ""%string ->
  snd (server.chat cfg req sent) = sent ++ [aiService.prompt_of m].
Proof.
  intros Hm Hne. unfold server.chat. rewrite Hm.
  cbn [truthy Js.is_string]. destruct (String.eqb_spec m ""); [done|].
  cbn [negb]. rewrite snd_try_catch by reflexivity.
  unfold mbind, App_bind, bind.
  pose proof (getAIResponse_sends (server.OLLAMA_API_URL cfg)
                (server.MODEL_NAME cfg) m sent Hne) as Hs.
  destruct (aiService.getAIResponse _ _ _ _) as [[a|e] s']; simpl in *; done.
Qed.

(** C10, as the code has it. For an authenticated POST /api/ai/chat: if
    `message` is falsy (absent, `null`, the empty string, `0`, `false`) the
    answer is 400 with error kind MISSING_MESSAGE; if it is truthy but not
    a string the answer is 400 with error kind INVALID_MESSAGE_FORMAT; in
    both cases nothing is sent to the inference endpoint (the state is
    unchanged). *)
Theorem chat_rejects_bad_message (req req' : server.AuthRequest)
    (w : server.World) :
  server.protect cfg env req = server.Next req' ->
  let message := Js.get "message" (server.body_of req) in
  (truthy message = false ->
   server.app cfg env server.POST_ai_chat req w
   = (Ok (server.json 400 [("message", JStr "Message is required");
                           ("error", JStr "MISSING_MESSAGE")]), w))
  /\
  (truthy message = true -> Js.is_string message = false ->
   server.app cfg env server.POST_ai_chat req w
   = (Ok (server.json 400 [("message", JStr "Message must be a string");
                           ("error", JStr "INVALID_MESSAGE_FORMAT")]), w)).
Proof.
  intros Hp message.
  assert (server.body_of req' = server.body_of req) as Hb.
  { unfold server.protect in Hp.
    destruct (server.bearer_token req); [|discriminate].
    destruct (String.eqb _ _); [discriminate|].
    destruct (jwt.verify _ _ _); [|discriminate].
    by injection Hp as <-. }
  unfold server.app, server.guarded. rewrite Hp.
  cbn [server.is_protected server.handler_of]. rewrite on_sent_ok.
  unfold server.chat. run_app. rewrite Hb. fold message.
  split.
  - intros ->. simpl. by rewrite world_eta.
  - intros -> ->. simpl. by rewrite world_eta.
Qed.

(** *** Tokens *)

Section Tokens.
Context `{!JwtCodecContract}.

(** `jwt.sign(.., { expiresIn: '1h' })`: the payload expires 3600 seconds
    after it was issued. *)
Lemma sign_one_hour (uid secret token : string) (at_ms : Z) :
  jwt.sign uid secret "1h" at_ms = Ok token ->
  secret <> ""%string /\
  token = jwt_encode {| id := uid; iat := at_ms / 1000; exp := at_ms / 1000 + 3600 |}
            (jwt_mac secret
               {| id := uid; iat := at_ms / 1000; exp := at_ms / 1000 + 3600 |}).
Proof.
  unfold jwt.sign. destruct (String.eqb_spec secret ""); [discriminate|].
  change (jwt.ms "1h") with (Some 3600000).
  change (3600000 / 1000) with 3600. by intros [= <-].
Qed.

(** A token signed with the secret verifies until its expiry, and not
    after. *)
Lemma verify_signed (payload : JwtPayload) (secret : string) (at_ms : Z) :
  secret <> ""%string ->
  jwt.verify (jwt_encode payload (jwt_mac secret payload)) secret at_ms
  = if exp payload <=? at_ms / 1000 then Throw jwt.TokenExpiredError
    else Ok payload.
Proof.
  intros Hs. unfold jwt.verify.
  destruct (String.eqb_spec (jwt_encode payload (jwt_mac secret payload)) "")
    as [He|_]; [by apply jwt_encode_nonempty in He|].
  rewrite jwt_decode_encode.
  destruct (String.eqb_spec secret ""); [done|].
  by rewrite String.eqb_refl.
Qed.

Lemma bearer_token_of_header (req : server.AuthRequest) (payload : JwtPayload)
    (sig : string) :
  server.headers req !! "authorization"
  = Some ("Bearer " ++ jwt_encode payload sig)%string ->
  server.bearer_token req = Some (jwt_encode payload sig).
Proof.
  unfold server.bearer_token. intros ->.
  change (String.eqb ("Bearer " ++ jwt_encode payload sig) "") with false.
  change (Str.startsWith ("Bearer " ++ jwt_encode payload sig) "Bearer") with true.
  cbn [negb andb]. apply split_space_bearer, jwt_encode_no_space.
Qed.

(** The token of an answer of signup or login was signed, for one hour, at
    the time of the request. *)
Lemma issued_token (r : server.Route) (req : server.AuthRequest)
    (w w' : server.World) (res : server.Response) (token : string) :
  r = server.POST_auth_signup \/ r = server.POST_auth_login ->
  server.app cfg env r req w = (Ok res, w') ->
  Js.get "token" (server.body res) = JStr token ->
  exists uid, jwt.sign uid (server.JWT_SECRET cfg) "1h" (now env) = Ok token.
Proof.
  intros [-> | ->]; unfold server.app;
    cbn [server.is_protected server.handler_of]; rewrite on_users_ok.
  - destruct (signup_cases req (server.users w))
      as [(r0 & Hm & ->) | (p & h & _ & _ & _ & _ & [(tok & Hs & ->) | (r0 & Hm & ->)])];
      cbn [fst snd]; intros [= <- _].
    + destruct (mentions_message_only _ Hm) as (_ & _ & ->). discriminate.
    + intros [= <-]. eauto.
    + destruct (mentions_message_only _ Hm) as (_ & _ & ->). discriminate.
  - destruct (login_cases req (server.users w))
      as [(r0 & Hm & ->) | (f & u & tok & _ & _ & _ & Hs & ->)];
      cbn [fst snd]; intros [= <- _].
    + destruct (mentions_message_only _ Hm) as (_ & _ & ->). discriminate.
    + intros [= <-]. eauto.
Qed.

(** C5. A token handed out by signup or login at time T expires one hour
    later: presented as `Authorization: Bearer <token>` at T + 59 minutes it
    verifies (its payload has `exp = iat + 3600` seconds, `iat` being T) and
    `protect` calls the next stage; at T + 61 minutes verification throws
    TokenExpiredError and `protect` answers 401. *)
Theorem token_expires_after_one_hour (r : server.Route)
    (issue_req req : server.AuthRequest) (w w' : server.World)
    (res : server.Response) (token : string) (env59 env61 : Env) :
  r = server.POST_auth_signup \/ r = server.POST_auth_login ->
  server.app cfg env r issue_req w = (Ok res, w') ->
  Js.get "token" (server.body res) = JStr token ->
  server.headers req !! "authorization" = Some ("Bearer " ++ token)%string ->
  now env59 = now env + 59 * 60 * 1000 ->
  now env61 = now env + 61 * 60 * 1000 ->
  (exists decoded,
     iat decoded = now env / 1000 /\ exp decoded = iat decoded + 3600 /\
     jwt.verify token (server.JWT_SECRET cfg) (now env59) = Ok decoded /\
     server.protect cfg env59 req = server.Next (server.set_user decoded req))
  /\ jwt.verify token (server.JWT_SECRET cfg) (now env61)
     = Throw jwt.TokenExpiredError
  /\ server.protect cfg env61 req
     = server.Responded (server.json 401 [("message", JStr "Token is not valid")]).
Proof.
  intros Hr Happ Htok Hhdr H59 H61.
  destruct (issued_token r issue_req w w' res token Hr Happ Htok) as [uid Hsign].
  apply sign_one_hour in Hsign as [Hsecret ->].
  set (payload := {| id := uid; iat := now env / 1000; exp := now env / 1000 + 3600 |}) in *.
  pose proof (bearer_token_of_header req payload _ Hhdr) as Hb.
  assert (jwt.verify (jwt_encode payload (jwt_mac (server.JWT_SECRET cfg) payload))
            (server.JWT_SECRET cfg) (now env59) = Ok payload) as Hv59.
  { rewrite verify_signed by done. rewrite H59.
    replace (now env + 59 * 60 * 1000) with (now env + 3540 * 1000) by lia.
    rewrite Z.div_add by lia. cbn [exp payload].
    destruct (Z.leb_spec (now env / 1000 + 3600) (now env / 1000 + 3540)); [lia|done]. }
  assert (jwt.verify (jwt_encode payload (jwt_mac (server.JWT_SECRET cfg) payload))
            (server.JWT_SECRET cfg) (now env61) = Throw jwt.TokenExpiredError) as Hv61.
  { rewrite verify_signed by done. rewrite H61.
    replace (now env + 61 * 60 * 1000) with (now env + 3660 * 1000) by lia.
    rewrite Z.div_add by lia. cbn [exp payload].
    destruct (Z.leb_spec (now env / 1000 + 3600) (now env / 1000 + 3660)); [done|lia]. }
  split; [|split].
  - exists payload. repeat split; [exact Hv59|].
    exact (protect_good_token cfg env59 req _ payload Hb Hv59).
  - exact Hv61.
  - unfold server.protect. rewrite Hb.
    destruct (String.eqb_spec (jwt_encode payload (jwt_mac (server.JWT_SECRET cfg) payload)) "")
      as [He|_]; [by apply jwt_encode_nonempty in He|].
    by rewrite Hv61.
Qed.

End Tokens.

(** *** The collection *)

(** Every route leaves the collection as it was or, for signup, appends one
    document whose address went through the schema setters. *)
Lemma app_users (r : server.Route) (req : server.AuthRequest)
    (w w' : server.World) (o : outcome server.Response) :
  server.app cfg env r req w = (o, w') ->
  server.users w' = server.users w
  \/ exists user s, server.users w' = server.users w ++ [user]
                    /\ User.email user = User.normalize_email s.
Proof.
  assert (forall req0, server.handler_of cfg env r req0 w = (o, w') ->
            server.users w' = server.users w
            \/ exists user s, server.users w' = server.users w ++ [user]
                              /\ User.email user = User.normalize_email s) as Hh.
  { intros req0. destruct r; cbn [server.handler_of].
    - rewrite on_users_ok.
      destruct (signup_cases req0 (server.users w))
        as [(r0 & _ & ->) | (p & h & Hv & _ & _ & _ & [(tok & _ & ->) | (r0 & _ & ->)])];
        cbn [fst snd]; intros [= _ <-]; cbn [server.users]; [by left| |].
      all: right; eexists; destruct (validate_email _ Hv) as (e & He & _);
        unfold server.signup_draft, User.new_User in He; cbn [User.d_email] in He;
        destruct (User.castString (Js.get "email" (server.body_of req0)))
          as [|s0|] eqn:Hc; try discriminate;
        exists s0; split; [reflexivity|];
        cbn [User.email User.set_password User.document];
        unfold server.signup_draft, User.new_User; cbn [User.d_email];
        rewrite Hc; reflexivity.
    - rewrite on_users_ok.
      destruct (login_cases req0 (server.users w))
        as [(r0 & _ & ->) | (f & u & tok & _ & _ & _ & _ & ->)];
        cbn [fst snd]; intros [= _ <-]; by left.
    - rewrite on_users_ok.
      destruct (profile_cases req0 (server.users w))
        as [(r0 & _ & ->) | (oid & u & _ & _ & ->)];
        cbn [fst snd]; intros [= _ <-]; by left.
    - intros [= _ <-]. by left.
    - intros [= _ <-]. by left.
    - rewrite on_sent_ok. intros [= _ <-]. by left. }
  unfold server.app. destruct (server.is_protected r); [|apply Hh].
  unfold server.guarded.
  destruct (server.protect cfg env req); [|apply Hh].
  intros [= _ <-]. by left.
Qed.

End Cases.

Section Store.
Context `{Bcrypt} `{JwtCodec} `{Mongoose} `{Ollama}.
Variable cfg : server.Config.

(** Invariant: every stored address is in normal form (lower case,
    trimmed), as the schema setters left it. *)
Lemma reachable_normalized (w : server.World) :
  server.reachable cfg w ->
  Forall (fun u => User.email u = User.normalize_email (User.email u))
         (server.users w).
Proof.
  induction 1 as [|env r req w o w' _ IH Hstep]; [constructor|].
  destruct (app_users cfg env r req w w' o Hstep) as [-> | (user & s & -> & He)];
    [exact IH|].
  apply Forall_app. split; [exact IH|].
  constructor; [|constructor]. by rewrite He, normalize_email_idem.
Qed.

(** Only signup writes to the collection. *)
Lemma app_users_fresh (env : Env) (r : server.Route) (req : server.AuthRequest)
    (w w' : server.World) (o : outcome server.Response) :
  server.app cfg env r req w = (o, w') ->
  server.users w' = server.users w
  \/ exists this,
       server.users w' = server.users w ++ [this]
       /\ Forall (fun u => User.email u <> User.email this) (server.users w)
       /\ Forall (fun u => User._id u <> User._id this) (server.users w).
Proof.
  intros Happ.
  destruct (app_users cfg env r req w w' o Happ) as [Hsame | (user & s & Hgrow & _)];
    [by left|].
  destruct r.
  - unfold server.app in Happ. cbn [server.is_protected server.handler_of] in Happ.
    rewrite on_users_ok in Happ. injection Happ as _ <-. cbn [server.users] in *.
    destruct (server.signup cfg env req (server.users w)) as [o' db'] eqn:Hs.
    apply signup_write in Hs. exact Hs.
  - exfalso. revert Happ Hgrow. unfold server.app.
    cbn [server.is_protected server.handler_of]. rewrite on_users_ok.
    destruct (login_cases cfg env req (server.users w))
      as [(r0 & _ & ->) | (f & u & tok & _ & _ & _ & _ & ->)];
      intros [= _ <-]; cbn [server.users snd]; intros Hg;
      apply (f_equal length) in Hg; rewrite length_app in Hg; simpl in Hg; lia.
  - exfalso. revert Happ Hgrow. unfold server.app, server.guarded.
    cbn [server.is_protected server.handler_of].
    destruct (server.protect cfg env req) as [res|req'].
    + intros [= _ <-] Hg.
      apply (f_equal length) in Hg; rewrite length_app in Hg; simpl in Hg; lia.
    + rewrite on_users_ok.
      destruct (profile_cases req' (server.users w))
        as [(r0 & _ & ->) | (oid & u & _ & _ & ->)];
        intros [= _ <-]; cbn [server.users snd]; intros Hg;
        apply (f_equal length) in Hg; rewrite length_app in Hg; simpl in Hg; lia.
  - exfalso. revert Happ Hgrow. unfold server.app, server.guarded.
    cbn [server.is_protected server.handler_of].
    destruct (server.protect cfg env req) as [res|req'];
      intros [= _ <-] Hg;
      apply (f_equal length) in Hg; rewrite length_app in Hg; simpl in Hg; lia.
  - exfalso. revert Happ Hgrow. unfold server.app, server.guarded.
    cbn [server.is_protected server.handler_of].
    destruct (server.protect cfg env req) as [res|req'];
      intros [= _ <-] Hg;
      apply (f_equal length) in Hg; rewrite length_app in Hg; simpl in Hg; lia.
  - exfalso. revert Happ Hgrow. unfold server.app, server.guarded.
    cbn [server.is_protected server.handler_of].
    destruct (server.protect cfg env req) as [res|req'].
    + intros [= _ <-] Hg.
      apply (f_equal length) in Hg; rewrite length_app in Hg; simpl in Hg; lia.
    + rewrite on_sent_ok. intros [= _ <-]. cbn [server.users]. intros Hg.
      apply (f_equal length) in Hg; rewrite length_app in Hg; simpl in Hg; lia.
Qed.

(** Invariant: no two stored accounts share an address, or an id (the
    unique indexes of the collection). *)
Lemma reachable_unique (w : server.World) :
  server.reachable cfg w ->
  NoDup (map User.email (server.users w))
  /\ NoDup (map User._id (server.users w)).
Proof.
  induction 1 as [|env r req w o w' _ [IHe IHi] Hstep]; [split; constructor|].
  destruct (app_users_fresh env r req w w' o Hstep)
    as [-> | (this & -> & Hem & Hid)]; [by split|].
  rewrite !map_app. simpl.
  split; apply NoDup_app; (split; [assumption|]); split;
    try (apply NoDup_singleton).
  - intros x Hx ->%list_elem_of_singleton.
    apply list_elem_of_fmap in Hx as (u & Hu & Hin).
    rewrite Forall_forall in Hem. by apply (Hem u Hin).
  - intros x Hx ->%list_elem_of_singleton.
    apply list_elem_of_fmap in Hx as (u & Hu & Hin).
    rewrite Forall_forall in Hid. by apply (Hid u Hin).
Qed.

(** C6, as the code has it. In every state the server can reach, a signup
    whose email is a string equal, letter case aside, to the address of an
    existing account creates no second record: the collection is left
    exactly as it was. When the four required fields are present the
    answer is 400 with the message that a user with this email already
    exists (not the generic 500 of the catch-all); when one of them is
    missing it is the 400 of the check that comes first, 'Please enter all
    required fields'. *)
Theorem signup_rejects_taken_email (env : Env) (w : server.World)
    (req : server.AuthRequest) (e : string) (u : User.t) :
  server.reachable cfg w ->
  Js.get "email" (server.body_of req) = JStr e ->
  In u (server.users w) ->
  Str.toLowerCase (User.email u) = Str.toLowerCase e ->
  server.app cfg env server.POST_auth_signup req w
  = (Ok (server.json 400
           [("message",
             JStr (if truthy (Js.get "email" (server.body_of req))
                      && truthy (Js.get "password" (server.body_of req))
                      && truthy (Js.get "firstName" (server.body_of req))
                      && truthy (Js.get "lastName" (server.body_of req))
                   then "User with this email already exists"
                   else "Please enter all required fields"))]),
     w).
Proof.
  intros Hreach He Hin Hlow.
  pose proof (reachable_normalized w Hreach) as Hnorm.
  rewrite Forall_forall in Hnorm.
  assert (User.normalize_email e = User.email u) as Hkey.
  { apply normalize_email_fixed; [|exact Hlow].
    apply Hnorm. by apply list_elem_of_In. }
  unfold server.app. cbn [server.is_protected server.handler_of].
  rewrite on_users_ok. unfold server.signup.
  destruct (truthy (Js.get "email" (server.body_of req))) eqn:Ht1;
    [destruct (truthy (Js.get "password" (server.body_of req)));
     [destruct (truthy (Js.get "firstName" (server.body_of req)));
      [destruct (truthy (Js.get "lastName" (server.body_of req)))|]|]|];
    cbn [negb orb andb]; try (cbn [fst snd ret]; by rewrite world_eta).
  run_app. unfold User.findOne. run_app. rewrite He.
  cbn [User.email_filter Js.toString].
  destruct (find _ (server.users w)) as [found|] eqn:Hfind.
  - simpl. by rewrite world_eta.
  - exfalso. apply (List.find_none _ _ Hfind) in Hin. cbv beta in Hin.
    rewrite Hkey, String.eqb_refl in Hin. discriminate.
Qed.

End Store.

(** ** Startup *)

Section Startup.
Context `{Mongoose}.

(** C7, as the code has it. Without a store connection string (`MONGO_URI`
    absent or empty) the process exits with code 1 at startup, and so it
    does when the connection fails: the server only ever runs with the
    connection string it was given. The signing secret is different: when
    `JWT_SECRET` is absent or empty startup does not fail, the server runs
    with the built-in fallback 'supersecretjwtkey'. *)
Theorem startup_configuration (process_env : gmap string string) :
  (process_env !! "MONGO_URI" = None \/ process_env !! "MONGO_URI" = Some ""%string ->
   server.startup process_env = server.Exit 1)
  /\ (forall uri e, process_env !! "MONGO_URI" = Some uri ->
                    connect uri = Throw e ->
                    server.startup process_env = server.Exit 1)
  /\ (forall cfg, server.startup process_env = server.Listening cfg ->
        process_env !! "MONGO_URI" = Some (server.mongoURI cfg)
        /\ server.mongoURI cfg <> ""%string
        /\ server.JWT_SECRET cfg <> ""%string
        /\ server.JWT_SECRET cfg
           = server.env_or (process_env !! "JWT_SECRET") "supersecretjwtkey")
  /\ (forall uri, process_env !! "MONGO_URI" = Some uri -> uri <> ""%string ->
        connect uri = Ok tt ->
        process_env !! "JWT_SECRET" = None
        \/ process_env !! "JWT_SECRET" = Some ""%string ->
        exists cfg, server.startup process_env = server.Listening cfg
                    /\ server.JWT_SECRET cfg = "supersecretjwtkey"%string).
Proof.
  unfold server.startup. split; [|split; [|split]].
  - by intros [-> | ->].
  - intros uri e -> Hc. destruct (String.eqb uri ""); [done|]. by rewrite Hc.
  - intros cfg.
    destruct (process_env !! "MONGO_URI") as [uri|]; [|done].
    destruct (String.eqb_spec uri ""); [done|].
    destruct (connect uri); [|done]. intros [= <-].
    cbn [server.JWT_SECRET server.mongoURI].
    split; [done|]. split; [done|]. split; [|done].
    unfold server.env_or. destruct (process_env !! "JWT_SECRET") as [s|]; [|done].
    by destruct (String.eqb_spec s "").
  - intros uri -> Hne Hc Hs.
    destruct (String.eqb_spec uri ""); [done|]. rewrite Hc.
    eexists. split; [reflexivity|]. cbn [server.JWT_SECRET].
    by destruct Hs as [-> | ->].
Qed.

End Startup.

(** ** The reference instances meet the contracts *)

Lemma pad_length (n : nat) (s : string) : String.length (Reference.pad n s) = n.
Proof.
  revert s. induction n as [|n IH]; intros s; [reflexivity|].
  destruct s as [|c s]; simpl; by rewrite IH.
Qed.

Lemma length_append (a b : string) :
  String.length (a ++ b) = (String.length a + String.length b)%nat.
Proof.
  induction a as [|c a IH]; [reflexivity|].
  change (String c a ++ b)%string with (String c (a ++ b)).
  simpl. by rewrite IH.
Qed.

Lemma substring_append (a b : string) :
  String.substring 0 (String.length a) (a ++ b) = a.
Proof.
  induction a as [|c a IH]; [by destruct b|].
  change (String c a ++ b)%string with (String c (a ++ b)).
  simpl. by rewrite IH.
Qed.

Lemma pad_pad (n : nat) (s : string) :
  Reference.pad n (Reference.pad n s) = Reference.pad n s.
Proof.
  revert s. induction n as [|n IH]; intros s; [reflexivity|].
  destruct s as [|c s]; simpl; by rewrite IH.
Qed.

Lemma reference_crypt (key salt h : string) :
  @bcrypt_crypt Reference.bcrypt key salt = Ok h ->
  h = (Reference.pad 29 salt ++ Reference.pad 31 (Reference.printable key))%string.
Proof. intros Hh. symmetry. by injection Hh. Qed.

Lemma reference_bcrypt_contract : @BcryptContract Reference.bcrypt.
Proof.
  split.
  - intros key salt h ->%reference_crypt. by rewrite length_append, !pad_length.
  - intros key salt h ->%reference_crypt. cbn [bcrypt_crypt Reference.bcrypt].
    f_equal. f_equal.
    pose proof (substring_append (Reference.pad 29 salt)
                  (Reference.pad 31 (Reference.printable key))) as Hsub.
    rewrite pad_length in Hsub. rewrite Hsub. apply pad_pad.
  - intros key key' salt h _. by eexists.
Qed.

Lemma hex_char_roundtrip (c : ascii) :
  Ascii.eqb (Reference.hex_char (N_of_ascii c / 16)) "." = false
  /\ Reference.unhex_char (Reference.hex_char (N_of_ascii c / 16))
     = Some (N_of_ascii c / 16)%N
  /\ Reference.unhex_char (Reference.hex_char (N_of_ascii c mod 16))
     = Some (N_of_ascii c mod 16)%N
  /\ ascii_of_N (16 * (N_of_ascii c / 16) + N_of_ascii c mod 16) = c
  /\ Reference.hex_char (N_of_ascii c / 16) <> " "%char
  /\ Reference.hex_char (N_of_ascii c mod 16) <> " "%char.
Proof.
  destruct c as [[] [] [] [] [] [] [] []]; vm_compute; by repeat split.
Qed.

Lemma read_field_hex (s rest : string) :
  Reference.read_field (Reference.hex_field s rest) = Some (s, rest).
Proof.
  induction s as [|c s IH].
  - by destruct rest.
  - destruct (hex_char_roundtrip c) as (Hdot & Hhi & Hlo & Hc & _).
    cbn [Reference.hex_field Reference.read_field].
    by rewrite Hdot, Hhi, Hlo, IH, Hc.
Qed.

Lemma Z_of_to_string (z : Z) :
  Reference.Z_of_string (Reference.Z_to_string z) = Some z.
Proof.
  unfold Reference.Z_of_string, Reference.Z_to_string.
  by rewrite NilEmpty.isi; simpl; rewrite DecimalZ.of_to.
Qed.

Lemma has_space_other (c : ascii) (s : string) :
  c <> " "%char -> Str.has_space (String c s) = Str.has_space s.
Proof.
  intros Hc. unfold Str.has_space.
  change (Str.includes (String c s) " ")
    with (String.prefix " " (String c s) || Str.includes s " ").
  change (String.prefix " " (String c s))
    with (if Ascii.ascii_dec " " c then String.prefix "" s else false).
  by destruct (Ascii.ascii_dec " " c) as [<-|_].
Qed.

Lemma has_space_hex_field (s rest : string) :
  Str.has_space (Reference.hex_field s rest) = Str.has_space rest.
Proof.
  induction s as [|c s IH]; cbn [Reference.hex_field].
  - by apply has_space_other.
  - destruct (hex_char_roundtrip c) as (_ & _ & _ & _ & Hhi & Hlo).
    by rewrite !has_space_other.
Qed.

Lemma reference_jwt_contract : @JwtCodecContract Reference.jwt.
Proof.
  split; cbn [jwt_encode jwt_decode Reference.jwt].
  - intros [i a e] sig. cbn [id iat exp].
    repeat (rewrite read_field_hex; cbn [mbind option_bind]).
    repeat (rewrite Z_of_to_string; cbn [mbind option_bind]).
    reflexivity.
  - intros payload sig. by destruct (id payload).
  - intros payload sig. by rewrite !has_space_hex_field.
Qed.

(** ** A session on the reference instances *)

Example session_signup :
  Reference.signed_up
  = (Ok (server.json 201
           [("message", JStr "User registered successfully");
            ("token", JStr Reference.token1);
            ("user", JObj [("id", JStr "65a1b2c3d4e5f60718293a4b");
                           ("email", JStr "ann@x.com");
                           ("firstName", JStr "Ann");
                           ("lastName", JStr "Lee");
                           ("age", JUndefined);
                           ("school", JUndefined);
                           ("grade", JUndefined)])]),
     {| server.users := [Reference.ann]; server.sent := [] |})
  /\ User.password Reference.ann
     = Some "$2a$10$r4nd0m................secret1.secret1.secret1.secret1"%string.
Proof. split; reflexivity. Qed.

Example session_signup_short_password :
  exists msg,
    Reference.app Reference.cfg Reference.env0 server.POST_auth_signup
      (Reference.request None
         (JObj [("email", JStr "bob@x.com"); ("password", JStr "12345");
                ("firstName", JStr "Bob"); ("lastName", JStr "Ray")]))
      Reference.world0
    = (Ok (server.json 500 [("message", JStr "Server error during signup");
                            ("error", JStr msg)]), Reference.world0).
Proof. eexists. vm_compute. reflexivity. Qed.

Example session_login :
  fst (Reference.app Reference.cfg (Reference.later 1 Reference.env0)
         server.POST_auth_login
         (Reference.request None (Reference.login_body " Ann@X.com" "secret1"))
         Reference.world1)
  = Ok (server.json 200
          [("message", JStr "Logged in successfully");
           ("token", JStr (match @jwt.sign Reference.jwt "65a1b2c3d4e5f60718293a4b"
                                   "supersecretjwtkey" "1h" 1700000060000 with
                           | Ok t => t
                           | Throw _ => ""%string
                           end));
           ("user", JObj (server.profile_view (@User.select true Reference.ann)))]).
Proof. vm_compute. reflexivity. Qed.

Example session_chat :
  Reference.app Reference.cfg Reference.env0 server.POST_ai_chat
    (Reference.bearer (JObj [("message", JStr "Which degree?")])) Reference.world1
  = (Ok (server.json 200 [("response", JStr "Ask your school counsellor.")]),
     {| server.users := [Reference.ann];
        server.sent := [aiService.prompt_of "Which degree?"] |}).
Proof. vm_compute. reflexivity. Qed.

Example session_tampered_token :
  fst (Reference.app Reference.cfg Reference.env0 server.GET_protected
         (Reference.request (Some ("Bearer 0" ++ Reference.token1)%string) JNull)
         Reference.world1)
  = Ok (server.json 401 [("message", JStr "Token is not valid")]).
Proof. vm_compute. reflexivity. Qed.

(** ** The theorems at work on the reference instances *)

Lemma login_failures_identical_witness :
  let req := Reference.request None (Reference.login_body "ann@x.com" "wrong") in
  let invalid := server.json 400 [("message", JStr "Invalid credentials")] in
  @server.login Reference.bcrypt Reference.jwt Reference.mongoose
    Reference.cfg Reference.env0 req [] = (Ok invalid, [])
  /\ @server.login Reference.bcrypt Reference.jwt Reference.mongoose
       Reference.cfg Reference.env0 req [Reference.ann]
     = (Ok invalid, [Reference.ann]).
Proof.
  apply (@login_failures_identical Reference.bcrypt Reference.jwt
           Reference.mongoose Reference.cfg Reference.env0
           (Reference.request None (Reference.login_body "ann@x.com" "wrong"))
           [] [Reference.ann] (String.eqb "ann@x.com") Reference.ann);
    reflexivity.
Defined.

Lemma login_nonstring_password_leaks_witness :
  let req := Reference.request None Samples.number_login in
  @server.login Reference.bcrypt Reference.jwt Reference.mongoose
    Reference.cfg Reference.env0 req []
  = (Ok (server.json 400 [("message", JStr "Invalid credentials")]), [])
  /\ @server.login Reference.bcrypt Reference.jwt Reference.mongoose
       Reference.cfg Reference.env0 req [Reference.ann]
     = (Ok (server.json 500
              [("message", JStr "Server error during login");
               ("error", JStr "Illegal arguments: number, string")]),
        [Reference.ann])
  /\ fst (@server.login Reference.bcrypt Reference.jwt Reference.mongoose
            Reference.cfg Reference.env0 req [])
     <> fst (@server.login Reference.bcrypt Reference.jwt Reference.mongoose
               Reference.cfg Reference.env0 req [Reference.ann]).
Proof.
  apply (@login_nonstring_password_leaks Reference.bcrypt Reference.jwt
           Reference.mongoose Reference.cfg Reference.env0
           (Reference.request None Samples.number_login)
           [] [Reference.ann] (String.eqb "ann@x.com") Reference.ann
           "$2a$10$r4nd0m................secret1.secret1.secret1.secret1");
    (reflexivity || discriminate).
Defined.

Lemma responses_never_carry_password_witness :
  server.status Reference.created = 201
  /\ Js.mentions "password"
       (server.user_object server.POST_auth_signup Reference.created) = false
  /\ Js.mentions "password" (server.body Reference.created) = false.
Proof.
  split; [reflexivity|].
  apply (@responses_never_carry_password Reference.bcrypt Reference.jwt
           Reference.mongoose Reference.ollama Reference.cfg Reference.env0
           server.POST_auth_signup
           (Reference.request None Reference.signup_body)
           Reference.world0 Reference.world1 Reference.created).
  - left. reflexivity.
  - vm_compute. reflexivity.
Defined.

Lemma comparePassword_after_save_witness :
  @User.comparePassword Reference.bcrypt Reference.ann (JStr "secret1") = Ok true
  /\ (forall p', bcrypt_key p' = bcrypt_key "secret1" ->
        @User.comparePassword Reference.bcrypt Reference.ann (JStr p') = Ok true)
  /\ (forall (u : User.t) (candidate : jsval),
        User.password u = None ->
        @User.comparePassword Reference.bcrypt u candidate = Ok false).
Proof.
  destruct (@comparePassword_after_save Reference.bcrypt Reference.mongoose
              Reference.env0 reference_bcrypt_contract
              (server.signup_draft Reference.env0
                 (Reference.request None Reference.signup_body))
              [] [Reference.ann] Reference.ann "secret1")
    as (Hsame & _ & Hkey & Hnone).
  - reflexivity.
  - vm_compute. reflexivity.
  - exact (conj Hsame (conj Hkey Hnone)).
Defined.

(** C3 as the specification states it fails: Lou's password is 72
    letters 'a'; the same letters followed by a 'b' are another password,
    and `comparePassword` answers true to it, since bcrypt reads 72 bytes
    of a secret. *)
Lemma comparePassword_long_counterexample :
  let p := Samples.long_password in
  let p' := (Samples.long_password ++ "b")%string in
  p' <> p
  /\ bcrypt_key p' = bcrypt_key p
  /\ @User.save Reference.bcrypt Reference.mongoose Samples.env1
       (server.signup_draft Samples.env1 (Reference.request None Samples.long_body))
       [Reference.ann]
     = (Ok Samples.lou, [Reference.ann; Samples.lou])
  /\ @User.comparePassword Reference.bcrypt Samples.lou (JStr p) = Ok true
  /\ @User.comparePassword Reference.bcrypt Samples.lou (JStr p') = Ok true.
Proof.
  cbv zeta. split; [discriminate|].
  split; [vm_compute; reflexivity|]. split; [vm_compute; reflexivity|].
  split; vm_compute; reflexivity.
Qed.

Lemma protect_rejects_or_attaches_witness :
  (exists res,
     server.status res = 401 /\
     @server.protect Reference.jwt Reference.cfg Reference.env0
       Samples.basic = server.Responded res /\
     (forall handler w,
        @server.guarded Reference.jwt Reference.cfg Reference.env0 handler
          Samples.basic w = (Ok res, w)) /\
     (forall r w, server.is_protected r = true ->
        Reference.app Reference.cfg Reference.env0 r
          Samples.basic w = (Ok res, w)))
  /\
  (@server.protect Reference.jwt Reference.cfg Reference.env0 (Reference.bearer JNull)
   = server.Next (server.set_user Reference.payload1 (Reference.bearer JNull)) /\
   id <$> server.user (server.set_user Reference.payload1 (Reference.bearer JNull))
   = Some (id Reference.payload1) /\
   (forall handler,
      @server.guarded Reference.jwt Reference.cfg Reference.env0 handler
        (Reference.bearer JNull)
      = handler (server.set_user Reference.payload1 (Reference.bearer JNull))) /\
   (forall r, server.is_protected r = true ->
      Reference.app Reference.cfg Reference.env0 r (Reference.bearer JNull)
      = @server.handler_of Reference.bcrypt Reference.jwt Reference.mongoose
          Reference.ollama Reference.cfg Reference.env0 r
          (server.set_user Reference.payload1 (Reference.bearer JNull)))).
Proof.
  split.
  - apply (proj1 (@protect_rejects_or_attaches Reference.bcrypt Reference.jwt
                    Reference.mongoose Reference.ollama Reference.cfg
                    Reference.env0 Samples.basic)).
    left. reflexivity.
  - apply (proj2 (proj2 (@protect_rejects_or_attaches Reference.bcrypt Reference.jwt
                           Reference.mongoose Reference.ollama Reference.cfg
                           Reference.env0 (Reference.bearer JNull)))
             Reference.token1 Reference.payload1).
    + vm_compute. reflexivity.
    + vm_compute. reflexivity.
Defined.

Lemma token_expires_after_one_hour_witness :
  (exists decoded,
     iat decoded = now Reference.env0 / 1000 /\ exp decoded = iat decoded + 3600 /\
     @jwt.verify Reference.jwt Reference.token1 (server.JWT_SECRET Reference.cfg)
       (now (Reference.later 59 Reference.env0)) = Ok decoded /\
     @server.protect Reference.jwt Reference.cfg (Reference.later 59 Reference.env0)
       (Reference.bearer JNull)
     = server.Next (server.set_user decoded (Reference.bearer JNull)))
  /\ @jwt.verify Reference.jwt Reference.token1 (server.JWT_SECRET Reference.cfg)
       (now (Reference.later 61 Reference.env0)) = Throw jwt.TokenExpiredError
  /\ @server.protect Reference.jwt Reference.cfg (Reference.later 61 Reference.env0)
       (Reference.bearer JNull)
     = server.Responded (server.json 401 [("message", JStr "Token is not valid")]).
Proof.
  apply (@token_expires_after_one_hour Reference.bcrypt Reference.jwt
           Reference.mongoose Reference.ollama Reference.cfg Reference.env0
           reference_jwt_contract server.POST_auth_signup
           (Reference.request None Reference.signup_body) (Reference.bearer JNull)
           Reference.world0 Reference.world1 Reference.created Reference.token1
           (Reference.later 59 Reference.env0) (Reference.later 61 Reference.env0)).
  - left. reflexivity.
  - vm_compute. reflexivity.
  - reflexivity.
  - vm_compute. reflexivity.
  - reflexivity.
  - reflexivity.
Defined.

Lemma reference_world1_reachable :
  @server.reachable Reference.bcrypt Reference.jwt Reference.mongoose
    Reference.ollama Reference.cfg Reference.world1.
Proof.
  apply (server.reachable_step Reference.cfg Reference.env0
           server.POST_auth_signup (Reference.request None Reference.signup_body)
           Reference.world0 (fst Reference.signed_up) Reference.world1).
  - apply server.reachable_init.
  - vm_compute. reflexivity.
Qed.

Lemma signup_rejects_taken_email_witness :
  Str.toLowerCase (User.email Reference.ann) = Str.toLowerCase "ANN@x.COM"
  /\ Reference.app Reference.cfg (Reference.later 5 Reference.env0)
       server.POST_auth_signup (Reference.request None Reference.signup_again)
       Reference.world1
     = (Ok (server.json 400
              [("message", JStr "User with this email already exists")]),
        Reference.world1).
Proof.
  split; [reflexivity|].
  apply (@signup_rejects_taken_email Reference.bcrypt Reference.jwt
           Reference.mongoose Reference.ollama Reference.cfg
           (Reference.later 5 Reference.env0) Reference.world1
           (Reference.request None Reference.signup_again)
           "ANN@x.COM" Reference.ann).
  - exact reference_world1_reachable.
  - reflexivity.
  - left. reflexivity.
  - reflexivity.
Defined.

(** C6 as the specification states it fails: Ann's address is taken, and
    a signup that gives it without the two names is answered by the check
    of the required fields, not by the message that the email is taken.
    The collection is unchanged all the same. *)
Lemma signup_taken_email_counterexample :
  let req := Reference.request None Samples.signup_without_names in
  In Reference.ann (server.users Reference.world1)
  /\ Js.get "email" (server.body_of req) = JStr "ANN@x.COM"
  /\ Str.toLowerCase (User.email Reference.ann) = Str.toLowerCase "ANN@x.COM"
  /\ Reference.app Reference.cfg (Reference.later 5 Reference.env0)
       server.POST_auth_signup req Reference.world1
     = (Ok (server.json 400 [("message", JStr "Please enter all required fields")]),
        Reference.world1)
  /\ fst (Reference.app Reference.cfg (Reference.later 5 Reference.env0)
            server.POST_auth_signup req Reference.world1)
     <> Ok (server.json 400
              [("message", JStr "User with this email already exists")]).
Proof.
  cbv zeta. split; [by left|]. split; [reflexivity|]. split; [reflexivity|].
  split; [vm_compute; reflexivity|]. vm_compute. discriminate.
Qed.

Lemma startup_configuration_witness :
  @server.startup Reference.mongoose ∅ = server.Exit 1
  /\ exists cfg,
       @server.startup Reference.mongoose Reference.env_without_secret
       = server.Listening cfg
       /\ server.JWT_SECRET cfg = "supersecretjwtkey"%string.
Proof.
  split.
  - apply (proj1 (@startup_configuration Reference.mongoose ∅)).
    left. reflexivity.
  - apply (proj2 (proj2 (proj2 (@startup_configuration Reference.mongoose
                                  Reference.env_without_secret)))
             "mongodb://localhost:27017/astra"%string).
    + reflexivity.
    + discriminate.
    + reflexivity.
    + left. reflexivity.
Defined.

(** C7 as the specification states it fails: with the connection string
    supplied and no `JWT_SECRET` in the environment, startup is not fatal;
    the server listens, signing with the fallback secret. *)
Lemma startup_without_secret_counterexample :
  Reference.env_without_secret !! "JWT_SECRET" = None
  /\ @server.startup Reference.mongoose Reference.env_without_secret
     = server.Listening Reference.cfg
  /\ ~ (exists code,
          @server.startup Reference.mongoose Reference.env_without_secret
          = server.Exit code).
Proof.
  split; [reflexivity|]. split; [reflexivity|].
  intros [code Hc]. vm_compute in Hc. discriminate.
Qed.

Lemma profile_statuses_witness :
  (exists res, server.status res = 401 /\
     Reference.app Reference.cfg Reference.env0 server.GET_user_profile
       Samples.basic Reference.world1 = (Ok res, Reference.world1))
  /\ Reference.app Reference.cfg Reference.env0 server.GET_user_profile
       (Reference.bearer JNull) Reference.world0
     = (Ok (server.json 404 [("message", JStr "User not found")]), Reference.world0)
  /\ Reference.app Reference.cfg Reference.env0 server.GET_user_profile
       (Reference.bearer JNull) Reference.world1
     = (Ok (server.json 200
              [("id", JStr "65a1b2c3d4e5f60718293a4b");
               ("email", JStr "ann@x.com");
               ("firstName", JStr "Ann");
               ("lastName", JStr "Lee");
               ("age", Js.JUndefined);
               ("school", Js.JUndefined);
               ("grade", Js.JUndefined);
               ("interests", JArr []);
               ("achievements", JArr []);
               ("academicProgress", JArr []);
               ("universityApplications", JArr []);
               ("applicationProgress",
                  JObj [("averageCompletion", Js.JNum 0);
                        ("currentProject", Js.JUndefined);
                        ("projectLink", Js.JUndefined)])]),
        Reference.world1).
Proof.
  split; [|split].
  - apply (proj1 (@profile_statuses Reference.bcrypt Reference.jwt
                    Reference.mongoose Reference.ollama Reference.cfg
                    Reference.env0 Samples.basic Reference.world1)).
    left. reflexivity.
  - apply (proj1 (proj2 (proj2 (@profile_statuses Reference.bcrypt Reference.jwt
                           Reference.mongoose Reference.ollama Reference.cfg
                           Reference.env0 (Reference.bearer JNull) Reference.world0))
                    Reference.token1 Reference.payload1 (id Reference.payload1)
                    ltac:(vm_compute; reflexivity) ltac:(vm_compute; reflexivity)
                    ltac:(vm_compute; reflexivity))).
    reflexivity.
  - apply (proj2 (proj2 (proj2 (proj2 (@profile_statuses Reference.bcrypt Reference.jwt
                           Reference.mongoose Reference.ollama Reference.cfg
                           Reference.env0 (Reference.bearer JNull) Reference.world1))
                    Reference.token1 Reference.payload1 (id Reference.payload1)
                    ltac:(vm_compute; reflexivity) ltac:(vm_compute; reflexivity)
                    ltac:(vm_compute; reflexivity))
             Reference.ann ltac:(vm_compute; reflexivity))).
    vm_compute. by repeat split.
Defined.

Lemma chat_rejects_bad_message_witness :
  Reference.app Reference.cfg Reference.env0 server.POST_ai_chat
    (Reference.bearer (JObj [("message", JStr "")])) Reference.world1
  = (Ok (server.json 400 [("message", JStr "Message is required");
                          ("error", JStr "MISSING_MESSAGE")]), Reference.world1)
  /\ Reference.app Reference.cfg Reference.env0 server.POST_ai_chat
       (Reference.bearer (JObj [("message", JNum 42)])) Reference.world1
     = (Ok (server.json 400 [("message", JStr "Message must be a string");
                             ("error", JStr "INVALID_MESSAGE_FORMAT")]),
        Reference.world1).
Proof.
  split.
  - apply (proj1 (@chat_rejects_bad_message Reference.bcrypt Reference.jwt
                    Reference.mongoose Reference.ollama Reference.cfg
                    Reference.env0
                    (Reference.bearer (JObj [("message", JStr "")]))
                    (server.set_user Reference.payload1
                       (Reference.bearer (JObj [("message", JStr "")])))
                    Reference.world1 ltac:(vm_compute; reflexivity))).
    reflexivity.
  - apply (proj2 (@chat_rejects_bad_message Reference.bcrypt Reference.jwt
                    Reference.mongoose Reference.ollama Reference.cfg
                    Reference.env0
                    (Reference.bearer (JObj [("message", JNum 42)]))
                    (server.set_user Reference.payload1
                       (Reference.bearer (JObj [("message", JNum 42)])))
                    Reference.world1 ltac:(vm_compute; reflexivity)));
      reflexivity.
Defined.

(** C10 as the specification states it fails: the message `0` is present
    and is not a string, yet the answer is MISSING_MESSAGE, not
    INVALID_MESSAGE_FORMAT. *)
Lemma chat_zero_message_counterexample :
  let req := Reference.bearer (JObj [("message", JNum 0)]) in
  Js.get "message" (server.body_of req) = JNum 0
  /\ Js.is_string (Js.get "message" (server.body_of req)) = false
  /\ Reference.app Reference.cfg Reference.env0 server.POST_ai_chat req
       Reference.world1
     = (Ok (server.json 400 [("message", JStr "Message is required");
                             ("error", JStr "MISSING_MESSAGE")]), Reference.world1)
  /\ fst (Reference.app Reference.cfg Reference.env0 server.POST_ai_chat req
            Reference.world1)
     <> Ok (server.json 400 [("message", JStr "Message must be a string");
                             ("error", JStr "INVALID_MESSAGE_FORMAT")]).
Proof.
  cbv zeta. split; [reflexivity|]. split; [reflexivity|].
  split; [vm_compute; reflexivity|].
  vm_compute. discriminate.
Qed.

(** * Further properties of the code *)

(** ** The collection, step by step *)

Section Steps.
Context `{Bcrypt} `{JwtCodec} `{Mongoose} `{Ollama}.
Variable cfg : server.Config.

(** What validation lets through. *)
Lemma validate_fields (d : User.Draft) :
  User.validate d = [] ->
  (exists e, User.d_email d = User.Value e /\ e <> ""%string
             /\ User.email_match e = true)
  /\ (exists f, User.d_firstName d = User.Value f /\ f <> ""%string)
  /\ (exists l, User.d_lastName d = User.Value l /\ l <> ""%string)
  /\ (User.d_age d = User.Absent
      \/ exists n, User.d_age d = User.Value n /\ 13 <= n <= 100)
  /\ User.d_school d <> User.CastError
  /\ User.d_grade d <> User.CastError.
Proof.
  unfold User.validate. intros Hv.
  repeat (apply List.app_eq_nil in Hv; destruct Hv as [? Hv]).
  unfold User.check_required, User.check, User.check_cast in *.
  repeat split.
  - destruct (User.d_email d) as [|e|]; cbv beta iota in *; try discriminate.
    exists e. split; [reflexivity|].
    destruct (String.eqb_spec e ""); [discriminate|]. split; [assumption|].
    cbn [orb] in *. by destruct (User.email_match e).
  - destruct (User.d_firstName d) as [|f|]; cbv beta iota in *; try discriminate.
    exists f. split; [reflexivity|]. by destruct (String.eqb_spec f "").
  - destruct (User.d_lastName d) as [|l|]; cbv beta iota in *; try discriminate.
    exists l. split; [reflexivity|]. by destruct (String.eqb_spec l "").
  - destruct (User.d_age d) as [|n|]; cbv beta iota in *; try discriminate.
    + by left.
    + right. exists n. split; [reflexivity|].
      destruct (Z.leb_spec 13 n); [|discriminate].
      destruct (Z.leb_spec n 100); [|discriminate]. lia.
  - by destruct (User.d_school d).
  - by destruct (User.d_grade d).
Qed.

(** One request: the collection is left alone, or the signup route has
    appended the validated document with its hashed password. *)
Lemma app_step (env : Env) (r : server.Route) (req : server.AuthRequest)
    (w w' : server.World) (o : outcome server.Response) :
  server.app cfg env r req w = (o, w') ->
  server.users w' = server.users w
  \/ (r = server.POST_auth_signup
      /\ exists p h,
           User.validate (server.signup_draft env req) = []
           /\ User.d_password (server.signup_draft env req) = User.Value p
           /\ bcrypt_hash p (bcrypt_genSalt 10 (random env)) = Ok h
           /\ server.users w'
              = server.users w
                ++ [User.set_password (Some h)
                      (User.document (now env) (server.signup_draft env req))]).
Proof.
  unfold server.app. destruct r; cbn [server.is_protected server.handler_of].
  - rewrite on_users_ok.
    destruct (signup_cases cfg env req (server.users w))
      as [(r0 & _ & ->) | (p & h & Hv & Hp & _ & Hh & [(tok & _ & ->) | (r0 & _ & ->)])];
      cbn [fst snd]; intros [= _ <-]; cbn [server.users]; [by left| |];
      right; (split; [reflexivity|]); exists p, h; by repeat split.
  - rewrite on_users_ok.
    destruct (login_cases cfg env req (server.users w))
      as [(r0 & _ & ->) | (f & u & tok & _ & _ & _ & _ & ->)];
      cbn [fst snd]; intros [= _ <-]; by left.
  - unfold server.guarded. destruct (server.protect cfg env req) as [res|req'].
    + intros [= _ <-]. by left.
    + cbn [server.handler_of]. rewrite on_users_ok.
      destruct (profile_cases req' (server.users w))
        as [(r0 & _ & ->) | (oid & u & _ & _ & ->)];
        cbn [fst snd]; intros [= _ <-]; by left.
  - unfold server.guarded. destruct (server.protect cfg env req) as [res|req'];
      cbn [server.handler_of]; intros [= _ <-]; by left.
  - unfold server.guarded. destruct (server.protect cfg env req) as [res|req'];
      cbn [server.handler_of]; intros [= _ <-]; by left.
  - unfold server.guarded. destruct (server.protect cfg env req) as [res|req'].
    + intros [= _ <-]. by left.
    + cbn [server.handler_of]. rewrite on_sent_ok. intros [= _ <-]. by left.
Qed.

(** The document signup stores is a valid account. *)
Lemma stored_document_valid (env : Env) (req : server.AuthRequest) (p h : string) :
  User.validate (server.signup_draft env req) = [] ->
  User.d_password (server.signup_draft env req) = User.Value p ->
  bcrypt_hash p (bcrypt_genSalt 10 (random env)) = Ok h ->
  valid_account
    (User.set_password (Some h)
       (User.document (now env) (server.signup_draft env req))).
Proof.
  intros Hv Hp Hh.
  destruct (validate_fields _ Hv)
    as ((e & He & Hene & Hem) & (f & Hf & Hfne) & (l & Hl & Hlne) & Hage & _ & _).
  destruct (validate_password _ Hv) as (q & Hq & _ & Hlen).
  assert (q = p) as -> by congruence.
  assert (e = User.normalize_email e) as Hen.
  { unfold server.signup_draft, User.new_User in He. cbn [User.d_email] in He.
    destruct (User.castString (Js.get "email" (server.body_of req)));
      try discriminate.
    injection He as <-. by rewrite normalize_email_idem. }
  assert (f = Str.trim f) as Hft.
  { unfold server.signup_draft, User.new_User in Hf. cbn [User.d_firstName] in Hf.
    destruct (User.castString (Js.get "firstName" (server.body_of req)));
      try discriminate.
    injection Hf as <-. by rewrite trim_idem. }
  assert (l = Str.trim l) as Hlt.
  { unfold server.signup_draft, User.new_User in Hl. cbn [User.d_lastName] in Hl.
    destruct (User.castString (Js.get "lastName" (server.body_of req)));
      try discriminate.
    injection Hl as <-. by rewrite trim_idem. }
  unfold valid_account.
  cbn [User.email User.firstName User.lastName User.age User.password
       User.set_password User.document].
  rewrite He, Hf, Hl. cbn [User.to_option default id].
  split; [exact Hen|]. split; [exact Hem|]. split; [exact Hft|].
  split; [exact Hfne|]. split; [exact Hlt|]. split; [exact Hlne|].
  split.
  - intros a. destruct Hage as [-> | (n & -> & Hn)]; cbn [User.to_option];
      intros [= <-]. exact Hn.
  - exists p, (bcrypt_genSalt 10 (random env)), h. by repeat split.
Qed.

(** X1. Every account the server ever stores satisfies the schema: in each
    reachable state, every document of the collection has a normalised,
    well-shaped address, trimmed non-empty names, an age between 13 and 100
    if it has one, and as password a `bcrypt.hash` of a secret of at least
    six characters. *)
Theorem reachable_accounts_valid (w : server.World) :
  server.reachable cfg w -> Forall valid_account (server.users w).
Proof.
  induction 1 as [|env r req w o w' _ IH Hstep]; [constructor|].
  destruct (app_step env r req w w' o Hstep)
    as [-> | (_ & p & h & Hv & Hp & Hh & ->)]; [exact IH|].
  apply Forall_app. split; [exact IH|].
  constructor; [|constructor]. by apply (stored_document_valid env req p h).
Qed.

(** X2. The collection is append-only and its unique indexes hold. A
    request leaves every stored account as it is and in place; only the
    signup route writes, and then it appends exactly one account whose
    address and id no stored account has. Hence in every reachable state
    no two accounts share an address or an id. *)
Theorem collection_append_only (env : Env) (r : server.Route)
    (req : server.AuthRequest) (w w' : server.World)
    (o : outcome server.Response) :
  server.app cfg env r req w = (o, w') ->
  (server.users w' = server.users w
   \/ (r = server.POST_auth_signup
       /\ exists this,
            server.users w' = server.users w ++ [this]
            /\ Forall (fun u => User.email u <> User.email this) (server.users w)
            /\ Forall (fun u => User._id u <> User._id this) (server.users w)))
  /\ (server.reachable cfg w ->
      NoDup (map User.email (server.users w'))
      /\ NoDup (map User._id (server.users w'))).
Proof.
  intros Hstep. split.
  - destruct (app_step env r req w w' o Hstep) as [Hsame | (-> & _)]; [by left|].
    destruct (app_users_fresh cfg env _ req w w' o Hstep) as [Hsame | Hnew];
      [by left|]. right. by split.
  - intros Hreach. apply reachable_unique with (cfg := cfg).
    by eapply server.reachable_step.
Qed.

End Steps.

(** ** Signup, and what follows it *)

Section Signup.
Context `{Bcrypt} `{JwtCodec} `{Mongoose} `{Ollama}.
Variable cfg : server.Config.
Variable env : Env.

Lemma find_app_none {A} (f : A -> bool) (l l' : list A) :
  find f l = None -> find f (l ++ l') = find f l'.
Proof.
  induction l as [|a l IH]; [reflexivity|]. simpl.
  destruct (f a); [discriminate|]. exact IH.
Qed.

Lemma find_all_false {A} (f : A -> bool) (l : list A) :
  Forall (fun a => f a = false) l -> find f l = None.
Proof.
  induction 1 as [|a l Ha _ IH]; [reflexivity|]. simpl. by rewrite Ha.
Qed.

(** `jwt.sign` with the span '1h' fails for one reason only: an empty
    secret. *)
Lemma sign_secret (uid secret : string) (at_ms : Z) :
  secret <> ""%string -> exists token, jwt.sign uid secret "1h" at_ms = Ok token.
Proof.
  intros Hne. unfold jwt.sign. change (jwt.ms "1h") with (Some 3600000).
  destruct (String.eqb_spec secret ""); [done|]. eauto.
Qed.

(** A failed `save` wrote nothing. *)
Lemma save_throw (d : User.Draft) (db db' : list User.t) (e : Js.error) :
  User.save env d db = (Throw e, db') -> db' = db.
Proof.
  intros Hs. destruct (save_cases env d db) as [[e' He] | (p & h & _ & _ & _ & _ & Hok)].
  - congruence.
  - cbv zeta in Hok. congruence.
Qed.

(** The secret of a started server is never empty. *)
Lemma startup_secret (process_env : gmap string string) :
  server.startup process_env = server.Listening cfg ->
  server.JWT_SECRET cfg <> ""%string.
Proof.
  unfold server.startup.
  destruct (process_env !! "MONGO_URI") as [uri|]; [|done].
  destruct (String.eqb uri ""); [done|].
  destruct (connect uri); [|done]. intros [= <-]. cbn [server.JWT_SECRET].
  unfold server.env_or. destruct (process_env !! "JWT_SECRET") as [s|]; [|done].
  by destruct (String.eqb_spec s "").
Qed.

(** The signup route past its guard and its lookup: the answer follows
    what `save` and `sign` did. *)
Lemma signup_after_lookup (req : server.AuthRequest) (db : list User.t)
    (f : string -> bool) :
  truthy (Js.get "email" (server.body_of req)) = true ->
  truthy (Js.get "password" (server.body_of req)) = true ->
  truthy (Js.get "firstName" (server.body_of req)) = true ->
  truthy (Js.get "lastName" (server.body_of req)) = true ->
  User.email_filter (Js.get "email" (server.body_of req)) = Ok f ->
  find (fun u => f (User.email u)) db = None ->
  server.signup cfg env req db
  = match User.save env (server.signup_draft env req) db with
    | (Ok user, db1) =>
        match jwt.sign (User._id user) (server.JWT_SECRET cfg) "1h" (now env) with
        | Ok token =>
            (Ok (server.json 201 [("message", JStr "User registered successfully");
                                  ("token", JStr token);
                                  ("user", JObj (server.signup_view user))]), db1)
        | Throw e =>
            (Ok (if bool_decide (Js.code e = Some 11000)
                 then server.json 400 [("message", JStr "Email already registered")]
                 else server.json 500 [("message", JStr "Server error during signup");
                                       ("error", JStr (Js.message e))]), db1)
        end
    | (Throw e, db1) =>
        (Ok (if bool_decide (Js.code e = Some 11000)
             then server.json 400 [("message", JStr "Email already registered")]
             else server.json 500 [("message", JStr "Server error during signup");
                                   ("error", JStr (Js.message e))]), db1)
    end.
Proof.
  intros Hem Hpw Hfn Hln Hf Hfind. unfold server.signup.
  rewrite Hem, Hpw, Hfn, Hln. cbn [negb orb].
  run_app. unfold User.findOne. run_app. rewrite Hf, Hfind. simpl.
  fold (server.signup_draft env req).
  destruct (User.save env (server.signup_draft env req) db) as [[user|e] db1].
  - destruct (jwt.sign _ _ _ _); simpl; [reflexivity|].
    by destruct (bool_decide _).
  - by destruct (bool_decide _).
Qed.

(** What a 201 of signup tells: no account matched, the draft was valid,
    the password was hashed and the document appended, new to both
    indexes, and the token signed for its id. *)
Lemma signup_201 (req : server.AuthRequest) (db db' : list User.t)
    (res : server.Response) :
  server.signup cfg env req db = (Ok res, db') ->
  server.status res = 201 ->
  exists f p h token,
    User.email_filter (Js.get "email" (server.body_of req)) = Ok f
    /\ find (fun u => f (User.email u)) db = None
    /\ User.validate (server.signup_draft env req) = []
    /\ User.d_password (server.signup_draft env req) = User.Value p
    /\ bcrypt_hash p (bcrypt_genSalt 10 (random env)) = Ok h
    /\ jwt.sign (objectId env) (server.JWT_SECRET cfg) "1h" (now env) = Ok token
    /\ db' = db ++ [User.set_password (Some h)
                      (User.document (now env) (server.signup_draft env req))]
    /\ Forall (fun u => User._id u <> objectId env) db
    /\ res = server.json 201
               [("message", JStr "User registered successfully");
                ("token", JStr token);
                ("user", JObj (server.signup_view
                                 (User.set_password (Some h)
                                    (User.document (now env)
                                       (server.signup_draft env req)))))].
Proof.
  unfold server.signup.
  destruct (negb _ || negb _ || negb _ || negb _).
  { intros [= <- _]. discriminate. }
  run_app. unfold User.findOne. run_app.
  destruct (User.email_filter _) as [f|e].
  2:{ destruct (bool_decide _); intros [= <- _]; discriminate. }
  destruct (find _ db) eqn:Hfind; simpl.
  { intros [= <- _]. discriminate. }
  fold (server.signup_draft env req).
  destruct (User.save env (server.signup_draft env req) db) as [[user|e] db1] eqn:Hs.
  2:{ destruct (bool_decide _); intros [= <- _]; discriminate. }
  pose proof Hs as Hfresh. apply save_fresh in Hfresh as (-> & _ & Hid).
  destruct (save_cases env (server.signup_draft env req) db)
    as [[e He] | (p & h & Hv & Hp & _ & Hh & Hok)]; [congruence|].
  cbv zeta in Hok. rewrite Hok in Hs. injection Hs as <-.
  change (User._id (User.set_password (Some h)
            (User.document (now env) (server.signup_draft env req))))
    with (objectId env) in *.
  destruct (jwt.sign _ _ _ _) as [token|e] eqn:Hsign; simpl.
  2:{ destruct (bool_decide _); intros [= <- _]; discriminate. }
  intros [= <- <-] _. exists f, p, h, token. by repeat split.
Qed.

(** X3. The schema validators answer with a 500. When the four required
    fields are present and no account has the address, a signup whose
    document fails validation is answered 500 'Server error during signup'
    with the validation message, and nothing is stored; a string password
    of fewer than six characters is such a case. *)
Theorem signup_invalid_is_500 (req : server.AuthRequest) (db : list User.t)
    (f : string -> bool) :
  truthy (Js.get "email" (server.body_of req)) = true ->
  truthy (Js.get "password" (server.body_of req)) = true ->
  truthy (Js.get "firstName" (server.body_of req)) = true ->
  truthy (Js.get "lastName" (server.body_of req)) = true ->
  User.email_filter (Js.get "email" (server.body_of req)) = Ok f ->
  find (fun u => f (User.email u)) db = None ->
  (User.validate (server.signup_draft env req) <> []
   \/ exists p, Js.get "password" (server.body_of req) = JStr p
                /\ (String.length p < 6)%nat) ->
  server.signup cfg env req db
  = (Ok (server.json 500
           [("message", JStr "Server error during signup");
            ("error", JStr (validation_message
                              (User.validate (server.signup_draft env req))))]),
     db).
Proof.
  intros Hem Hpw Hfn Hln Hf Hfind Hbad.
  assert (User.validate (server.signup_draft env req) <> []) as Hv.
  { destruct Hbad as [Hv | (p & Hp & Hlen)]; [exact Hv|].
    intros Hnil. destruct (validate_password _ Hnil) as (q & Hq & _ & Hq6).
    unfold server.signup_draft, User.new_User in Hq. cbn [User.d_password] in Hq.
    rewrite Hp in Hq. injection Hq as <-. lia. }
  rewrite (signup_after_lookup req db f Hem Hpw Hfn Hln Hf Hfind).
  unfold User.save.
  destruct (User.validate (server.signup_draft env req)) as [|err errs]; [done|].
  unfold throw, User.ValidationError. cbn [Js.code Js.message].
  by rewrite bool_decide_eq_false_2.
Qed.

(** X4. Signup is all or nothing once the server has started. With the
    configuration `startup` produced, a signup request is always answered;
    it is answered 201 with a token and the new account exactly when it
    appended that account to the collection, and otherwise the collection
    is as it was. *)
Theorem signup_atomic (process_env : gmap string string)
    (req : server.AuthRequest) (db db' : list User.t)
    (o : outcome server.Response) :
  server.startup process_env = server.Listening cfg ->
  server.signup cfg env req db = (o, db') ->
  exists res, o = Ok res
    /\ ((server.status res <> 201 /\ db' = db)
        \/ exists token user,
             db' = db ++ [user]
             /\ res = server.json 201
                        [("message", JStr "User registered successfully");
                         ("token", JStr token);
                         ("user", JObj (server.signup_view user))]).
Proof.
  intros Hstart. apply startup_secret in Hstart.
  unfold server.signup.
  destruct (negb _ || negb _ || negb _ || negb _).
  { intros [= <- <-]. eexists. split; [reflexivity|]. by left. }
  run_app. unfold User.findOne. run_app.
  destruct (User.email_filter _) as [f|e].
  2:{ destruct (bool_decide _); intros [= <- <-];
        (eexists; split; [reflexivity|]; by left). }
  destruct (find _ db) eqn:Hfind; simpl.
  { intros [= <- <-]. eexists. split; [reflexivity|]. by left. }
  fold (server.signup_draft env req).
  destruct (User.save env (server.signup_draft env req) db) as [[user|e] db1] eqn:Hs.
  2:{ apply save_throw in Hs as ->.
      destruct (bool_decide _); intros [= <- <-];
        (eexists; split; [reflexivity|]; by left). }
  apply save_fresh in Hs as (-> & _ & _).
  destruct (sign_secret (User._id user) (server.JWT_SECRET cfg) (now env) Hstart)
    as [token ->].
  simpl. intros [= <- <-]. eexists. split; [reflexivity|]. right. by exists token, user.
Qed.

(** X5. Signup reads seven fields of the body and nothing else. Two
    requests whose bodies agree on `email`, `password`, `firstName`,
    `lastName`, `age`, `school` and `grade` get the same answer and leave
    the same collection, whatever their headers and whatever else their
    bodies carry: a client cannot set `_id`, the timestamps or any profile
    list through this route. *)
Theorem signup_reads_seven_fields (req req' : server.AuthRequest) (db : list User.t) :
  Forall (fun k => Js.get k (server.body_of req) = Js.get k (server.body_of req'))
    ["email"; "password"; "firstName"; "lastName"; "age"; "school"; "grade"]%string ->
  server.signup cfg env req db = server.signup cfg env req' db.
Proof.
  intros Hsame. rewrite !Forall_cons in Hsame.
  destruct Hsame as (He & Hp & Hf & Hl & Ha & Hs & Hg & _).
  unfold server.signup. by rewrite He, Hp, Hf, Hl, Ha, Hs, Hg.
Qed.

Section Hasher.
Context `{!BcryptContract}.

(** X6. An account that signed up can log in, and a login never fails on
    a string password. After a signup answered 201 for address [e] and
    password [p], a login at any later time that gives the address in any
    letter case and with any surrounding blanks and a non-empty string
    [p'] as password is answered 200, with a token and the account's
    profile, exactly when hashing [p'] under the salt of the stored hash
    gives the stored hash, and 400 'Invalid credentials' otherwise. It is
    the 200 for [p'] = [p], and for every [p'] whose 72 key bytes are those
    of [p]. *)
Theorem login_after_signup (env' : Env) (req req' : server.AuthRequest)
    (db db' : list User.t) (res : server.Response) (e e' p p' : string) :
  server.signup cfg env req db = (Ok res, db') ->
  server.status res = 201 ->
  Js.get "email" (server.body_of req) = JStr e ->
  Js.get "password" (server.body_of req) = JStr p ->
  Js.get "email" (server.body_of req') = JStr e' ->
  User.normalize_email e' = User.normalize_email e ->
  Js.get "password" (server.body_of req') = JStr p' ->
  p' <> ""%string ->
  exists user h h' token,
    db' = db ++ [user]
    /\ User.password user = Some h
    /\ bcrypt_hash p' (String.substring 0 29 h) = Ok h'
    /\ jwt.sign (User._id user) (server.JWT_SECRET cfg) "1h" (now env') = Ok token
    /\ server.login cfg env' req' db'
       = (Ok (if String.eqb h' h
              then server.json 200
                     [("message", JStr "Logged in successfully");
                      ("token", JStr token);
                      ("user", JObj (server.profile_view (User.select true user)))]
              else server.json 400 [("message", JStr "Invalid credentials")]),
          db')
    /\ (bcrypt_key p' = bcrypt_key p -> h' = h).
Proof.
  intros Hs H201 Hemail Hpass Hemail' Hnorm Hpass' Hp'.
  destruct (signup_201 req db db' res Hs H201)
    as (f & p0 & h & token & Hf & Hfind & Hv & Hp0 & Hh & Hsign & -> & _ & _).
  set (user := User.set_password (Some h) _).
  assert (p0 = p) as ->.
  { unfold server.signup_draft, User.new_User in Hp0. cbn [User.d_password] in Hp0.
    rewrite Hpass in Hp0. by injection Hp0. }
  rewrite Hemail in Hf. injection Hf as <-.
  destruct (validate_email _ Hv) as (em & Hem & Hne).
  unfold server.signup_draft, User.new_User in Hem. cbn [User.d_email] in Hem.
  rewrite Hemail in Hem. injection Hem as <-.
  change (Js.toString (JStr e)) with e in Hfind.
  assert (User.email user = User.normalize_email e) as Huser.
  { unfold user, server.signup_draft, User.new_User. cbn. by rewrite Hemail. }
  assert (e' <> ""%string) as He'.
  { intros ->. apply Hne. by rewrite <- Hnorm. }
  assert (server.JWT_SECRET cfg <> ""%string) as Hsecret.
  { by apply sign_one_hour in Hsign as [? _]. }
  destruct (sign_secret (User._id user) (server.JWT_SECRET cfg) (now env') Hsecret)
    as [token' Hsign'].
  assert (truthy (JStr e') = true) as Ht1 by (by destruct e').
  assert (truthy (JStr p') = true) as Ht2 by (by destruct p').
  assert (find (fun u => String.eqb (User.normalize_email e') (User.email u))
            (db ++ [user]) = Some user) as Hfound.
  { rewrite Hnorm, find_app_none by exact Hfind. cbn [find].
    by rewrite Huser, String.eqb_refl. }
  assert (User.comparePassword (User.select true user) (JStr p')
          = bcrypt_compare (JStr p') h) as Hcmp.
  { unfold User.comparePassword, User.select, user. cbn.
    destruct (String.eqb_spec h ""); [|reflexivity].
    by apply bcrypt_hash_nonempty in Hh. }
  destruct (bcrypt_compare_stored p _ h p' Hh) as (h' & Hh' & Hc & Heq).
  exists user, h, h', token'.
  split; [reflexivity|]. split; [reflexivity|]. split; [exact Hh'|].
  split; [exact Hsign'|]. split; [|exact Heq].
  unfold server.login. rewrite Hemail', Hpass', Ht1, Ht2. cbn [negb orb].
  run_app. unfold User.findOne. run_app.
  cbn [User.email_filter]. change (Js.toString (JStr e')) with e'.
  rewrite Hfound. cbn [fmap option_fmap option_map]. rewrite Hcmp, Hc.
  destruct (String.eqb h' h); cbn [negb]; [|reflexivity].
  change (User._id (User.select true user)) with (User._id user).
  by rewrite Hsign'.
Qed.

End Hasher.

End Signup.

(** ** What no route ever writes *)

Section Blank.
Context `{Bcrypt} `{JwtCodec} `{Mongoose} `{Ollama}.
Variable cfg : server.Config.

(** X7. No route ever updates an account. In every state the server can
    reach, each stored account has the profile signup gave it: no picture,
    no achievements, courses, interests or applications, an application
    progress of zero, an empty chat history, and `updatedAt` equal to
    `createdAt`. The chat route, in particular, never records a message. *)
Theorem reachable_accounts_untouched (w : server.World) :
  server.reachable cfg w -> Forall untouched_profile (server.users w).
Proof.
  induction 1 as [|env r req w o w' _ IH Happ]; [constructor|].
  apply app_step in Happ as [-> | (_ & p & h & _ & _ & _ & ->)]; [exact IH|].
  apply Forall_app. split; [exact IH|]. constructor; [|constructor].
  by repeat split.
Qed.

End Blank.

(** ** Sessions: the token between requests *)

Section Session.
Context `{Bcrypt} `{JwtCodec} `{Mongoose} `{Ollama}.
Variable cfg : server.Config.

(** A token that verifies at one time verifies, to the same payload, at
    every time before its `exp`; and it verified before its `exp`. *)
Lemma verify_until_exp (token secret : string) (at_ms : Z) (decoded : JwtPayload) :
  jwt.verify token secret at_ms = Ok decoded ->
  at_ms / 1000 < exp decoded
  /\ forall at_ms', at_ms' / 1000 < exp decoded ->
                    jwt.verify token secret at_ms' = Ok decoded.
Proof.
  unfold jwt.verify.
  destruct (String.eqb token ""); [discriminate|].
  destruct (jwt_decode token) as [[payload sig]|]; [|discriminate].
  destruct (String.eqb secret ""); [discriminate|].
  destruct (negb _); [discriminate|].
  destruct (Z.leb_spec (exp payload) (at_ms / 1000)); [discriminate|].
  intros [= <-]. split; [lia|]. intros at_ms' Hlt.
  by destruct (Z.leb_spec (exp payload) (at_ms' / 1000)); [lia|].
Qed.

(** X8. Logging out revokes nothing. A logout answered 200 leaves the
    server's state as it was, and the request's token is accepted on every
    protected route afterwards, at any time before the `exp` of its
    payload: the handler runs with that payload as `req.user`. *)
Theorem logout_does_not_revoke (env : Env) (req : server.AuthRequest)
    (w w' : server.World) (res : server.Response) :
  server.app cfg env server.POST_auth_logout req w = (Ok res, w') ->
  server.status res = 200 ->
  w' = w
  /\ res = server.json 200 [("message", JStr "Logged out successfully")]
  /\ exists decoded,
       now env / 1000 < exp decoded
       /\ forall env' r,
            server.is_protected r = true ->
            now env' / 1000 < exp decoded ->
            server.app cfg env' r req w'
            = server.handler_of cfg env' r (server.set_user decoded req) w'.
Proof.
  intros Happ H200.
  destruct (protect_cases cfg env req) as [[msg Hp] | (token & decoded & Hb & Hv & Hp)];
    revert Happ; unfold server.app; cbn [server.is_protected];
    unfold server.guarded; rewrite Hp.
  - intros [= <- _]. discriminate.
  - cbn [server.handler_of]. unfold server.logout. run_app.
    intros [= <- <-]. split; [reflexivity|]. split; [reflexivity|].
    exists decoded. apply verify_until_exp in Hv as [Hnow Hlater].
    split; [exact Hnow|]. intros env' r Hr Hlt.
    rewrite Hr.
    by rewrite (protect_good_token cfg env' req token decoded Hb (Hlater _ Hlt)).
Qed.

Section Tokens.
Context `{!JwtCodecContract}.

(** X9. The token of a signup opens the new account's profile for one
    hour, to the second. After a signup answered 201 at time T, a profile
    request that carries the answer's token as `Authorization: Bearer` is
    answered 200 with the new account's profile when fewer than 3600 whole
    seconds separate it from T, and 401 'Token is not valid' from then on;
    the state is not changed. The driver is assumed to cast the id it
    generated to itself. *)
Theorem profile_after_signup (env : Env) (req : server.AuthRequest)
    (db db' : list User.t) (res : server.Response) :
  server.signup cfg env req db = (Ok res, db') ->
  server.status res = 201 ->
  castObjectId (objectId env) = Some (objectId env) ->
  exists token user,
    Js.get "token" (server.body res) = JStr token
    /\ db' = db ++ [user]
    /\ forall env' req' w,
         server.users w = db' ->
         server.headers req' !! "authorization" = Some ("Bearer " ++ token)%string ->
         server.app cfg env' server.GET_user_profile req' w
         = (Ok (if now env' / 1000 <? now env / 1000 + 3600
                then server.json 200 (server.profile_view (User.select false user))
                else server.json 401 [("message", JStr "Token is not valid")]),
            w).
Proof.
  intros Hs H201 Hcast.
  destruct (signup_201 cfg env req db db' res Hs H201)
    as (f & p & h & token & _ & _ & _ & _ & _ & Hsign & -> & Hid & ->).
  set (user := User.set_password (Some h) _) in *.
  exists token, user. split; [reflexivity|]. split; [reflexivity|].
  intros env' req' w Hw Hhdr.
  apply sign_one_hour in Hsign as [Hsecret ->].
  set (payload := {| id := objectId env; iat := now env / 1000;
                     exp := now env / 1000 + 3600 |}) in *.
  pose proof (bearer_token_of_header req' payload _ Hhdr) as Hb.
  assert (jwt.verify (jwt_encode payload (jwt_mac (server.JWT_SECRET cfg) payload))
            (server.JWT_SECRET cfg) (now env')
          = if now env' / 1000 <? now env / 1000 + 3600 then Ok payload
            else Throw jwt.TokenExpiredError) as Hv.
  { rewrite verify_signed by done. cbn [exp payload].
    destruct (Z.leb_spec (now env / 1000 + 3600) (now env' / 1000)),
             (Z.ltb_spec (now env' / 1000) (now env / 1000 + 3600)); (lia || done). }
  unfold server.app. cbn [server.is_protected]. unfold server.guarded, server.protect.
  rewrite Hb, Hv.
  destruct (String.eqb_spec (jwt_encode payload (jwt_mac (server.JWT_SECRET cfg) payload)) "")
    as [He|_]; [by apply jwt_encode_nonempty in He|].
  destruct (now env' / 1000 <? now env / 1000 + 3600); [|reflexivity].
  cbn [server.handler_of]. rewrite on_users_ok, Hw.
  assert (find (fun u => String.eqb (User._id u) (objectId env)) (db ++ [user])
          = Some user) as Hfound.
  { rewrite find_app_none.
    - cbn [find]. change (User._id user) with (objectId env).
      by rewrite String.eqb_refl.
    - apply find_all_false. eapply Forall_impl; [exact Hid|].
      intros u Hne. by apply String.eqb_neq. }
  unfold server.profile. run_app. unfold User.findById.
  cbn [server.user server.set_user fmap option_fmap option_map id].
  change (id payload) with (objectId env). rewrite Hcast. run_app. rewrite Hfound. cbn [fmap option_fmap option_map fst snd].
  by rewrite <- Hw, world_eta.
Qed.

End Tokens.

End Session.

(** ** The chat route and the inference service *)

Section Chat.
Context `{Bcrypt} `{JwtCodec} `{Mongoose} `{Ollama}.
Variable cfg : server.Config.

(** What `getAIResponse` makes of a non-empty string: the cleaned text of
    an answer that came back well, or one of two errors. *)
Lemma getAIResponse_cases (url model m : string) (sent : list string) :
  m <> ""%string ->
  (exists st data r,
     fetch_generate url model (aiService.prompt_of m) = HttpResponse true st (Ok data)
     /\ Js.get "response" data = JStr r /\ r <> ""%string
     /\ fst (aiService.getAIResponse url model (JStr m) sent)
        = Ok (aiService.cleanResponse r))
  \/ fst (aiService.getAIResponse url model (JStr m) sent)
     = Throw (aiService.PlainError
         "Unable to connect to Ollama service. Please make sure Ollama is running locally.")
  \/ exists t, fst (aiService.getAIResponse url model (JStr m) sent)
               = Throw (aiService.PlainError ("AI service error: " ++ t)%string).
Proof.
  intros Hne. unfold aiService.getAIResponse.
  destruct (String.eqb_spec m "") as [|_]; [done|].
  match goal with
  | |- context [try_catch ?c ?h] => set (body := c); set (handler := h)
  end.
  assert (forall e s,
            fst (handler e s)
            = Throw (aiService.PlainError
                "Unable to connect to Ollama service. Please make sure Ollama is running locally.")
            \/ exists t, fst (handler e s)
                         = Throw (aiService.PlainError ("AI service error: " ++ t)%string))
    as Hcatch.
  { intros e s. unfold handler. destruct (_ || _); [by left|]. right. by eexists. }
  unfold try_catch. destruct (body sent) as [[a|e] s'] eqn:Hbody; [|right; apply Hcatch].
  left. revert Hbody. unfold body, aiService.fetch. run_app.
  destruct (fetch_generate url model (aiService.prompt_of m)) as [e|ok st [data|e]];
    try discriminate.
  destruct ok; cbn [negb]; unfold aiService.prop.
  - destruct data as [| |b|n|t|r|xs|fs]; run_app; try discriminate.
    destruct (Js.get "response" (JObj fs)) as [| |b'|n'|t'|r'|xs'|fs'] eqn:Hr;
      cbn [truthy]; repeat (match goal with
                            | |- context [if ?c then _ else _] => destruct c eqn:?
                            end); try discriminate.
    intros [= <- _]. exists st, (JObj fs), r'. repeat split; [done|].
    by apply String.eqb_neq.
  - destruct data; run_app; discriminate.
Qed.

(** X10. The chat handler always answers, and in one of two shapes. For a
    message that is a non-empty string, exactly one prompt goes to the
    endpoint and the answer is either 200 with the cleaned `response` text
    of an endpoint reply that was `ok` and held a non-empty string, or
    one of 429, 500, 503 with the same non-empty text under `message` and
    under `error`: the text of the connection failure, or a text that
    starts with 'AI service error: '. The fallback texts 'Failed to get AI
    response' and 'UNKNOWN_ERROR' are never used. *)
Theorem chat_answers (req : server.AuthRequest) (m : string) (sent : list string) :
  Js.get "message" (server.body_of req) = JStr m -> m <> ""%string ->
  exists res,
    server.chat cfg req sent = (Ok res, sent ++ [aiService.prompt_of m])
    /\ ((exists st data r,
           fetch_generate (server.OLLAMA_API_URL cfg) (server.MODEL_NAME cfg)
             (aiService.prompt_of m) = HttpResponse true st (Ok data)
           /\ Js.get "response" data = JStr r /\ r <> ""%string
           /\ res = server.json 200 [("response", JStr (aiService.cleanResponse r))])
        \/ (exists code text,
              (code = 429 \/ code = 500 \/ code = 503)
              /\ (text = "Unable to connect to Ollama service. Please make sure Ollama is running locally."%string
                  \/ exists t, text = ("AI service error: " ++ t)%string)
              /\ res = server.json code [("message", JStr text); ("error", JStr text)])).
Proof.
  intros Hm Hne.
  pose proof (getAIResponse_sends (server.OLLAMA_API_URL cfg) (server.MODEL_NAME cfg)
                m sent Hne) as Hsent.
  pose proof (getAIResponse_cases (server.OLLAMA_API_URL cfg) (server.MODEL_NAME cfg)
                m sent Hne) as Hcases.
  unfold server.chat. rewrite Hm. cbn [truthy Js.is_string].
  destruct (String.eqb_spec m "") as [|_]; [done|]. cbn [negb]. run_app.
  destruct (aiService.getAIResponse _ _ _ _) as [o s'].
  cbn [fst snd] in Hsent, Hcases. subst s'.
  destruct Hcases as [(st & data & r & Hf & Hr & Hr0 & ->) | [-> | [t ->]]].
  - eexists. split; [reflexivity|]. left. by exists st, data, r.
  - eexists. split; [reflexivity|]. right.
    exists 503, "Unable to connect to Ollama service. Please make sure Ollama is running locally."%string.
    split; [tauto|]. split; [by left|reflexivity].
  - cbn [aiService.PlainError Js.message].
    change (("AI service error: " ++ t)%string =? "")%string with false.
    eexists. split; [reflexivity|]. right.
    eexists _, ("AI service error: " ++ t)%string.
    split; [|split; [right; by exists t|reflexivity]].
    repeat (match goal with
            | |- context [if ?c then _ else _] => destruct c
            end); tauto.
Qed.

(** X11. An endpoint that cannot be reached is a 503. When `fetch` fails
    with an error whose text mentions ECONNREFUSED or 'Failed to fetch',
    the service rethrows it as 'Unable to connect to Ollama service...',
    and the handler, which looks for 'Unable to connect' in the text,
    answers 503 with that text. *)
Theorem chat_endpoint_unreachable (req : server.AuthRequest) (m : string)
    (sent : list string) (e : Js.error) :
  Js.get "message" (server.body_of req) = JStr m -> m <> ""%string ->
  fetch_generate (server.OLLAMA_API_URL cfg) (server.MODEL_NAME cfg)
    (aiService.prompt_of m) = NetworkError e ->
  Str.includes (Js.message e) "ECONNREFUSED"
  || Str.includes (Js.message e) "Failed to fetch" = true ->
  server.chat cfg req sent
  = (Ok (server.json 503
           [("message", JStr "Unable to connect to Ollama service. Please make sure Ollama is running locally.");
            ("error", JStr "Unable to connect to Ollama service. Please make sure Ollama is running locally.")]),
     sent ++ [aiService.prompt_of m]).
Proof.
  intros Hm Hne Hf Hinc.
  unfold server.chat. rewrite Hm. cbn [truthy Js.is_string].
  destruct (String.eqb_spec m "") as [|_]; [done|]. cbn [negb].
  unfold aiService.getAIResponse.
  destruct (String.eqb_spec m "") as [|_]; [done|].
  unfold aiService.fetch. run_app. rewrite Hf, Hinc. reflexivity.
Qed.

(** What one run of the chat handler sent. *)
Lemma chat_sent (req : server.AuthRequest) (sent : list string) :
  snd (server.chat cfg req sent) = sent
  \/ exists m, Js.get "message" (server.body_of req) = JStr m /\ m <> ""%string
               /\ snd (server.chat cfg req sent) = sent ++ [aiService.prompt_of m].
Proof.
  destruct (Js.get "message" (server.body_of req)) as [| |b|n|t|m|xs|fs] eqn:Hm.
  1-5,7-8: left; unfold server.chat; rewrite Hm; cbn [truthy Js.is_string negb];
    repeat (match goal with
            | |- context [if ?c then _ else _] => destruct c
            end); reflexivity.
  destruct (String.eqb_spec m "") as [->|Hne].
  - left. unfold server.chat. by rewrite Hm.
  - right. exists m. split; [reflexivity|]. split; [exact Hne|].
    by apply chat_calls_upstream.
Qed.

(** X12. Only an authenticated chat request reaches the inference
    endpoint. A request leaves the list of prompts sent as it was, unless
    it is a POST /api/ai/chat that `protect` let through with a `message`
    that is a non-empty string: then exactly one prompt is added, the
    fixed template around that message. Hence every prompt the server has
    ever sent is the template around a non-empty message. *)
Theorem prompts_only_after_protect (env : Env) (r : server.Route)
    (req : server.AuthRequest) (w w' : server.World) (o : outcome server.Response) :
  server.app cfg env r req w = (o, w') ->
  (server.sent w' = server.sent w
   \/ (r = server.POST_ai_chat
       /\ exists decoded m,
            server.protect cfg env req = server.Next (server.set_user decoded req)
            /\ Js.get "message" (server.body_of req) = JStr m /\ m <> ""%string
            /\ server.sent w' = server.sent w ++ [aiService.prompt_of m]))
  /\ (server.reachable cfg w ->
      Forall (fun prompt => exists m, m <> ""%string
                                      /\ prompt = aiService.prompt_of m)
        (server.sent w')).
Proof.
  assert (forall env r req w w' o,
            server.app cfg env r req w = (o, w') ->
            server.sent w' = server.sent w
            \/ (r = server.POST_ai_chat
                /\ exists decoded m,
                     server.protect cfg env req
                     = server.Next (server.set_user decoded req)
                     /\ Js.get "message" (server.body_of req) = JStr m
                     /\ m <> ""%string
                     /\ server.sent w' = server.sent w ++ [aiService.prompt_of m]))
    as Hstep.
  { clear. intros env r req w w' o. unfold server.app.
    destruct r; cbn [server.is_protected server.handler_of].
    - rewrite on_users_ok. intros [= _ <-]. by left.
    - rewrite on_users_ok. intros [= _ <-]. by left.
    - unfold server.guarded. destruct (server.protect cfg env req) as [res|req'].
      + intros [= _ <-]. by left.
      + cbn [server.handler_of]. rewrite on_users_ok. intros [= _ <-]. by left.
    - unfold server.guarded. destruct (server.protect cfg env req) as [res|req'];
        cbn [server.handler_of]; intros [= _ <-]; by left.
    - unfold server.guarded. destruct (server.protect cfg env req) as [res|req'];
        cbn [server.handler_of]; intros [= _ <-]; by left.
    - unfold server.guarded.
      destruct (protect_cases cfg env req) as [[msg Hp] | (tok & decoded & _ & _ & Hp)];
        rewrite Hp.
      + intros [= _ <-]. by left.
      + cbn [server.handler_of]. rewrite on_sent_ok. intros [= _ <-].
        cbn [server.sent].
        destruct (chat_sent (server.set_user decoded req) (server.sent w))
          as [-> | (m & Hm & Hne & ->)]; [by left|].
        right. split; [reflexivity|]. by exists decoded, m. }
  intros Happ. split; [by eapply Hstep|]. intros Hreach.
  assert (server.reachable cfg w') as Hreach' by (by eapply server.reachable_step).
  clear Happ Hreach. induction Hreach' as [|env0 r0 req0 w0 o0 w1 _ IH Happ0].
  - constructor.
  - destruct (Hstep _ _ _ _ _ _ Happ0) as [-> | (_ & _ & m & _ & _ & Hne & ->)];
      [exact IH|].
    apply Forall_app. split; [exact IH|]. constructor; [|constructor]. by exists m.
Qed.

End Chat.

(** ** The `Authorization` header *)

Section Header.

(** X13. Which headers carry a token. `protect` reads the token [tok]
    from the `Authorization` header exactly when the header is the word
    'Bearer', any characters but a space, one space, [tok], and then
    nothing or a space and anything: the scheme is only a prefix test,
    the token is the second piece between single spaces (it is empty when
    two spaces follow the scheme), and later pieces are ignored. *)
Theorem bearer_token_iff (req : server.AuthRequest) (tok : string) :
  server.bearer_token req = Some tok
  <-> exists x tail,
        server.headers req !! "authorization"
        = Some ("Bearer" ++ x ++ " " ++ tok ++ tail)%string
        /\ Str.has_space x = false /\ Str.has_space tok = false
        /\ (tail = ""%string \/ exists rest, tail = (" " ++ rest)%string).
Proof.
  unfold server.bearer_token. split.
  - destruct (server.headers req !! "authorization") as [a|]; [|discriminate].
    destruct (negb (String.eqb a "")); [|discriminate]. cbn [andb].
    unfold Str.startsWith. destruct (String.prefix "Bearer" a) eqn:Hpre; [|discriminate].
    destruct (split_space_cases a) as (p & ps & Hsplit & Hp & Hrest).
    rewrite Hsplit. destruct Hrest as [[-> ->] | (s' & -> & ->)]; [discriminate|].
    destruct (prefix_before_space "Bearer" p s' eq_refl Hpre) as [x ->].
    destruct (split_space_cases s') as (q & qs & Hsplit' & Hq & Hrest').
    rewrite Hsplit'. intros [= ->].
    rewrite has_space_app in Hp. apply orb_false_elim in Hp as [_ Hx].
    destruct Hrest' as [[-> ->] | (s'' & -> & ->)].
    + exists x, ""%string. rewrite append_empty. repeat split; [done|done|by left].
    + exists x, (" " ++ s'')%string. repeat split; [done|done|]. right. by exists s''.
  - intros (x & tail & -> & Hx & Htok & Htail).
    assert (negb (String.eqb ("Bearer" ++ x ++ " " ++ tok ++ tail) "")
            && Str.startsWith ("Bearer" ++ x ++ " " ++ tok ++ tail) "Bearer" = true)
      as ->.
    { apply andb_true_intro. split; [reflexivity|apply (prefix_app "Bearer")]. }
    change ("Bearer" ++ x ++ " " ++ tok ++ tail)%string
      with (("Bearer" ++ x) ++ " " ++ tok ++ tail)%string.
    rewrite split_space_app by (by rewrite has_space_app, Hx).
    change ((?a :: ?l) !! 1%nat) with (l !! 0%nat).
    destruct Htail as [-> | [rest ->]].
    + by rewrite append_empty, split_space_no_space.
    + by rewrite split_space_app.
Qed.

End Header.

(** ** Cleaning the text of the model *)

Section Clean.

Lemma includes_char_cons (a c : ascii) (s : string) :
  Str.includes (String c s) (String a "") = false ->
  a <> c /\ Str.includes s (String a "") = false.
Proof.
  change (Str.includes (String c s) (String a ""))
    with (String.prefix (String a "") (String c s) || Str.includes s (String a "")).
  rewrite prefix_cons.
  destruct (Ascii.ascii_dec a c) as [<-|Hne]; [by destruct s|].
  intros Hs. by split.
Qed.

(** No pattern matches at a character that begins none of them. *)
Lemma match_at_none (ps : list string) (c : ascii) (s : string) :
  Forall (fun p => exists a p', p = String a p' /\ a <> c) ps ->
  Str.match_at ps (String c s) = None.
Proof.
  induction 1 as [|p ps (a & p' & -> & Hne) _ IH]; [reflexivity|].
  cbn [Str.match_at]. rewrite prefix_cons.
  by destruct (Ascii.ascii_dec a c).
Qed.

(** Removing patterns from a text in which the first character of each
    does not occur changes nothing. *)
Lemma remove_all_absent (ps : list string) (s : string) :
  Forall (fun p => exists a p', p = String a p'
                                /\ Str.includes s (String a "") = false) ps ->
  Str.remove_all ps s = s.
Proof.
  unfold Str.remove_all. induction s as [|c s IH]; [reflexivity|]. intros Hps.
  cbn [Str.remove_all_from]. rewrite match_at_none.
  - rewrite IH; [reflexivity|]. eapply Forall_impl; [exact Hps|].
    intros p (a & p' & -> & Ha). exists a, p'. split; [reflexivity|].
    by apply includes_char_cons in Ha as [_ ?].
  - eapply Forall_impl; [exact Hps|].
    intros p (a & p' & -> & Ha). exists a, p'. split; [reflexivity|].
    by apply includes_char_cons in Ha as [? _].
Qed.

(** X14. A reply without markup is only trimmed. On a text that holds
    neither '<' nor '[', the three replacements of `getAIResponse` remove
    nothing: the text returned is the reply with the white space at its
    two ends taken off. *)
Theorem cleanResponse_plain_text (s : string) :
  Str.includes s "<" = false ->
  Str.includes s "[" = false ->
  aiService.cleanResponse s = Str.trim s.
Proof.
  intros Hlt Hbr. unfold aiService.cleanResponse.
  rewrite (remove_all_absent ["<s>"; "</s>"]%string s).
  - rewrite (remove_all_absent ["[INST]"]%string s).
    + rewrite (remove_all_absent ["[/INST]"]%string s); [reflexivity|].
      repeat constructor. by eexists _, _.
    + repeat constructor. by eexists _, _.
  - repeat constructor; by eexists _, _.
Qed.

End Clean.

(** ** The older server, over this user model *)

Section Old.
Context `{Bcrypt} `{JwtCodec} `{Mongoose} `{Ollama}.
Variable cfg : server.Config.
Variable env : Env.

(** X15. The older signup route cannot register anyone under this schema.
    It builds the document from `email` and `password` alone, and the
    schema requires `firstName` and `lastName`: run over this user model,
    every request is answered 400 or 500 and the collection is never
    written; past the route's own checks the answer is the 500 of the
    validation error. *)
Theorem old_signup_never_registers (req : server.AuthRequest) (db : list User.t) :
  exists res,
    server_old.signup cfg env req db = (Ok res, db)
    /\ (server.status res = 400 \/ server.status res = 500)
    /\ (forall f,
          truthy (Js.get "email" (server.body_of req)) = true ->
          truthy (Js.get "password" (server.body_of req)) = true ->
          User.email_filter (Js.get "email" (server.body_of req)) = Ok f ->
          find (fun u => f (User.email u)) db = None ->
          server.status res = 500
          /\ Js.get "message" (server.body res) = JStr "Server error during signup").
Proof.
  unfold server_old.signup.
  destruct (truthy (Js.get "email" (server.body_of req)));
    [destruct (truthy (Js.get "password" (server.body_of req)))|]; cbn [negb orb].
  2,3: (eexists; split; [reflexivity|]; split; [by left|]; intros; discriminate).
  run_app. unfold User.findOne. run_app.
  destruct (User.email_filter _) as [f|e].
  2:{ destruct (bool_decide _); (eexists; split; [reflexivity|]);
        (split; [by (left + right)|]); intros; discriminate. }
  destruct (find _ db) eqn:Hfind; cbn [fmap option_fmap option_map].
  { eexists. split; [reflexivity|]. split; [by left|].
    intros f' _ _ [= <-] Hnone. congruence. }
  set (draft := User.new_User _ _ _ _ _ _ _ _).
  unfold User.save.
  destruct (User.validate draft) as [|err errs] eqn:Hv.
  { apply (validate_fields draft) in Hv as (_ & (fn & Hfn & _) & _). discriminate. }
  unfold throw, User.ValidationError. cbn [Js.code Js.message].
  rewrite bool_decide_eq_false_2 by done.
  eexists. split; [reflexivity|]. split; [by right|]. by intros.
Qed.

(** X16. The two login routes decide alike. On every request and
    collection the older login and the later one answer with the same
    status, the same `message`, the same `token` and the same `error`, and
    neither writes; they differ only in how the account is shown
    (`userId` and `email` against `user`). *)
Theorem old_login_agrees (req : server.AuthRequest) (db : list User.t) :
  exists old new,
    server_old.login cfg env req db = (Ok old, db)
    /\ server.login cfg env req db = (Ok new, db)
    /\ server.status old = server.status new
    /\ Js.get "message" (server.body old) = Js.get "message" (server.body new)
    /\ Js.get "token" (server.body old) = Js.get "token" (server.body new)
    /\ Js.get "error" (server.body old) = Js.get "error" (server.body new).
Proof.
  unfold server_old.login, server.login.
  destruct (negb _ || negb _).
  { by eexists _, _. }
  run_app. unfold User.findOne. run_app.
  destruct (User.email_filter _) as [f|e]; [|by eexists _, _].
  destruct (find _ db) as [u|]; cbn [fmap option_fmap option_map]; [|by eexists _, _].
  destruct (User.comparePassword _ _) as [[|]|e]; cbn [negb]; [|by eexists _, _..].
  destruct (jwt.sign _ _ _ _) as [token|e]; by eexists _, _.
Qed.

End Old.

(** ** The frontend against the server *)

Section Frontend.
Context `{Bcrypt} `{JwtCodec} `{Mongoose} `{Ollama} `{Json}.
Variable cfg : server.Config.
Variable env : Env.

(** `parseInt` of a number in the range of the form reads it back. *)
Lemma parseInt_age (n : Z) : 13 <= n <= 100 -> Js.parseInt (Js.JNum n) = Some n.
Proof.
  intros Hn.
  assert (forallb (fun k => match Js.parseInt (Js.JNum (Z.of_nat k)) with
                            | Some m => m =? Z.of_nat k
                            | None => false
                            end) (seq 13 88) = true) as Hall
    by (vm_compute; reflexivity).
  rewrite forallb_forall in Hall. specialize (Hall (Z.to_nat n)).
  rewrite Z2Nat.id in Hall by lia.
  destruct (Js.parseInt (Js.JNum n)) as [m|].
  - f_equal. apply Z.eqb_eq. apply Hall. apply in_seq. lia.
  - discriminate Hall. apply in_seq. lia.
Qed.

(** X17. What the signup form lets through, the schema accepts as an age.
    When `handleSubmit` sends a request, the document the server builds
    from it has no age (the field was left empty or did not parse) or an
    age between 13 and 100: neither age validator of the schema can fail
    on a submission of the form. The password confirmation is checked
    first and is not sent. *)
Theorem form_age_passes_schema (f : SignupForm.formData) (body : jsval) :
  SignupForm.handleSubmit f = SignupForm.Sent body ->
  SignupForm.password f = SignupForm.confirmPassword f
  /\ Js.mentions "confirmPassword" body = false
  /\ (User.d_age (server.signup_draft env (SignupForm.request body)) = User.Absent
      \/ exists n, 13 <= n <= 100
                   /\ User.d_age (server.signup_draft env (SignupForm.request body))
                      = User.Value n).
Proof.
  unfold SignupForm.handleSubmit.
  destruct (String.eqb_spec (SignupForm.password f) (SignupForm.confirmPassword f))
    as [Hpw|_]; [|discriminate]. cbn [negb].
  unfold SignupForm.age_out_of_range, SignupForm.age_on_the_wire.
  destruct (String.eqb (SignupForm.age f) "") eqn:Hage; cbn [negb andb].
  - intros [= <-]. split; [exact Hpw|]. split; [reflexivity|]. left.
    apply String.eqb_eq in Hage. rewrite Hage. reflexivity.
  - destruct (Js.parseInt (JStr (SignupForm.age f))) as [n|].
    + destruct (Z.ltb_spec n 13); [discriminate|].
      destruct (Z.ltb_spec 100 n); [discriminate|]. cbn [orb].
      intros [= <-]. split; [exact Hpw|]. split; [reflexivity|]. right.
      exists n. split; [lia|].
      unfold server.signup_draft, SignupForm.request.
      cbn [server.body_of User.new_User User.d_age].
      change (Js.get "age" _) with (Js.JNum n). cbn [truthy].
      destruct (Z.eqb_spec n 0); [lia|]. cbn [negb User.castNumber].
      by rewrite parseInt_age by lia.
    + intros [= <-]. split; [exact Hpw|]. split; [reflexivity|]. by left.
Qed.

(** X18. Logging out outlives a reload. After `handleLogout`, whatever the
    storage held, the mount effect of a freshly loaded page finds no
    session: the storage is left as logout left it, the state is the
    initial one, and the dashboard route sends to the login page. *)
Theorem logout_then_reload (localStorage : gmap string string) (st : App.state) :
  App.reload (fst (App.handleLogout localStorage st))
  = (fst (App.handleLogout localStorage st), App.initial)
  /\ App.route_element "/dashboard"
       (snd (App.reload (fst (App.handleLogout localStorage st))))
     = App.Navigate "/login".
Proof.
  assert (App.reload (fst (App.handleLogout localStorage st))
          = (fst (App.handleLogout localStorage st), App.initial)) as Hre.
  { unfold App.reload, App.on_mount, App.handleLogout. cbn [fst].
    rewrite !(lookup_delete_ne _ _ "authToken") by done.
    by rewrite lookup_delete_eq. }
  split; [exact Hre|]. by rewrite Hre.
Qed.

(** X19. A login outlives a reload, if the stored user reads back. After
    `handleLoginSuccess` with a non-empty token and a user whose JSON text
    is not empty and parses back to it, the mount effect of a freshly
    loaded page restores the logged-in state with that user and leaves the
    storage alone; if the text does not parse, it removes the token and
    the user from the storage and the page starts logged out. *)
Theorem login_then_reload (token : string) (userData : jsval)
    (localStorage : gmap string string) (st : App.state) :
  token <> ""%string ->
  JSON_stringify userData <> ""%string ->
  let stored := fst (App.handleLoginSuccess token userData localStorage st) in
  (JSON_parse (JSON_stringify userData) = Ok userData ->
   App.reload stored = (stored, {| App.isLoggedIn := true; App.user := userData |}))
  /\ (forall e, JSON_parse (JSON_stringify userData) = Throw e ->
      App.reload stored
      = (delete "userData" (delete "authToken" stored), App.initial)).
Proof.
  intros Htoken Htext stored.
  assert (stored !! "authToken" = Some token) as Ht.
  { unfold stored, App.handleLoginSuccess. cbn [fst].
    rewrite lookup_insert_ne by done. by rewrite lookup_insert_eq. }
  assert (stored !! "userData" = Some (JSON_stringify userData)) as Hu.
  { unfold stored, App.handleLoginSuccess. cbn [fst]. by rewrite lookup_insert_eq. }
  unfold App.reload, App.on_mount. rewrite Ht, Hu.
  destruct (String.eqb_spec token "") as [|_]; [done|].
  destruct (String.eqb_spec (JSON_stringify userData) "") as [|_]; [done|].
  cbn [negb andb]. split.
  - by intros ->.
  - by intros e ->.
Qed.

(** X20. What the dashboard makes of the profile route. With a non-empty
    token in the storage, `fetchUserProfile` against the server ends in
    one of three ways: `protect` refused the token, and the token and the
    user are removed from the storage and the page goes to the login; or
    `protect` accepted it and the account whose id the token carries is
    in the collection, and the profile of that account is shown; or
    `protect` accepted it and no profile came back (the id is no
    ObjectId, or no account has it: 500 or 404), and the error 'Failed to
    fetch profile' is shown with the storage as it was. Loading always
    ends. *)
Theorem dashboard_profile_outcomes (w : server.World) (token : string)
    (localStorage : gmap string string) :
  localStorage !! "authToken" = Some token -> token <> ""%string ->
  let fetch := fun req => fst (server.app cfg env server.GET_user_profile req w) in
  let result := Dashboard.fetchUserProfile fetch localStorage in
  Dashboard.loading (snd result) = false
  /\ ((exists res,
         server.protect cfg env (Dashboard.profile_request token) = server.Responded res
         /\ result = (delete "userData" (delete "authToken" localStorage),
                      {| Dashboard.user := JNull; Dashboard.loading := false;
                         Dashboard.error := None;
                         Dashboard.navigated := Some "/login"%string |}))
      \/ (exists decoded oid u,
            server.protect cfg env (Dashboard.profile_request token)
            = server.Next (server.set_user decoded (Dashboard.profile_request token))
            /\ castObjectId (id decoded) = Some oid
            /\ find (fun u => String.eqb (User._id u) oid) (server.users w) = Some u
            /\ result = (localStorage,
                         {| Dashboard.user :=
                              JObj (server.profile_view (User.select false u));
                            Dashboard.loading := false; Dashboard.error := None;
                            Dashboard.navigated := None |}))
      \/ (exists decoded,
            server.protect cfg env (Dashboard.profile_request token)
            = server.Next (server.set_user decoded (Dashboard.profile_request token))
            /\ (castObjectId (id decoded) = None
                \/ exists oid,
                     castObjectId (id decoded) = Some oid
                     /\ find (fun u => String.eqb (User._id u) oid) (server.users w)
                        = None)
            /\ result = (localStorage,
                         {| Dashboard.user := JNull; Dashboard.loading := false;
                            Dashboard.error := Some "Failed to fetch profile"%string;
                            Dashboard.navigated := None |}))).
Proof.
  intros Hls Htoken fetch result. unfold result, Dashboard.fetchUserProfile.
  rewrite Hls. destruct (String.eqb_spec token "") as [|_]; [done|].
  unfold fetch, server.app. cbn [server.is_protected]. unfold server.guarded.
  destruct (protect_cases cfg env (Dashboard.profile_request token))
    as [[msg Hp] | (tok & decoded & _ & _ & Hp)]; rewrite Hp.
  - split; [reflexivity|]. left. eexists. split; reflexivity.
  - cbn [server.handler_of]. rewrite on_users_ok. cbn [fst].
    unfold server.profile, User.findById. run_app.
    cbn [server.user server.set_user fmap option_fmap option_map].
    destruct (castObjectId (id decoded)) as [oid|] eqn:Hcast.
    + run_app.
      destruct (find (fun u => String.eqb (User._id u) oid) (server.users w))
        as [u|] eqn:Hfind; cbn [fmap option_fmap option_map fst].
      * split; [reflexivity|]. right. left. by exists decoded, oid, u.
      * split; [reflexivity|]. right. right. exists decoded.
        split; [reflexivity|]. split; [|reflexivity]. right. by exists oid.
    + split; [reflexivity|]. right. right. exists decoded.
      split; [reflexivity|]. split; [by left|reflexivity].
Qed.

(** X21. The login form against the login route. The submission ends in
    one of two ways: the route answered 200, and the form stores the token
    and the user of the answer, greets the user by first name, calls
    `onLoginSuccess` with the two and heads for the dashboard; or the
    route answered 400 or 500, and the form shows the route's own message
    as an error and stores nothing. The 'Network error' text is never
    shown for an answer of this route. *)
Theorem login_form_against_server (db : list User.t) (email password : string)
    (localStorage : gmap string string) :
  let fetch := fun req => fst (server.login cfg env req db) in
  let result := Login.handleSubmit fetch email password localStorage in
  exists res,
    server.login cfg env (Login.request email password) db = (Ok res, db)
    /\ ((exists token u,
           In u db
           /\ res = server.json 200
                      [("message", JStr "Logged in successfully");
                       ("token", JStr token);
                       ("user", JObj (server.profile_view (User.select true u)))]
           /\ result
              = (<["userData" := JSON_stringify
                                   (JObj (server.profile_view (User.select true u)))]>
                   (<["authToken" := token]> localStorage),
                 {| Login.message := JStr ("Welcome back, " ++ User.firstName u ++ "!");
                    Login.messageType := "success";
                    Login.onLoginSuccess :=
                      Some (JStr token,
                            JObj (server.profile_view (User.select true u)));
                    Login.navigated := Some "/dashboard"%string |}))
        \/ (exists m,
              (server.status res = 400 \/ server.status res = 500)
              /\ Js.get "message" (server.body res) = JStr m
              /\ result
                 = (localStorage,
                    {| Login.message := JStr m; Login.messageType := "error";
                       Login.onLoginSuccess := None; Login.navigated := None |}))).
Proof.
  intros fetch result. unfold result, Login.handleSubmit, fetch.
  unfold server.login.
  change (Js.get "email" (server.body_of (Login.request email password)))
    with (JStr email).
  change (Js.get "password" (server.body_of (Login.request email password)))
    with (JStr password).
  destruct (negb (truthy (JStr email)) || negb (truthy (JStr password))).
  { eexists. split; [reflexivity|]. right. eexists.
    split; [by left|]. split; reflexivity. }
  run_app. unfold User.findOne. run_app. cbn [User.email_filter].
  destruct (find _ db) as [u|] eqn:Hfind; cbn [fmap option_fmap option_map].
  2:{ eexists. split; [reflexivity|]. right. eexists.
      split; [by left|]. split; reflexivity. }
  destruct (User.comparePassword _ _) as [[|]|e]; cbn [negb].
  - destruct (jwt.sign _ _ _ _) as [token|e].
    + eexists. split; [reflexivity|]. left. exists token, u.
      split; [by apply find_some in Hfind as [? _]|]. split; reflexivity.
    + eexists. split; [reflexivity|]. right. eexists.
      split; [by right|]. split; reflexivity.
  - eexists. split; [reflexivity|]. right. eexists.
    split; [by left|]. split; reflexivity.
  - eexists. split; [reflexivity|]. right. eexists.
    split; [by right|]. split; reflexivity.
Qed.

(** X22. The login form does not work with the older login route. When
    that route answers 200 (the account exists, the password matches and a
    token was signed), its answer has no `user`: the form fails on
    `data.user.firstName`, shows 'Network error. Please try again later.',
    stores nothing and does not call `onLoginSuccess`. *)
Theorem login_form_against_old_server (db db' : list User.t)
    (email password : string) (localStorage : gmap string string)
    (res : server.Response) :
  server_old.login cfg env (Login.request email password) db = (Ok res, db') ->
  server.status res = 200 ->
  Login.handleSubmit (fun req => fst (server_old.login cfg env req db))
    email password localStorage
  = (localStorage,
     {| Login.message := JStr "Network error. Please try again later.";
        Login.messageType := "error";
        Login.onLoginSuccess := None; Login.navigated := None |}).
Proof.
  unfold Login.handleSubmit.
  destruct (server_old.login cfg env (Login.request email password) db)
    as [o db1] eqn:Hrun.
  intros [= -> ->] H200. cbn [fst].
  assert (Js.get "user" (server.body res) = Js.JUndefined) as Huser.
  { revert Hrun. unfold server_old.login.
    destruct (negb _ || negb _); [by intros [= <- _]|].
    run_app. unfold User.findOne. run_app.
    destruct (User.email_filter _) as [f|e]; [|by intros [= <- _]].
    destruct (find _ db) as [u|]; cbn [fmap option_fmap option_map];
      [|by intros [= <- _]].
    destruct (User.comparePassword _ _) as [[|]|e]; cbn [negb];
      [|by intros [= <- _]..].
    destruct (jwt.sign _ _ _ _) as [token|e]; by intros [= <- _]. }
  unfold Dashboard.ok. rewrite H200, Huser. reflexivity.
Qed.

End Frontend.

(** ** The address pattern of the schema *)

Section Pattern.

Lemma email_run_app (st : User.email_nfa) (p r : string) :
  User.email_run st (p ++ r) = User.email_run (User.email_run st p) r.
Proof. revert st. induction p as [|c p IH]; intros st; [reflexivity|]. apply IH. Qed.

Lemma run_accepted (st : User.email_nfa) (s : string) :
  User.q5 st = true -> User.q5 (User.email_run st s) = true.
Proof.
  revert st. induction s as [|c s IH]; intros st Hq; [exact Hq|].
  apply IH. cbn [User.email_step User.q5]. by rewrite Hq.
Qed.

Lemma run_after_dot (st : User.email_nfa) (s : string) :
  User.q4 st = true -> EmailPattern.after_dot s ->
  User.q5 (User.email_run st s) = true.
Proof.
  intros Hq (c & q & -> & Hc). cbn [User.email_run]. apply run_accepted.
  cbn [User.email_step User.q5]. rewrite Hq, Hc. by rewrite orb_true_r.
Qed.

Lemma run_in_domain (st : User.email_nfa) (s : string) :
  User.q3 st = true -> EmailPattern.in_domain s ->
  User.q5 (User.email_run st s) = true.
Proof.
  intros Hq (b & r & -> & Hb & Hr). revert st Hq.
  induction b as [|x b IH]; intros st Hq.
  - change (User.q5 (User.email_run (User.email_step st ".") r) = true).
    apply run_after_dot; [|exact Hr]. cbn [User.email_step User.q4]. by rewrite Hq.
  - cbn [EmailPattern.dots] in Hb. apply andb_prop in Hb as [Hx Hb].
    change (User.q5 (User.email_run (User.email_step st x) (b ++ String "." r)) = true).
    apply (IH Hb). cbn [User.email_step User.q3]. rewrite Hq, Hx.
    by rewrite orb_true_r.
Qed.

Lemma run_after_at (st : User.email_nfa) (s : string) :
  User.q2 st = true -> EmailPattern.after_at s ->
  User.q5 (User.email_run st s) = true.
Proof.
  intros Hq (x & r & -> & Hx & Hr). cbn [User.email_run].
  apply run_in_domain; [|exact Hr]. cbn [User.email_step User.q3]. by rewrite Hq, Hx.
Qed.

Lemma run_at_sign (st : User.email_nfa) (s : string) :
  User.q1 st = true -> EmailPattern.at_sign s ->
  User.q5 (User.email_run st s) = true.
Proof.
  intros Hq (r & -> & Hr). cbn [User.email_run].
  apply run_after_at; [|exact Hr]. cbn [User.email_step User.q2]. by rewrite Hq.
Qed.

Lemma run_anywhere (st : User.email_nfa) (s : string) :
  EmailPattern.anywhere s -> User.q5 (User.email_run st s) = true.
Proof.
  intros (p & a & r & -> & Ha & Hr). rewrite email_run_app. cbn [User.email_run].
  apply run_at_sign; [|exact Hr]. cbn [User.email_step User.q1]. by rewrite Ha.
Qed.

(** What a run that ends accepted had left to read, by the state it
    started in. *)
Lemma run_inv (st : User.email_nfa) (s : string) :
  User.q5 (User.email_run st s) = true ->
  User.q5 st = true
  \/ (User.q4 st = true /\ EmailPattern.after_dot s)
  \/ (User.q3 st = true /\ EmailPattern.in_domain s)
  \/ (User.q2 st = true /\ EmailPattern.after_at s)
  \/ (User.q1 st = true /\ EmailPattern.at_sign s)
  \/ EmailPattern.anywhere s.
Proof.
  revert st. induction s as [|x s IH]; intros st Hrun; [by left|].
  apply IH in Hrun. cbn [User.email_step User.q1 User.q2 User.q3 User.q4 User.q5] in Hrun.
  destruct Hrun as [H5 | [[H4 Hs] | [[H3 Hs] | [[H2 Hs] | [[H1 Hs] | Hs]]]]].
  - apply orb_prop in H5 as [H5 | [Hx H4]%andb_prop]; [by left|].
    right. left. split; [exact H4|]. exists x, s. split; [reflexivity|].
    by apply negb_true_iff.
  - apply andb_prop in H4 as [H3 Hx]. apply Ascii.eqb_eq in Hx as ->.
    right. right. left. split; [exact H3|].
    exists ""%string, s. by repeat split.
  - apply andb_prop in H3 as [Hx H23].
    destruct Hs as (b & r & -> & Hb & Hr).
    assert (EmailPattern.dots (String x b) = true) as Hxb
      by (cbn [EmailPattern.dots]; by rewrite Hx, Hb).
    apply orb_prop in H23 as [H2 | H3].
    + right. right. right. left. split; [exact H2|].
      exists x, (b ++ String "." r)%string. split; [reflexivity|].
      split; [by apply negb_true_iff|]. by exists b, r.
    + right. right. left. split; [exact H3|].
      exists (String x b), r. by repeat split.
  - apply andb_prop in H2 as [H1 Hx]. apply Ascii.eqb_eq in Hx as ->.
    right. right. right. right. left. split; [exact H1|]. by exists s.
  - right. right. right. right. right.
    exists ""%string, x, s. split; [reflexivity|].
    split; [by apply negb_true_iff|exact Hs].
  - right. right. right. right. right.
    destruct Hs as (p & a & r & -> & Ha & Hr).
    exists (String x p), a, r. by repeat split.
Qed.

(** X23. The address pattern of the schema, `/.+@.+\..+/`, accepts
    exactly the strings that hold, somewhere, a character, an `@`, one or
    more characters, a dot and one more character, none of them a line
    break: the automaton that stands for the `match` validator finds a
    match in those strings and in no other. On strings of code units
    below 256 the line breaks of `.` are LF and CR (the other two, U+2028
    and U+2029, lie above). *)
Theorem email_match_iff (s : string) :
  User.email_match s = true
  <-> exists p a x b c q,
        s = (p ++ String a (String "@" (String x (b ++ String "." (String c q)))))%string
        /\ User.is_line_terminator a = false
        /\ User.is_line_terminator x = false
        /\ EmailPattern.dots b = true
        /\ User.is_line_terminator c = false.
Proof.
  unfold User.email_match. split.
  - intros Hrun. apply run_inv in Hrun.
    destruct Hrun as [H5 | [[H4 _] | [[H3 _] | [[H2 _] | [[H1 _] | Hs]]]]];
      try discriminate.
    destruct Hs as (p & a & r & -> & Ha & r1 & -> & x & r2 & -> & Hx
                    & b & r3 & -> & Hb & c & q & -> & Hc).
    by exists p, a, x, b, c, q.
  - intros (p & a & x & b & c & q & -> & Ha & Hx & Hb & Hc).
    apply run_anywhere. eexists p, a, _. split; [reflexivity|]. split; [exact Ha|].
    eexists. split; [reflexivity|]. eexists x, _. split; [reflexivity|].
    split; [exact Hx|]. eexists b, _. split; [reflexivity|]. split; [exact Hb|].
    by exists c, q.
Qed.

End Pattern.

(** ** The further properties at work on the reference instances *)

Lemma reachable_accounts_valid_witness :
  Forall (@valid_account Reference.bcrypt) (server.users Reference.world1).
Proof.
  apply (@reachable_accounts_valid Reference.bcrypt Reference.jwt Reference.mongoose
           Reference.ollama Reference.cfg Reference.world1).
  exact reference_world1_reachable.
Defined.

Lemma collection_append_only_witness :
  (server.users Reference.world1 = server.users Reference.world0
   \/ (server.POST_auth_signup = server.POST_auth_signup /\ exists this,
         server.users Reference.world1 = server.users Reference.world0 ++ [this]
         /\ Forall (fun u => User.email u <> User.email this)
              (server.users Reference.world0)
         /\ Forall (fun u => User._id u <> User._id this)
              (server.users Reference.world0)))
  /\ (@server.reachable Reference.bcrypt Reference.jwt Reference.mongoose
        Reference.ollama Reference.cfg Reference.world0 ->
      NoDup (map User.email (server.users Reference.world1))
      /\ NoDup (map User._id (server.users Reference.world1))).
Proof.
  apply (@collection_append_only Reference.bcrypt Reference.jwt Reference.mongoose
           Reference.ollama Reference.cfg Reference.env0 server.POST_auth_signup
           (Reference.request None Reference.signup_body)
           Reference.world0 Reference.world1 (fst Reference.signed_up)).
  vm_compute. reflexivity.
Defined.

Lemma signup_invalid_is_500_witness :
  @server.signup Reference.bcrypt Reference.jwt Reference.mongoose
    Reference.cfg Reference.env0 (Reference.request None Samples.short_password)
    (server.users Reference.world1)
  = (Ok (server.json 500
           [("message", JStr "Server error during signup");
            ("error", JStr (@validation_message Reference.mongoose
                              (User.validate
                                 (server.signup_draft Reference.env0
                                    (Reference.request None Samples.short_password)))))]),
     server.users Reference.world1).
Proof.
  apply (@signup_invalid_is_500 Reference.bcrypt Reference.jwt Reference.mongoose
           Reference.cfg Reference.env0
           (Reference.request None Samples.short_password)
           (server.users Reference.world1) (String.eqb "bob@y.org")).
  - reflexivity.
  - reflexivity.
  - reflexivity.
  - reflexivity.
  - reflexivity.
  - vm_compute. reflexivity.
  - right. exists "abc"%string. split; [reflexivity|]. simpl. lia.
Defined.

Lemma signup_atomic_witness :
  exists res,
    fst Reference.signed_up = Ok res
    /\ ((server.status res <> 201
         /\ server.users Reference.world1 = server.users Reference.world0)
        \/ exists token user,
             server.users Reference.world1 = server.users Reference.world0 ++ [user]
             /\ res = server.json 201
                        [("message", JStr "User registered successfully");
                         ("token", JStr token);
                         ("user", JObj (server.signup_view user))]).
Proof.
  apply (@signup_atomic Reference.bcrypt Reference.jwt Reference.mongoose
           Reference.cfg Reference.env0 Reference.env_without_secret
           (Reference.request None Reference.signup_body)
           (server.users Reference.world0) (server.users Reference.world1)
           (fst Reference.signed_up)).
  - vm_compute. reflexivity.
  - vm_compute. reflexivity.
Defined.

Lemma login_after_signup_witness :
  exists token,
    @server.login Reference.bcrypt Reference.jwt Reference.mongoose Reference.cfg
      (Reference.later 5 Reference.env0)
      (Reference.request None (Reference.login_body " ANN@x.com" "secret1"))
      (server.users Reference.world1)
    = (Ok (server.json 200
             [("message", JStr "Logged in successfully");
              ("token", JStr token);
              ("user", JObj (server.profile_view (User.select true Reference.ann)))]),
       server.users Reference.world1).
Proof.
  destruct (@login_after_signup Reference.bcrypt Reference.jwt Reference.mongoose
              Reference.cfg Reference.env0 reference_bcrypt_contract
              (Reference.later 5 Reference.env0)
              (Reference.request None Reference.signup_body)
              (Reference.request None (Reference.login_body " ANN@x.com" "secret1"))
              [] (server.users Reference.world1) Reference.created
              "Ann@X.com" " ANN@x.com" "secret1" "secret1")
    as (user & h & h' & token & Hdb & _ & _ & _ & Hlogin & Hsame);
    [vm_compute; reflexivity|reflexivity|reflexivity|reflexivity|reflexivity
    |reflexivity|reflexivity|discriminate|].
  injection Hdb as <-. exists token.
  rewrite (Hsame eq_refl), String.eqb_refl in Hlogin. exact Hlogin.
Defined.

Lemma logout_does_not_revoke_witness :
  exists decoded,
    now Reference.env0 / 1000 < exp decoded
    /\ forall env' r,
         server.is_protected r = true ->
         now env' / 1000 < exp decoded ->
         Reference.app Reference.cfg env' r (Reference.bearer JNull) Reference.world1
         = @server.handler_of Reference.bcrypt Reference.jwt Reference.mongoose
             Reference.ollama Reference.cfg env' r
             (server.set_user decoded (Reference.bearer JNull)) Reference.world1.
Proof.
  apply (@logout_does_not_revoke Reference.bcrypt Reference.jwt Reference.mongoose
           Reference.ollama Reference.cfg Reference.env0 (Reference.bearer JNull)
           Reference.world1 Reference.world1
           (server.json 200 [("message", JStr "Logged out successfully")])).
  - vm_compute. reflexivity.
  - reflexivity.
Defined.

Lemma profile_after_signup_witness :
  exists token user,
    Js.get "token" (server.body Reference.created) = JStr token
    /\ server.users Reference.world1 = [] ++ [user]
    /\ forall env' req' w,
         server.users w = server.users Reference.world1 ->
         server.headers req' !! "authorization" = Some ("Bearer " ++ token)%string ->
         Reference.app Reference.cfg env' server.GET_user_profile req' w
         = (Ok (if now env' / 1000 <? now Reference.env0 / 1000 + 3600
                then server.json 200 (server.profile_view (User.select false user))
                else server.json 401 [("message", JStr "Token is not valid")]),
            w).
Proof.
  apply (@profile_after_signup Reference.bcrypt Reference.jwt Reference.mongoose
           Reference.ollama Reference.cfg reference_jwt_contract Reference.env0
           (Reference.request None Reference.signup_body)
           [] (server.users Reference.world1) Reference.created).
  - vm_compute. reflexivity.
  - reflexivity.
  - vm_compute. reflexivity.
Defined.

Lemma chat_answers_witness :
  exists res,
    @server.chat Reference.ollama Reference.cfg
      (Reference.request None Samples.question) []
    = (Ok res, [aiService.prompt_of "Which degree suits me?"]).
Proof.
  destruct (@chat_answers Reference.ollama Reference.cfg
              (Reference.request None Samples.question)
              "Which degree suits me?" [])
    as (res & Hrun & _); [reflexivity|discriminate|].
  exists res. exact Hrun.
Defined.

Lemma chat_endpoint_unreachable_witness :
  @server.chat Samples.ollama_down Reference.cfg
    (Reference.request None Samples.question) []
  = (Ok (server.json 503
           [("message", JStr "Unable to connect to Ollama service. Please make sure Ollama is running locally.");
            ("error", JStr "Unable to connect to Ollama service. Please make sure Ollama is running locally.")]),
     [] ++ [aiService.prompt_of "Which degree suits me?"]).
Proof.
  apply (@chat_endpoint_unreachable Samples.ollama_down Reference.cfg
           (Reference.request None Samples.question) "Which degree suits me?" []
           {| Js.name := "TypeError"; Js.code := None;
              Js.message := "fetch failed: connect ECONNREFUSED 127.0.0.1:11434" |}).
  - reflexivity.
  - discriminate.
  - reflexivity.
  - vm_compute. reflexivity.
Defined.

Lemma cleanResponse_plain_text_witness :
  aiService.cleanResponse "  Ask your school counsellor. "
  = Str.trim "  Ask your school counsellor. ".
Proof.
  apply (cleanResponse_plain_text "  Ask your school counsellor. ");
    vm_compute; reflexivity.
Defined.

Lemma form_age_passes_schema_witness :
  SignupForm.password Samples.form = SignupForm.confirmPassword Samples.form
  /\ Js.mentions "confirmPassword" Samples.form_body = false
  /\ (User.d_age (server.signup_draft Reference.env0
                    (SignupForm.request Samples.form_body)) = User.Absent
      \/ exists n, 13 <= n <= 100
                   /\ User.d_age (server.signup_draft Reference.env0
                                    (SignupForm.request Samples.form_body))
                      = User.Value n).
Proof.
  apply (form_age_passes_schema Reference.env0 Samples.form Samples.form_body).
  vm_compute. reflexivity.
Defined.

Lemma login_then_reload_witness :
  @App.reload Samples.json
    (fst (@App.handleLoginSuccess Samples.json Reference.token1 (JStr "ann") ∅
            App.initial))
  = (fst (@App.handleLoginSuccess Samples.json Reference.token1 (JStr "ann") ∅
            App.initial),
     {| App.isLoggedIn := true; App.user := JStr "ann" |}).
Proof.
  apply (proj1 (@login_then_reload Samples.json Reference.token1 (JStr "ann") ∅
                  App.initial ltac:(discriminate) ltac:(discriminate))).
  vm_compute. reflexivity.
Defined.

Lemma dashboard_profile_outcomes_witness :
  Dashboard.fetchUserProfile
    (fun req => fst (Reference.app Reference.cfg Reference.env0
                       server.GET_user_profile req Reference.world1))
    Samples.storage
  = (Samples.storage,
     {| Dashboard.user :=
          JObj (server.profile_view (User.select false Reference.ann));
        Dashboard.loading := false; Dashboard.error := None;
        Dashboard.navigated := None |}).
Proof.
  destruct (@dashboard_profile_outcomes Reference.bcrypt Reference.jwt
              Reference.mongoose Reference.ollama Reference.cfg Reference.env0
              Reference.world1 Reference.token1 Samples.storage
              ltac:(vm_compute; reflexivity) ltac:(discriminate))
    as (_ & [(res & Hp & _) | [(decoded & oid & u & Hp & Hc & Hf & Hr)
                              | (decoded & Hp & [Hc | (oid & Hc & Hf)] & _)]]).
  - vm_compute in Hp. discriminate.
  - vm_compute in Hp. injection Hp as <-.
    vm_compute in Hc. injection Hc as <-.
    vm_compute in Hf. injection Hf as <-. exact Hr.
  - vm_compute in Hp. injection Hp as <-. vm_compute in Hc. discriminate.
  - vm_compute in Hp. injection Hp as <-.
    vm_compute in Hc. injection Hc as <-. vm_compute in Hf. discriminate.
Defined.

Lemma login_form_against_old_server_witness :
  @Login.handleSubmit Samples.json
    (fun req => fst (@server_old.login Reference.bcrypt Reference.jwt
                       Reference.mongoose Reference.cfg Reference.env0 req
                       (server.users Reference.world1)))
    "ann@x.com" "secret1" ∅
  = (∅,
     {| Login.message := JStr "Network error. Please try again later.";
        Login.messageType := "error";
        Login.onLoginSuccess := None; Login.navigated := None |}).
Proof.
  apply (@login_form_against_old_server Reference.bcrypt Reference.jwt
           Reference.mongoose Samples.json Reference.cfg Reference.env0
           (server.users Reference.world1) (snd Samples.old_login)
           "ann@x.com" "secret1" ∅ Samples.old_answer).
  - vm_compute. reflexivity.
  - reflexivity.
Defined.

Lemma prompts_only_after_protect_witness :
  Forall (fun prompt => exists m, m <> ""%string /\ prompt = aiService.prompt_of m)
    (server.sent
       (snd (Reference.app Reference.cfg Reference.env0 server.POST_ai_chat
               (Reference.bearer Samples.question) Reference.world1))).
Proof.
  apply (proj2 (@prompts_only_after_protect Reference.bcrypt Reference.jwt
                  Reference.mongoose Reference.ollama Reference.cfg Reference.env0
                  server.POST_ai_chat (Reference.bearer Samples.question)
                  Reference.world1
                  (snd (Reference.app Reference.cfg Reference.env0 server.POST_ai_chat
                          (Reference.bearer Samples.question) Reference.world1))
                  (fst (Reference.app Reference.cfg Reference.env0 server.POST_ai_chat
                          (Reference.bearer Samples.question) Reference.world1))
                  ltac:(apply surjective_pairing))).
  exact reference_world1_reachable.
Defined.

Lemma reachable_accounts_untouched_witness :
  Forall untouched_profile (server.users Reference.world1).
Proof.
  apply (@reachable_accounts_untouched Reference.bcrypt Reference.jwt
           Reference.mongoose Reference.ollama Reference.cfg Reference.world1).
  exact reference_world1_reachable.
Defined.

Lemma signup_reads_seven_fields_witness :
  @server.signup Reference.bcrypt Reference.jwt Reference.mongoose Reference.cfg
    Reference.env0 (Reference.request None Reference.signup_body) []
  = @server.signup Reference.bcrypt Reference.jwt Reference.mongoose Reference.cfg
      Reference.env0 (Reference.bearer Samples.signup_with_more) [].
Proof.
  apply (@signup_reads_seven_fields Reference.bcrypt Reference.jwt Reference.mongoose
           Reference.cfg Reference.env0
           (Reference.request None Reference.signup_body)
           (Reference.bearer Samples.signup_with_more) []).
  repeat constructor.
Defined.
